(** * Registration and payment-confirmation workflow

    A shallow embedding of the two Express servers of the repository:
    the Cashfree server (registrations keyed by a random reference id,
    status poll, webhook, legacy confirmation) and the Razorpay server
    (user data keyed by the gateway order id, signature verification).

    Each route handler is a function from the request, the answers of
    the outside world it awaits (gateway, mail transport, clock, random
    bytes) and the process state to a response and a new state.  A
    handler runs from its first line to its response without another
    handler in between. *)

From Stdlib Require Import Strings.Ascii Strings.String Strings.Byte ZArith.
From stdpp Require Import gmap strings list vector pretty.

Open Scope string_scope.
Open Scope list_scope.
Set Warnings "-register-all".

(** ** JavaScript values *)

(** IEEE doubles are kept abstract: the handlers only test a number for
    truthiness, interpolate it in a template literal, or use it as a
    [Set]/[Map] key. *)
Class JSNumber := {
  number : Type;
  number_truthy : number -> bool;
  number_to_string : number -> string;
  number_same_value_zero : number -> number -> bool
}.

(** [crypto.createHmac('sha256', key).update(text).digest('hex')]. *)
Class Crypto := {
  hmac_sha256_hex : string -> string -> string
}.

Section JS.
Context `{JSNumber}.

(** What [JSON.parse] (body-parser), the query-string parser, axios and
    the Razorpay SDK hand to the handlers.  [JObj] lists the members in
    source order. *)
Inductive JVal :=
| JUndef
| JNull
| JBool (b : bool)
| JNum (n : number)
| JStr (s : string)
| JArr (items : list JVal)
| JObj (members : list (string * JVal)).

(** A thrown error, as the [catch] blocks read it: [error.response?.data]
    ([JUndef] when there is none) and [error.message]. *)
Record Exn := { response_data : JVal; message : string }.

Inductive Result (A : Type) :=
| Ok (a : A)
| Throw (e : Exn).

End JS.

Arguments Ok {_ _} a.
Arguments Throw {_ _} e.

Section JSOps.
Context `{JSNumber}.

(** The message texts are V8's; nothing below depends on them. *)
Definition TypeError (msg : string) : Exn :=
  {| response_data := JUndef; message := msg |}.

(** ToBoolean. *)
Definition truthy (v : JVal) : bool :=
  match v with
  | JUndef | JNull => false
  | JBool b => b
  | JNum n => number_truthy n
  | JStr s => negb (String.eqb s "")
  | JArr _ | JObj _ => true
  end.

(** [a || b] on values. *)
Definition js_or (a b : JVal) : JVal := if truthy a then a else b.

(** Own property [k] of a parsed object: with a repeated member the
    last one wins. *)
Fixpoint own_property (k : string) (members : list (string * JVal)) : option JVal :=
  match members with
  | [] => None
  | (k', v) :: rest =>
      match own_property k rest with
      | Some v' => Some v'
      | None => if String.eqb k k' then Some v else None
      end
  end.

(** [v.k] for the property names the handlers read (none of them is
    inherited from a prototype): a TypeError on [undefined] and [null],
    [undefined] where the property is absent. *)
Definition prop (v : JVal) (k : string) : Result JVal :=
  match v with
  | JUndef | JNull => Throw (TypeError "Cannot read properties of undefined")
  | JObj members => Ok (default JUndef (own_property k members))
  | _ => Ok JUndef
  end.

(** [v?.k]. *)
Definition opt_prop (v : JVal) (k : string) : JVal :=
  match v with
  | JObj members => default JUndef (own_property k members)
  | _ => JUndef
  end.

(** ToString, as a template literal applies it.  An object parsed from
    JSON has no callable member: with an own [toString] member
    OrdinaryToPrimitive finds nothing to call and throws; otherwise
    [Object.prototype.toString] answers.  An array is joined with
    commas, [undefined] and [null] elements giving the empty string. *)
Fixpoint to_string (v : JVal) : Result string :=
  match v with
  | JUndef => Ok "undefined"
  | JNull => Ok "null"
  | JBool true => Ok "true"
  | JBool false => Ok "false"
  | JNum n => Ok (number_to_string n)
  | JStr s => Ok s
  | JArr items =>
      (fix join (l : list JVal) : Result string :=
         match l with
         | [] => Ok ""
         | x :: rest =>
             let first :=
               match x with
               | JUndef | JNull => Ok ""
               | _ => to_string x
               end in
             match first with
             | Throw e => Throw e
             | Ok s =>
                 match rest with
                 | [] => Ok s
                 | _ :: _ =>
                     match join rest with
                     | Throw e => Throw e
                     | Ok r => Ok (s +:+ "," +:+ r)
                     end
                 end
             end
         end) items
  | JObj members =>
      match own_property "toString" members with
      | Some _ => Throw (TypeError "Cannot convert object to primitive value")
      | None => Ok "[object Object]"
      end
  end.

(** SameValueZero between a key stored by an earlier request and a value
    of the current one: two objects or arrays are then two allocations,
    never the same reference. *)
Definition same_value_zero (a b : JVal) : bool :=
  match a, b with
  | JUndef, JUndef => true
  | JNull, JNull => true
  | JBool x, JBool y => Bool.eqb x y
  | JNum x, JNum y => number_same_value_zero x y
  | JStr x, JStr y => String.eqb x y
  | _, _ => false
  end.

(** [process.env.NAME]. *)
Definition env_value (o : option string) : JVal :=
  match o with
  | Some s => JStr s
  | None => JUndef
  end.

End JSOps.

Arguments JVal {_}.
Arguments Exn {_}.
Arguments Result {_} A.

(** ** The Cashfree server *)

Module Cashfree.

Section Server.
Context `{JSNumber}.

(** [process.env], read but never written by the server. *)
Record Env := {
  EMAIL_USER : option string;
  CASHFREE_APP_ID : option string;
  CASHFREE_SECRET_KEY : option string
}.

(** A value of the [registrations] map.  [orderId] and [transactionId]
    are absent until a handler assigns them ([None], [JUndef]). *)
Record Registration := {
  fullName : JVal;
  email : JVal;
  phone : JVal;
  timestamp : Z;
  paymentConfirmed : bool;
  transactionId : JVal;
  orderId : option string
}.

(** The two mails of [sendConfirmationEmails].  Of the HTML only the
    template and the interpolated texts are kept. *)
Inductive Html :=
| UserConfirmation (fullName : string)
| AdminNotification (fullName email phone referenceId transactionId : string).

Record Mail := {
  mail_from : JVal;
  mail_to : JVal;
  subject : string;
  html : Html
}.

(** [registrations] is a [Map] with string keys, iterated in insertion
    order; [confirmedPayments] a [Set] of the same keys; [outbox] lists
    the mails the transport has accepted, oldest first. *)
Record World := {
  registrations : list (string * Registration);
  confirmedPayments : gset string;
  outbox : list Mail
}.

Definition init : World :=
  {| registrations := []; confirmedPayments := ∅; outbox := [] |}.

Record Response := { status : Z; json : JVal }.

(** *** [Map] operations on [registrations] *)

Fixpoint assoc (k : string) (m : list (string * Registration)) : option Registration :=
  match m with
  | [] => None
  | (k', v) :: rest => if String.eqb k k' then Some v else assoc k rest
  end.

(** [registrations.get(key)]: only a string equals a stored key. *)
Definition Map_get (key : JVal) (m : list (string * Registration)) : option Registration :=
  match key with
  | JStr k => assoc k m
  | _ => None
  end.

(** [registrations.set(k, v)]: an existing key keeps its place. *)
Fixpoint Map_set (k : string) (v : Registration) (m : list (string * Registration))
  : list (string * Registration) :=
  match m with
  | [] => [(k, v)]
  | (k', v') :: rest =>
      if String.eqb k k' then (k, v) :: rest else (k', v') :: Map_set k v rest
  end.

(** [confirmedPayments.has(key)]. *)
Definition Set_has (key : JVal) (s : gset string) : bool :=
  match key with
  | JStr k => bool_decide (k ∈ s)
  | _ => false
  end.

(** [value.orderId === orderId]. *)
Definition orderId_matches (value : Registration) (order_id : JVal) : bool :=
  match orderId value, order_id with
  | None, JUndef => true
  | Some o, JStr o' => String.eqb o o'
  | _, _ => false
  end.

(** The [for ... of registrations.entries()] loop of the status poll and
    of the webhook: the first key, in insertion order, whose record has
    this order id; [None] is the initial [null]. *)
Fixpoint find_reference (order_id : JVal) (m : list (string * Registration)) : option string :=
  match m with
  | [] => None
  | (key, value) :: rest =>
      if orderId_matches value order_id then Some key else find_reference order_id rest
  end.

(** [v === s] for a string literal [s]. *)
Definition is_string (v : JVal) (s : string) : bool :=
  match v with
  | JStr s' => String.eqb s' s
  | _ => false
  end.

(** [userData.paymentConfirmed = true; userData.transactionId = t]. *)
Definition paid (userData : Registration) (transaction : JVal) : Registration :=
  {| fullName := fullName userData;
     email := email userData;
     phone := phone userData;
     timestamp := timestamp userData;
     paymentConfirmed := true;
     transactionId := transaction;
     orderId := orderId userData |}.

(** [userData.orderId = o]. *)
Definition with_order (userData : Registration) (o : string) : Registration :=
  {| fullName := fullName userData;
     email := email userData;
     phone := phone userData;
     timestamp := timestamp userData;
     paymentConfirmed := paymentConfirmed userData;
     transactionId := transactionId userData;
     orderId := Some o |}.

(** [webhookData.data.order] where the webhook finds one, [undefined]
    where [webhookData.data && webhookData.data.order] is falsy for want
    of the member. *)
Definition webhook_order (webhookData : JVal) : JVal :=
  opt_prop (opt_prop webhookData "data") "order".

(** *** Random reference ids *)

Definition hex_digit (n : N) : ascii :=
  match n with
  | 0 => "0" | 1 => "1" | 2 => "2" | 3 => "3" | 4 => "4" | 5 => "5"
  | 6 => "6" | 7 => "7" | 8 => "8" | 9 => "9" | 10 => "a" | 11 => "b"
  | 12 => "c" | 13 => "d" | 14 => "e" | _ => "f"
  end%N%char.

Definition hex_byte (b : byte) : string :=
  let n := Byte.to_N b in
  String (hex_digit (n / 16)) (String (hex_digit (n mod 16)) "").

(** [buffer.toString('hex')]. *)
Fixpoint hex (bytes : list byte) : string :=
  match bytes with
  | [] => ""
  | b :: rest => hex_byte b +:+ hex rest
  end.

(** [crypto.randomBytes(6).toString('hex')], given the six bytes drawn. *)
Definition reference_id (random : vec byte 6) : string := hex (vec_to_list random).

(** [`ORDER_${referenceId}_${Date.now()}`]. *)
Definition order_id (referenceId : string) (now : Z) : string :=
  "ORDER_" +:+ referenceId +:+ "_" +:+ pretty now.

(** *** Handlers as state transformers that may throw *)

Definition Eff (A : Type) : Type := World -> Result A * World.

Definition ret {A} (a : A) : Eff A := fun w => (Ok a, w).

Definition bind {A B} (m : Eff A) (k : A -> Eff B) : Eff B :=
  fun w =>
    match m w with
    | (Ok a, w') => k a w'
    | (Throw e, w') => (Throw e, w')
    end.

Definition lift {A} (r : Result A) : Eff A := fun w => (r, w).

Definition get_world : Eff World := fun w => (Ok w, w).

Definition put_world (w : World) : Eff unit := fun _ => (Ok tt, w).

(** [try { m } catch (error) { respond (h error) }] around a whole
    handler: what was written before the throw stays written. *)
Definition try_catch (m : Eff Response) (h : Exn -> Response) (w : World)
  : Response * World :=
  match m w with
  | (Ok r, w') => (r, w')
  | (Throw e, w') => (h e, w')
  end.

End Server.

Notation "'do' x <- m ; k" := (bind m (fun x => k))
  (at level 10, x name, m at level 100, k at level 200).

Section Handlers.
Context `{JSNumber}.
Variable env : Env.

(** *** The responses *)

Definition all_fields_required : Response :=
  {| status := 400; json := JObj [("error", JStr "All fields are required")] |}.

Definition something_went_wrong : Response :=
  {| status := 500; json := JObj [("error", JStr "Something went wrong")] |}.

Definition register_ok (referenceId : string) : Response :=
  {| status := 200;
     json := JObj [("success", JBool true);
                   ("referenceId", JStr referenceId);
                   ("paymentDetails",
                    JObj [("upiId", JStr "9494100110@yesbank");
                          ("name", JStr "Inspiring Shereen");
                          ("amount", JStr "99");
                          ("currency", JStr "INR")])] |}.

Definition configuration_error : Response :=
  {| status := 500;
     json := JObj [("error", JStr "Payment gateway configuration error")] |}.

Definition invalid_reference : Response :=
  {| status := 404; json := JObj [("error", JStr "Invalid reference ID")] |}.

(** [error.response?.data?.message || error.message]. *)
Definition error_details (error : Exn) : JVal :=
  js_or (opt_prop (response_data error) "message") (JStr (message error)).

Definition order_ok (orderId : string) (paymentSessionId orderToken : JVal)
  : Response :=
  {| status := 200;
     json := JObj [("success", JBool true);
                   ("orderId", JStr orderId);
                   ("paymentSessionId", paymentSessionId);
                   ("orderToken", orderToken);
                   ("appId", env_value (CASHFREE_APP_ID env))] |}.

Definition order_failed (error : Exn) : Response :=
  {| status := 500;
     json := JObj [("error", JStr "Failed to create payment order");
                   ("details", error_details error)] |}.

Definition poll_ok (order_status data : JVal) : Response :=
  {| status := 200;
     json := JObj [("success", JBool true);
                   ("orderStatus", order_status);
                   ("paymentDetails", data)] |}.

Definition poll_failed (error : Exn) : Response :=
  {| status := 500;
     json := JObj [("error", JStr "Failed to check payment status");
                   ("details", error_details error)] |}.

Definition legacy_ok (referenceId : JVal) : Response :=
  {| status := 200;
     json := JObj [("success", JBool true); ("referenceId", referenceId)] |}.

Definition webhook_ok : Response :=
  {| status := 200; json := JObj [("success", JBool true)] |}.

Definition webhook_failed : Response :=
  {| status := 200;
     json := JObj [("success", JBool false);
                   ("error", JStr "Error processing webhook")] |}.

(** The record [registrations.set] stores for a new registrant. *)
Definition registered (fullName email phone : JVal) (now : Z) : Registration :=
  {| fullName := fullName; email := email; phone := phone;
     timestamp := now; paymentConfirmed := false;
     transactionId := JUndef; orderId := None |}.

(** *** The handlers *)

(** [!process.env.CASHFREE_APP_ID || !process.env.CASHFREE_SECRET_KEY]. *)
Definition credentials_missing : bool :=
  negb (truthy (env_value (CASHFREE_APP_ID env)))
  || negb (truthy (env_value (CASHFREE_SECRET_KEY env))).

(** [transporter.sendMail(options)] under a transport that accepts the
    mails [transport] holds for, and rejects the others. *)
Definition sendMail (transport : Mail -> bool) (options : Mail) : Eff bool :=
  fun w =>
    if transport options
    then (Ok true, {| registrations := registrations w;
                      confirmedPayments := confirmedPayments w;
                      outbox := outbox w ++ [options] |})
    else (Ok false, w).

(** The [userMailOptions] object, [name] being the registrant's name as
    the template literal prints it. *)
Definition userMailOptions (userData : Registration) (name : string) : Mail :=
  {| mail_from := env_value (EMAIL_USER env);
     mail_to := email userData;
     subject := "Your Registration is Confirmed! - Inspiring Shereen Masterclass";
     html := UserConfirmation name |}.

Definition adminMailOptions (name email phone referenceId transaction : string)
  : Mail :=
  {| mail_from := env_value (EMAIL_USER env);
     mail_to := env_value (EMAIL_USER env);
     subject := "New Registration - Inspiring Shereen Masterclass";
     html := AdminNotification name email phone referenceId transaction |}.

(** Both option objects are built, template literals included, before
    the [try]: a value that cannot be converted to a string makes the
    function throw.  Inside the [try] a rejected mail ends the function
    with [false]. *)
Definition sendConfirmationEmails (transport : Mail -> bool)
    (userData : Registration) (referenceId : string) (transactionId : JVal)
  : Eff bool :=
  do user_name <- lift (to_string (fullName userData));
  do admin_name <- lift (to_string (fullName userData));
  do admin_email <- lift (to_string (email userData));
  do admin_phone <- lift (to_string (phone userData));
  do admin_transaction <- lift (to_string transactionId);
  do user_sent <- sendMail transport (userMailOptions userData user_name);
  if user_sent
  then sendMail transport
         (adminMailOptions admin_name admin_email admin_phone
            referenceId admin_transaction)
  else ret false.

(** [userData.paymentConfirmed = true; userData.transactionId = ...;
    registrations.set(referenceId, userData);
    confirmedPayments.add(referenceId);
    await sendConfirmationEmails(userData, referenceId, ...)]:
    the block the status poll, the legacy confirmation and the webhook
    each spell out.  [userData] is the object the map holds, so the two
    assignments already change the stored record. *)
Definition confirm (transport : Mail -> bool) (referenceId : string)
    (userData : Registration) (transaction : JVal) : Eff bool :=
  let userData' := paid userData transaction in
  do w <- get_world;
  do _ <- put_world
    {| registrations := Map_set referenceId userData' (registrations w);
       confirmedPayments := confirmedPayments w ∪ {[referenceId]};
       outbox := outbox w |};
  sendConfirmationEmails transport userData' referenceId transaction.

(** [POST /api/register], with the bytes [crypto.randomBytes(6)] draws
    and the reading of [Date.now()]. *)
Definition register (body : JVal) (random : vec byte 6) (now : Z)
  : World -> Response * World :=
  try_catch
    (do fullName <- lift (prop body "fullName");
     do email <- lift (prop body "email");
     do phone <- lift (prop body "phone");
     if negb (truthy fullName) || negb (truthy email) || negb (truthy phone)
     then ret all_fields_required
     else
       let referenceId := reference_id random in
       let timestamp := now in
       do w <- get_world;
       do _ <- put_world
         {| registrations :=
              Map_set referenceId (registered fullName email phone timestamp)
                (registrations w);
            confirmedPayments := confirmedPayments w;
            outbox := outbox w |};
       ret (register_ok referenceId))
    (fun _ => something_went_wrong).

(** [POST /api/create-payment-order].  [gateway] is what awaiting
    [axios.post] gives: [response.data], or the error it rejects with.
    The order data and the headers only go to the gateway. *)
Definition create_payment_order (body : JVal) (now : Z) (gateway : Result JVal)
  : World -> Response * World :=
  try_catch
    (do referenceId <- lift (prop body "referenceId");
     if negb (truthy referenceId)
     then ret {| status := 400;
                 json := JObj [("error", JStr "Reference ID is required")] |}
     else
       do w <- get_world;
       match Map_get referenceId (registrations w) with
       | None => ret invalid_reference
       | Some userData =>
           do reference <- lift (to_string referenceId);
           let orderId := order_id reference now in
           if credentials_missing
           then ret configuration_error
           else
             do data <- lift gateway;
             do _ <- put_world
               {| registrations :=
                    Map_set reference (with_order userData orderId)
                      (registrations w);
                  confirmedPayments := confirmedPayments w;
                  outbox := outbox w |};
             do paymentSessionId <- lift (prop data "payment_session_id");
             do orderToken <- lift (prop data "order_token");
             ret (order_ok orderId paymentSessionId orderToken)
       end)
    order_failed.

(** [GET /api/check-payment-status], with [req.query.orderId]. *)
Definition check_payment_status (orderId : JVal) (gateway : Result JVal)
    (transport : Mail -> bool) : World -> Response * World :=
  try_catch
    (if negb (truthy orderId)
     then ret {| status := 400;
                 json := JObj [("error", JStr "Order ID is required")] |}
     else if credentials_missing
     then ret configuration_error
     else
       do _ <- lift (to_string orderId);
       do data <- lift gateway;
       do order_status <- lift (prop data "order_status");
       do _ <-
         (if is_string order_status "PAID"
          then
            do w <- get_world;
            match find_reference orderId (registrations w) with
            | None => ret false
            | Some referenceId =>
                if truthy (JStr referenceId)
                then
                  match Map_get (JStr referenceId) (registrations w) with
                  | None => lift (Throw (TypeError
                              "Cannot set properties of undefined"))
                  | Some userData =>
                      do cf_order_id <- lift (prop data "cf_order_id");
                      do gateway_order_id <- lift (prop data "order_id");
                      confirm transport referenceId userData
                        (js_or cf_order_id gateway_order_id)
                  end
                else ret false
            end
          else ret false);
       ret (poll_ok order_status data))
    poll_failed.

(** [POST /api/confirm-payment]. *)
Definition confirm_payment (body : JVal) (transport : Mail -> bool)
  : World -> Response * World :=
  try_catch
    (do referenceId <- lift (prop body "referenceId");
     do transactionId <- lift (prop body "transactionId");
     if negb (truthy referenceId) || negb (truthy transactionId)
     then ret {| status := 400;
                 json := JObj [("error",
                   JStr "Reference ID and Transaction ID are required")] |}
     else
       do w <- get_world;
       match referenceId, Map_get referenceId (registrations w) with
       | JStr reference, Some userData =>
           do _ <- confirm transport reference userData transactionId;
           ret (legacy_ok referenceId)
       | _, _ => ret invalid_reference
       end)
    (fun _ => something_went_wrong).

(** [GET /api/check-payment], with [req.query.reference_id]. *)
Definition check_payment (reference_id : JVal) (w : World) : Response * World :=
  ({| status := 200;
      json := JObj [("success", JBool (Set_has reference_id (confirmedPayments w)))] |},
   w).

(** [POST /api/cashfree-webhook].  The signature header is read and not
    checked. *)
Definition cashfree_webhook (body : JVal) (transport : Mail -> bool)
  : World -> Response * World :=
  try_catch
    (let webhookData := body in
     do data <- lift (prop webhookData "data");
     do _ <-
       (if truthy data
        then
          do order <- lift (prop data "order");
          if truthy order
          then
            do orderId <- lift (prop order "order_id");
            do orderStatus <- lift (prop order "order_status");
            if is_string orderStatus "PAID"
            then
              do w <- get_world;
              match find_reference orderId (registrations w) with
              | None => ret false
              | Some referenceId =>
                  if truthy (JStr referenceId)
                  then
                    match Map_get (JStr referenceId) (registrations w) with
                    | None => lift (Throw (TypeError
                                "Cannot set properties of undefined"))
                    | Some userData =>
                        do cf_order_id <- lift (prop order "cf_order_id");
                        do gateway_order_id <- lift (prop order "order_id");
                        confirm transport referenceId userData
                          (js_or cf_order_id gateway_order_id)
                    end
                  else ret false
              end
            else ret false
          else ret false
        else ret false);
     ret webhook_ok)
    (fun _ => webhook_failed).

(** A request together with what the outside world answers while it is
    served.  The three static routes change nothing and are left out. *)
Inductive Request :=
| PostRegister (body : JVal) (random : vec byte 6) (now : Z)
| PostCreatePaymentOrder (body : JVal) (now : Z) (gateway : Result JVal)
| GetCheckPaymentStatus (orderId : JVal) (gateway : Result JVal)
    (transport : Mail -> bool)
| PostConfirmPayment (body : JVal) (transport : Mail -> bool)
| GetCheckPayment (reference_id : JVal)
| PostCashfreeWebhook (body : JVal) (transport : Mail -> bool).

Definition handle (req : Request) : World -> Response * World :=
  match req with
  | PostRegister body random now => register body random now
  | PostCreatePaymentOrder body now gateway => create_payment_order body now gateway
  | GetCheckPaymentStatus orderId gateway transport =>
      check_payment_status orderId gateway transport
  | PostConfirmPayment body transport => confirm_payment body transport
  | GetCheckPayment reference_id => check_payment reference_id
  | PostCashfreeWebhook body transport => cashfree_webhook body transport
  end.

(** The state after serving [reqs] one after the other. *)
Fixpoint run (reqs : list Request) (w : World) : World :=
  match reqs with
  | [] => w
  | req :: rest => run rest (handle req w).2
  end.

Definition reachable (w : World) : Prop := exists reqs, run reqs init = w.

(** The reference id a response hands out, if it is the answer to an
    accepted registration. *)
Definition issued_by (req : Request) (res : Response) : option string :=
  match req, opt_prop (json res) "referenceId" with
  | PostRegister _ _ _, JStr referenceId =>
      if Z.eqb (status res) 200 then Some referenceId else None
  | _, _ => None
  end.

(** The bytes an accepted registration drew. *)
Definition drawn_by (req : Request) (res : Response) : option (vec byte 6) :=
  match req with
  | PostRegister _ random _ => if Z.eqb (status res) 200 then Some random else None
  | _ => None
  end.

(** Every reference id issued while serving [reqs] from [w]. *)
Fixpoint issued (reqs : list Request) (w : World) : list string :=
  match reqs with
  | [] => []
  | req :: rest =>
      let (res, w') := handle req w in
      option_list (issued_by req res) ++ issued rest w'
  end.

(** Every six bytes drawn while serving [reqs] from [w]. *)
Fixpoint draws (reqs : list Request) (w : World) : list (vec byte 6) :=
  match reqs with
  | [] => []
  | req :: rest =>
      let (res, w') := handle req w in
      option_list (drawn_by req res) ++ draws rest w'
  end.

End Handlers.

(** *** Vocabulary of the statements *)

Section Vocabulary.
Context `{JSNumber}.

(** The inverse of [hex_digit] and of [hex_byte]. *)
Definition unhex_digit (c : ascii) : N :=
  match c with
  | "0" => 0 | "1" => 1 | "2" => 2 | "3" => 3 | "4" => 4 | "5" => 5
  | "6" => 6 | "7" => 7 | "8" => 8 | "9" => 9 | "a" => 10 | "b" => 11
  | "c" => 12 | "d" => 13 | "e" => 14 | _ => 15
  end%char%N.

Definition unhex_byte (hi lo : ascii) : option byte :=
  Byte.of_N (16 * unhex_digit hi + unhex_digit lo).

(** The characters [hex] writes: digits and [a] to [f]. *)
Definition is_hex_digit (c : ascii) : bool :=
  match c with
  | "0" | "1" | "2" | "3" | "4" | "5" | "6" | "7" | "8" | "9"
  | "a" | "b" | "c" | "d" | "e" | "f" => true
  | _ => false
  end%char.

Fixpoint all_hex (s : string) : bool :=
  match s with
  | EmptyString => true
  | String c rest => is_hex_digit c && all_hex rest
  end.

(** What serving one request can do to the state: nothing; store a new
    unpaid record under the reference id drawn; attach an order id to a
    stored record; or mark a stored record paid, add its key to the
    confirmed set and hand mails to the transport.  The index is the
    draw of an accepted registration. *)
Inductive effect (w : World) : option (vec byte 6) -> World -> Prop :=
| effect_none : effect w None w
| effect_register random userData :
    paymentConfirmed userData = false ->
    orderId userData = None ->
    effect w (Some random)
      {| registrations := Map_set (reference_id random) userData (registrations w);
         confirmedPayments := confirmedPayments w;
         outbox := outbox w |}
| effect_order referenceId userData now :
    assoc referenceId (registrations w) = Some userData ->
    effect w None
      {| registrations :=
           Map_set referenceId (with_order userData (order_id referenceId now))
             (registrations w);
         confirmedPayments := confirmedPayments w;
         outbox := outbox w |}
| effect_confirm referenceId userData transaction mails :
    assoc referenceId (registrations w) = Some userData ->
    effect w None
      {| registrations :=
           Map_set referenceId (paid userData transaction) (registrations w);
         confirmedPayments := confirmedPayments w ∪ {[referenceId]};
         outbox := outbox w ++ mails |}.

(** What holds of every stored entry: its key was drawn by the
    registration handler, and its order id, once there is one, was built
    from that key by the order handler. *)
Definition entry_ok (entry : string * Registration) : Prop :=
  (exists random, entry.1 = reference_id random)
  /\ (forall o, orderId entry.2 = Some o -> exists now, o = order_id entry.1 now).

Definition well_keyed (m : list (string * Registration)) : Prop :=
  Forall entry_ok m.

(** Every stored key is the hex of a draw in [ds]. *)
Definition keys_drawn (ds : list (vec byte 6)) (w : World) : Prop :=
  forall k v, assoc k (registrations w) = Some v ->
    exists random, random ∈ ds /\ k = reference_id random.

(** The confirmed set and the [paymentConfirmed] flags agree. *)
Definition flags_agree (w : World) : Prop :=
  forall k, k ∈ confirmedPayments w <->
    exists userData, assoc k (registrations w) = Some userData
      /\ paymentConfirmed userData = true.

(** Registration [k] stands confirmed in [w]. *)
Definition confirmed_in (k : string) (w : World) : Prop :=
  exists userData,
    assoc k (registrations w) = Some userData
    /\ paymentConfirmed userData = true
    /\ truthy (transactionId userData) = true
    /\ k ∈ confirmedPayments w.

(** From [w] to [w'] registration [k] stayed paid and in the confirmed
    set, and the transport took one more pair of mails. *)
Definition confirmed_again (env : Env) (k : string) (userData : Registration)
    (transaction : JVal) (name mail tel tx : string) (w w' : World) : Prop :=
  assoc k (registrations w') = Some (paid userData transaction)
  /\ k ∈ confirmedPayments w'
  /\ outbox w' = outbox w ++
       [userMailOptions env (paid userData transaction) name;
        adminMailOptions env name mail tel k tx].

End Vocabulary.

End Cashfree.

(** ** The Razorpay server *)

Module Razorpay.

Section Server.
Context `{JSNumber} `{Crypto}.

Record Env := {
  EMAIL_USER : option string;
  RAZORPAY_KEY_ID : option string;
  RAZORPAY_SECRET : option string
}.

(** A value of [userDataStore]. *)
Record UserData := {
  fullName : JVal;
  email : JVal;
  phone : JVal
}.

Inductive Html :=
| UserConfirmation (fullName : string)
| AdminNotification (fullName email phone payment_id order_id : string).

Record Mail := {
  mail_from : JVal;
  mail_to : JVal;
  subject : string;
  html : Html
}.

(** [successfulPayments] is a [Set] and [userDataStore] a [Map]; both
    take whatever value the request or the gateway supplies as key. *)
Record World := {
  successfulPayments : list JVal;
  userDataStore : list (JVal * UserData);
  outbox : list Mail
}.

Definition init : World :=
  {| successfulPayments := []; userDataStore := []; outbox := [] |}.

Record Response := { status : Z; json : JVal }.

Definition Set_has (v : JVal) (s : list JVal) : bool :=
  existsb (fun stored => same_value_zero stored v) s.

Definition Set_add (v : JVal) (s : list JVal) : list JVal :=
  if Set_has v s then s else s ++ [v].

Fixpoint Map_get (key : JVal) (m : list (JVal * UserData)) : option UserData :=
  match m with
  | [] => None
  | (k, v) :: rest => if same_value_zero k key then Some v else Map_get key rest
  end.

Fixpoint Map_set (key : JVal) (v : UserData) (m : list (JVal * UserData))
  : list (JVal * UserData) :=
  match m with
  | [] => [(key, v)]
  | (k, v') :: rest =>
      if same_value_zero k key then (k, v) :: rest else (k, v') :: Map_set key v rest
  end.

Fixpoint Map_delete (key : JVal) (m : list (JVal * UserData))
  : list (JVal * UserData) :=
  match m with
  | [] => []
  | (k, v) :: rest =>
      if same_value_zero k key then rest else (k, v) :: Map_delete key rest
  end.

Definition is_string (v : JVal) (s : string) : bool :=
  match v with
  | JStr s' => String.eqb s' s
  | _ => false
  end.

Definition Eff (A : Type) : Type := World -> Result A * World.

Definition ret {A} (a : A) : Eff A := fun w => (Ok a, w).

Definition bind {A B} (m : Eff A) (k : A -> Eff B) : Eff B :=
  fun w =>
    match m w with
    | (Ok a, w') => k a w'
    | (Throw e, w') => (Throw e, w')
    end.

Definition lift {A} (r : Result A) : Eff A := fun w => (r, w).

Definition get_world : Eff World := fun w => (Ok w, w).

Definition put_world (w : World) : Eff unit := fun _ => (Ok tt, w).

Definition try_catch (m : Eff Response) (h : Exn -> Response) (w : World)
  : Response * World :=
  match m w with
  | (Ok r, w') => (r, w')
  | (Throw e, w') => (h e, w')
  end.

End Server.

Notation "'do' x <- m ; k" := (bind m (fun x => k))
  (at level 10, x name, m at level 100, k at level 200).

Section Handlers.
Context `{JSNumber} `{Crypto}.
Variable env : Env.

Definition all_fields_required : Response :=
  {| status := 400; json := JObj [("error", JStr "All fields are required")] |}.

Definition something_went_wrong : Response :=
  {| status := 500; json := JObj [("error", JStr "Something went wrong")] |}.

Definition invalid_signature : Response :=
  {| status := 400;
     json := JObj [("success", JBool false); ("error", JStr "Invalid signature")] |}.

Definition verified : Response :=
  {| status := 200; json := JObj [("success", JBool true)] |}.

Definition verification_failed : Response :=
  {| status := 500;
     json := JObj [("success", JBool false);
                   ("error", JStr "Something went wrong")] |}.

(** The [config] member of the registration response. *)
Definition checkout_config : JVal :=
  let block name method :=
    JObj [("name", JStr name);
          ("instruments", JArr [JObj [("method", JStr method)]])] in
  JObj [("display",
    JObj [("blocks",
             JObj [("upi", block "Pay via UPI" "upi");
                   ("card", block "Pay via Card" "card");
                   ("netbanking", block "Pay via Netbanking" "netbanking");
                   ("wallet", block "Pay via Wallet" "wallet")]);
          ("sequence", JArr [JStr "block.upi"; JStr "block.card";
                             JStr "block.netbanking"; JStr "block.wallet"]);
          ("preferences", JObj [("show_default_blocks", JBool false)])])].

(** [POST /api/register].  [gateway] is what awaiting
    [razorpay.orders.create(options)] gives: the order, or the error.
    The options, with their [Date.now()] receipt, only go to the
    gateway. *)
Definition register (body : JVal) (gateway : Result JVal)
  : World -> Response * World :=
  try_catch
    (do fullName <- lift (prop body "fullName");
     do email <- lift (prop body "email");
     do phone <- lift (prop body "phone");
     if negb (truthy fullName) || negb (truthy email) || negb (truthy phone)
     then ret all_fields_required
     else
       do order <- lift gateway;
       do id <- lift (prop order "id");
       do w <- get_world;
       do _ <- put_world
         {| successfulPayments := successfulPayments w;
            userDataStore :=
              Map_set id {| fullName := fullName; email := email; phone := phone |}
                (userDataStore w);
            outbox := outbox w |};
       do amount <- lift (prop order "amount");
       ret {| status := 200;
              json := JObj [("orderId", id);
                            ("amount", amount);
                            ("key_id", env_value (RAZORPAY_KEY_ID env));
                            ("prefill", JObj [("name", fullName);
                                              ("email", email);
                                              ("contact", phone)]);
                            ("config", checkout_config)] |})
    (fun _ => something_went_wrong).

(** [`${razorpay_order_id}|${razorpay_payment_id}`]. *)
Definition signature_text (razorpay_order_id razorpay_payment_id : JVal)
  : Result string :=
  match to_string razorpay_order_id with
  | Throw e => Throw e
  | Ok order_text =>
      match to_string razorpay_payment_id with
      | Throw e => Throw e
      | Ok payment_text => Ok (order_text +:+ "|" +:+ payment_text)
      end
  end.

(** [crypto.createHmac('sha256', process.env.RAZORPAY_SECRET)
      .update(text).digest('hex')]: without a secret [createHmac] throws. *)
Definition generate_signature (text : string) : Result string :=
  match RAZORPAY_SECRET env with
  | Some key => Ok (hmac_sha256_hex key text)
  | None => Throw (TypeError "The key argument must be of type string")
  end.

Definition sendMail (transport : Mail -> bool) (options : Mail) : Eff bool :=
  fun w =>
    if transport options
    then (Ok true, {| successfulPayments := successfulPayments w;
                      userDataStore := userDataStore w;
                      outbox := outbox w ++ [options] |})
    else (Ok false, w).

(** [POST /api/verify-payment]. *)
Definition verify_payment (body : JVal) (transport : Mail -> bool)
  : World -> Response * World :=
  try_catch
    (do razorpay_payment_id <- lift (prop body "razorpay_payment_id");
     do razorpay_order_id <- lift (prop body "razorpay_order_id");
     do razorpay_signature <- lift (prop body "razorpay_signature");
     do text <- lift (signature_text razorpay_order_id razorpay_payment_id);
     do generated_signature <- lift (generate_signature text);
     if negb (is_string razorpay_signature generated_signature)
     then ret invalid_signature
     else
       do w <- get_world;
       do _ <- put_world
         {| successfulPayments := Set_add razorpay_payment_id (successfulPayments w);
            userDataStore := userDataStore w;
            outbox := outbox w |};
       do _ <-
         match Map_get razorpay_order_id (userDataStore w) with
         | None => ret tt
         | Some userData =>
             do user_name <- lift (to_string (fullName userData));
             let userMailOptions :=
               {| mail_from := env_value (EMAIL_USER env);
                  mail_to := email userData;
                  subject :=
                    "Your Registration is Confirmed! - Inspiring Shereen Masterclass";
                  html := UserConfirmation user_name |} in
             do admin_name <- lift (to_string (fullName userData));
             do admin_email <- lift (to_string (email userData));
             do admin_phone <- lift (to_string (phone userData));
             do payment_text <- lift (to_string razorpay_payment_id);
             do order_text <- lift (to_string razorpay_order_id);
             let adminMailOptions :=
               {| mail_from := env_value (EMAIL_USER env);
                  mail_to := env_value (EMAIL_USER env);
                  subject := "New Registration - Inspiring Shereen Masterclass";
                  html := AdminNotification admin_name admin_email admin_phone
                            payment_text order_text |} in
             do user_sent <- sendMail transport userMailOptions;
             do _ <- (if user_sent then sendMail transport adminMailOptions
                      else ret false);
             do w' <- get_world;
             put_world
               {| successfulPayments := successfulPayments w';
                  userDataStore := Map_delete razorpay_order_id (userDataStore w');
                  outbox := outbox w' |}
         end;
       ret verified)
    (fun _ => verification_failed).

(** [GET /api/check-payment], with [req.query.payment_id]. *)
Definition check_payment (payment_id : JVal) (w : World) : Response * World :=
  ({| status := 200;
      json := JObj [("success", JBool (Set_has payment_id (successfulPayments w)))] |},
   w).

Inductive Request :=
| PostRegister (body : JVal) (gateway : Result JVal)
| PostVerifyPayment (body : JVal) (transport : Mail -> bool)
| GetCheckPayment (payment_id : JVal).

Definition handle (req : Request) : World -> Response * World :=
  match req with
  | PostRegister body gateway => register body gateway
  | PostVerifyPayment body transport => verify_payment body transport
  | GetCheckPayment payment_id => check_payment payment_id
  end.

Fixpoint run (reqs : list Request) (w : World) : World :=
  match reqs with
  | [] => w
  | req :: rest => run rest (handle req w).2
  end.

Definition reachable (w : World) : Prop := exists reqs, run reqs init = w.

End Handlers.

End Razorpay.

(** ** Instances to run the model on *)

(** Integer-valued numbers, printed in decimal. *)
Definition integer_numbers : JSNumber :=
  {| number := Z;
     number_truthy := fun z => negb (Z.eqb z 0);
     number_to_string := pretty;
     number_same_value_zero := Z.eqb |}.

(** A stand-in for the keyed hash, enough to tell a matching signature
    from another one. *)
Definition tagging_hmac : Crypto :=
  {| hmac_sha256_hex := fun key text => key +:+ "#" +:+ text |}.

(** ** A scenario for each server *)

Definition env0 : Cashfree.Env :=
  {| Cashfree.EMAIL_USER := Some "shereen@example.com";
     Cashfree.CASHFREE_APP_ID := Some "app";
     Cashfree.CASHFREE_SECRET_KEY := Some "secret" |}.

Definition registrant : JVal (H := integer_numbers) :=
  JObj [("fullName", JStr "A"); ("email", JStr "a@x.com"); ("phone", JStr "1")].

Definition drawn : vec byte 6 := [# xab; xc1; x23; x00; x7f; xe9].

(** The order [ORDER_abc123007fe9_1710000000500] is paid. *)
Definition paid_order : JVal (H := integer_numbers) :=
  JObj [("order_id", JStr "ORDER_abc123007fe9_1710000000500");
        ("order_status", JStr "PAID");
        ("cf_order_id", JNum (2149460581%Z : @number integer_numbers))].

Definition paid_webhook : JVal (H := integer_numbers) :=
  JObj [("type", JStr "PAYMENT_SUCCESS_WEBHOOK");
        ("data", JObj [("order", paid_order)])].

Definition create_order : Cashfree.Request (H := integer_numbers) :=
  Cashfree.PostCreatePaymentOrder (JObj [("referenceId", JStr "abc123007fe9")])
    1710000000500 (Ok (JObj [("payment_session_id", JStr "session_1")])).

(** Register, create the order, receive the webhook. *)
Definition until_paid : list (Cashfree.Request (H := integer_numbers)) :=
  [Cashfree.PostRegister registrant drawn 1710000000000;
   create_order;
   Cashfree.PostCashfreeWebhook paid_webhook (fun _ => true)].

Definition razorpay_env0 : Razorpay.Env :=
  {| Razorpay.EMAIL_USER := Some "shereen@example.com";
     Razorpay.RAZORPAY_KEY_ID := Some "rzp_test_key";
     Razorpay.RAZORPAY_SECRET := Some "secret" |}.

(** A payment of an order this process never stored, signed as
    [tagging_hmac] signs. *)
Definition stray_payment : list (string * JVal (H := integer_numbers)) :=
  [("razorpay_payment_id", JStr "pay_1");
   ("razorpay_order_id", JStr "order_1");
   ("razorpay_signature", JStr "secret#order_1|pay_1")].

Definition forged_payment : list (string * JVal (H := integer_numbers)) :=
  [("razorpay_payment_id", JStr "pay_1");
   ("razorpay_order_id", JStr "order_1");
   ("razorpay_signature", JStr "0000")].

(** The record of the registrant once the webhook has been served. *)
Definition paid_registrant : Cashfree.Registration (H := integer_numbers) :=
  Cashfree.paid
    (Cashfree.with_order
       (Cashfree.registered (JStr "A") (JStr "a@x.com") (JStr "1") 1710000000000)
       "ORDER_abc123007fe9_1710000000500")
    (JNum (2149460581%Z : @number integer_numbers)).

(** What the gateway answers to a status poll of the paid order. *)
Definition paid_status : JVal (H := integer_numbers) :=
  JObj [("cf_order_id", JNum (2149460581%Z : @number integer_numbers));
        ("order_id", JStr "ORDER_abc123007fe9_1710000000500");
        ("order_status", JStr "PAID")].

Definition legacy_confirmation : JVal (H := integer_numbers) :=
  JObj [("referenceId", JStr "abc123007fe9"); ("transactionId", JStr "UPI-42")].

(** A second registrant, and one who left the phone number out. *)
Definition second_registrant : JVal (H := integer_numbers) :=
  JObj [("fullName", JStr "B"); ("email", JStr "b@x.com"); ("phone", JStr "2")].

Definition incomplete_registrant : list (string * JVal (H := integer_numbers)) :=
  [("fullName", JStr "C"); ("email", JStr "c@x.com"); ("phone", JStr "")].

(** ** Further vocabulary for the Cashfree server *)

Section CashfreeOutcomes.
Import Cashfree.
Context `{JSNumber}.

(** The state a request leaves, told more closely than [effect] does:
    the record a registration stores is the one of [registered], and a
    confirmation leaves what [confirm] leaves. *)
Inductive outcome (env : Env) (w : World) : World -> Prop :=
| outcome_same : outcome env w w
| outcome_register random fullName email phone now :
    outcome env w
      {| registrations :=
           Map_set (reference_id random) (registered fullName email phone now)
             (registrations w);
         confirmedPayments := confirmedPayments w;
         outbox := outbox w |}
| outcome_order referenceId userData now :
    assoc referenceId (registrations w) = Some userData ->
    outcome env w
      {| registrations :=
           Map_set referenceId (with_order userData (order_id referenceId now))
             (registrations w);
         confirmedPayments := confirmedPayments w;
         outbox := outbox w |}
| outcome_confirm transport referenceId userData transaction :
    assoc referenceId (registrations w) = Some userData ->
    outcome env w (confirm env transport referenceId userData transaction w).2.

(** The mails one call of [sendConfirmationEmails] may get out for the
    record [userData] of [referenceId]: the registrant's, then the
    administrator's. *)
Definition confirmation_mails (env : Env) (referenceId : string)
    (userData : Registration) (transaction : JVal) (mails : list Mail) : Prop :=
  mails = []
  \/ exists name mail tel tx,
       to_string (fullName userData) = Ok name
       /\ to_string (email userData) = Ok mail
       /\ to_string (phone userData) = Ok tel
       /\ to_string transaction = Ok tx
       /\ mails `prefix_of`
            [userMailOptions env (paid userData transaction) name;
             adminMailOptions env name mail tel referenceId tx].

(** The record of [k] is marked paid with [transaction], [k] is in the
    confirmed set, and the rest of the state is as in [w]. *)
Definition marked_paid (k : string) (userData : Registration)
    (transaction : JVal) (w : World) : World :=
  {| registrations := Map_set k (paid userData transaction) (registrations w);
     confirmedPayments := confirmedPayments w ∪ {[k]};
     outbox := outbox w |}.

End CashfreeOutcomes.

(** ** Further vocabulary for the Razorpay server *)

Section RazorpayVocabulary.
Import Razorpay.
Context `{JSNumber} `{Crypto}.

(** The comparison [generated_signature !== razorpay_signature] comes
    out equal: there is a secret, the text can be built, and the
    submitted signature is the keyed hash of the text. *)
Definition signature_valid (env : Env) (body : JVal) : bool :=
  match RAZORPAY_SECRET env,
        signature_text (opt_prop body "razorpay_order_id")
          (opt_prop body "razorpay_payment_id") with
  | Some key, Ok text =>
      is_string (opt_prop body "razorpay_signature") (hmac_sha256_hex key text)
  | _, _ => false
  end.

(** The two option objects of the verification handler. *)
Definition razorpay_userMailOptions (env : Env) (userData : UserData)
    (name : string) : Mail :=
  {| mail_from := env_value (EMAIL_USER env);
     mail_to := email userData;
     subject := "Your Registration is Confirmed! - Inspiring Shereen Masterclass";
     html := UserConfirmation name |}.

Definition razorpay_adminMailOptions (env : Env)
    (name mail tel payment order : string) : Mail :=
  {| mail_from := env_value (EMAIL_USER env);
     mail_to := env_value (EMAIL_USER env);
     subject := "New Registration - Inspiring Shereen Masterclass";
     html := AdminNotification name mail tel payment order |}.

(** The string keys of [userDataStore], in insertion order. *)
Definition string_keys (m : list (JVal * UserData)) : list string :=
  omap (fun entry : JVal * UserData =>
          match entry.1 with
          | JStr s => Some s
          | _ => None
          end) m.

(** The registration response of the Razorpay server. *)
Definition razorpay_register_ok (env : Env) (order : JVal)
    (fullName email phone : JVal) : Response :=
  {| status := 200;
     json := JObj [("orderId", opt_prop order "id");
                   ("amount", opt_prop order "amount");
                   ("key_id", env_value (RAZORPAY_KEY_ID env));
                   ("prefill", JObj [("name", fullName);
                                     ("email", email);
                                     ("contact", phone)]);
                   ("config", checkout_config)] |}.

End RazorpayVocabulary.

(** ** The calls of the Cashfree server to the gateway *)

Module Gateway.

Section Calls.
Import Cashfree.
Context `{JSNumber}.

(** The two settings of [process.env] that only shape the calls. *)
Record Settings := {
  CASHFREE_ENVIRONMENT : option string;
  CASHFREE_API_VERSION : option string
}.

Definition CASHFREE_BASE_URL (settings : Settings) : string :=
  if is_string (env_value (CASHFREE_ENVIRONMENT settings)) "PRODUCTION"
  then "https://api.cashfree.com/pg"
  else "https://sandbox.cashfree.com/pg".

Record Headers := {
  x_api_version : JVal;
  x_client_id : JVal;
  x_client_secret : JVal;
  Content_Type : string
}.

Definition getCashfreeHeaders (env : Env) (settings : Settings) : Headers :=
  {| x_api_version :=
       js_or (env_value (CASHFREE_API_VERSION settings)) (JStr "2022-09-01");
     x_client_id := env_value (CASHFREE_APP_ID env);
     x_client_secret := env_value (CASHFREE_SECRET_KEY env);
     Content_Type := "application/json" |}.

Record CustomerDetails := {
  customer_id : string;
  customer_name : JVal;
  customer_email : JVal;
  customer_phone : JVal
}.

(** The [orderData] object; [return_url] is the one member of
    [order_meta]. *)
Record OrderData := {
  order_id : string;
  order_amount : Z;
  order_currency : string;
  customer_details : CustomerDetails;
  return_url : string
}.

Inductive Call :=
| Post (url : string) (data : OrderData) (headers : Headers)
| Get (url : string) (headers : Headers).

(** The [axios.post] of order creation, where the handler gets that
    far: the request has a reference id, the reference id is stored and
    the credentials are there. *)
Definition create_payment_order_call (env : Env) (settings : Settings)
    (body : JVal) (now : Z) (w : World) : option Call :=
  match prop body "referenceId" with
  | Throw _ => None
  | Ok referenceId =>
      if negb (truthy referenceId) then None
      else
        match Map_get referenceId (registrations w), to_string referenceId with
        | Some userData, Ok reference =>
            let orderId := Cashfree.order_id reference now in
            let orderData :=
              {| order_id := orderId;
                 order_amount := 99;
                 order_currency := "INR";
                 customer_details :=
                   {| customer_id := reference;
                      customer_name := fullName userData;
                      customer_email := email userData;
                      customer_phone := phone userData |};
                 return_url :=
                   "https://inspiringshereen.vercel.app/payment?order_id={order_id}&reference_id="
                   +:+ reference |} in
            if credentials_missing env then None
            else Some (Post (CASHFREE_BASE_URL settings +:+ "/orders") orderData
                         (getCashfreeHeaders env settings))
        | _, _ => None
        end
  end.

(** The [axios.get] of the status poll, where the handler gets that
    far. *)
Definition check_payment_status_call (env : Env) (settings : Settings)
    (orderId : JVal) : option Call :=
  if negb (truthy orderId) then None
  else if credentials_missing env then None
  else
    match to_string orderId with
    | Ok order =>
        Some (Get (CASHFREE_BASE_URL settings +:+ "/orders/" +:+ order)
                (getCashfreeHeaders env settings))
    | Throw _ => None
    end.

End Calls.

End Gateway.

(** ** Further scenarios *)

(** A registrant whose name is an object that no template literal can
    print. *)
Definition unprintable_registrant : JVal (H := integer_numbers) :=
  JObj [("fullName", JObj [("toString", JNum (1%Z : @number integer_numbers))]);
        ("email", JStr "u@x.com"); ("phone", JStr "3")].

(** A PAID notification that names no order. *)
Definition orderless_webhook : JVal (H := integer_numbers) :=
  JObj [("data", JObj [("order", JObj [("order_status", JStr "PAID")])])].

(** The record of the registrant after registration and order. *)
Definition ordered_registrant : Cashfree.Registration (H := integer_numbers) :=
  Cashfree.with_order
    (Cashfree.registered (JStr "A") (JStr "a@x.com") (JStr "1") 1710000000000)
    "ORDER_abc123007fe9_1710000000500".

Definition settings0 : Gateway.Settings :=
  {| Gateway.CASHFREE_ENVIRONMENT := Some "PRODUCTION";
     Gateway.CASHFREE_API_VERSION := None |}.

Definition env_without_credentials : Cashfree.Env :=
  {| Cashfree.EMAIL_USER := Some "shereen@example.com";
     Cashfree.CASHFREE_APP_ID := None;
     Cashfree.CASHFREE_SECRET_KEY := Some "secret" |}.

Definition razorpay_env_without_secret : Razorpay.Env :=
  {| Razorpay.EMAIL_USER := Some "shereen@example.com";
     Razorpay.RAZORPAY_KEY_ID := Some "rzp_test_key";
     Razorpay.RAZORPAY_SECRET := None |}.

(** The order the Razorpay gateway makes for the registrant, and the
    payment of that order as the checkout reports it. *)
Definition razorpay_order : JVal (H := integer_numbers) :=
  JObj [("id", JStr "order_9");
        ("amount", JNum (9900%Z : @number integer_numbers))].

Definition razorpay_registered
  : list (Razorpay.Request (H := integer_numbers)) :=
  [Razorpay.PostRegister registrant (Ok razorpay_order)].

Definition signed_payment : list (string * JVal (H := integer_numbers)) :=
  [("razorpay_payment_id", JStr "pay_9");
   ("razorpay_order_id", JStr "order_9");
   ("razorpay_signature", JStr "secret#order_9|pay_9")].

(** * Facts *)

(** ** Facts about JavaScript values *)

Section JSFacts.
Context `{JSNumber}.

Lemma prop_object members k :
  prop (JObj members) k = Ok (opt_prop (JObj members) k).
Proof. reflexivity. Qed.

Lemma prop_truthy v k : truthy v = true -> prop v k = Ok (opt_prop v k).
Proof. destruct v; simpl; intros; try discriminate; reflexivity. Qed.

Lemma opt_prop_truthy v k : truthy (opt_prop v k) = true -> truthy v = true.
Proof. destruct v; simpl; intros; try discriminate; reflexivity. Qed.

Lemma truthy_string s : truthy (JStr s) = true <-> s <> "".
Proof.
  simpl. destruct (String.eqb_spec s ""); simpl; split; congruence.
Qed.

Lemma js_or_truthy_r a b : truthy b = true -> truthy (js_or a b) = true.
Proof. unfold js_or. destruct (truthy a) eqn:Ha; auto. Qed.

End JSFacts.

(** ** Facts about reference ids and order ids *)

Section Identifiers.
Import Cashfree.

Lemma hex_byte_shape b :
  exists hi lo, hex_byte b = String hi (String lo "")
    /\ unhex_byte hi lo = Some b
    /\ is_hex_digit hi = true /\ is_hex_digit lo = true.
Proof. destruct b; do 2 eexists; repeat split. Qed.

Lemma hex_cons b rest :
  exists hi lo, hex (b :: rest) = String hi (String lo (hex rest))
    /\ unhex_byte hi lo = Some b
    /\ is_hex_digit hi = true /\ is_hex_digit lo = true.
Proof.
  destruct (hex_byte_shape b) as (hi & lo & Hb & Hun & Hhi & Hlo).
  exists hi, lo. simpl. rewrite Hb. auto.
Qed.

Lemma hex_inj bs1 bs2 : hex bs1 = hex bs2 -> bs1 = bs2.
Proof.
  revert bs2. induction bs1 as [|a bs1 IH]; intros [|b bs2] Heq.
  - reflexivity.
  - destruct (hex_cons b bs2) as (hi & lo & Hb & _). rewrite Hb in Heq.
    discriminate.
  - destruct (hex_cons a bs1) as (hi & lo & Ha & _). rewrite Ha in Heq.
    discriminate.
  - destruct (hex_cons a bs1) as (hi & lo & Ha & Hua & _).
    destruct (hex_cons b bs2) as (hi' & lo' & Hb & Hub & _).
    rewrite Ha, Hb in Heq. injection Heq as -> -> Hrest.
    f_equal; [congruence | auto].
Qed.

Lemma hex_all_hex bs : all_hex (hex bs) = true.
Proof.
  induction bs as [|b bs IH]; [reflexivity|].
  destruct (hex_cons b bs) as (hi & lo & Hb & _ & Hhi & Hlo).
  rewrite Hb. simpl. rewrite Hhi, Hlo, IH. reflexivity.
Qed.

Lemma reference_id_inj (r1 r2 : vec byte 6) :
  reference_id r1 = reference_id r2 -> r1 = r2.
Proof.
  unfold reference_id. intros Heq. apply vec_to_list_inj2, hex_inj, Heq.
Qed.

Lemma reference_id_all_hex (r : vec byte 6) : all_hex (reference_id r) = true.
Proof. apply hex_all_hex. Qed.

Lemma reference_id_nonempty (r : vec byte 6) : reference_id r <> "".
Proof.
  unfold reference_id.
  inv_vec r; intros b r1 r2 r3 r4 r5.
  change (hex (b :: vec_to_list [# r1; r2; r3; r4; r5]) <> "").
  destruct (hex_cons b (vec_to_list [# r1; r2; r3; r4; r5])) as (hi & lo & Hb & _).
  rewrite Hb. discriminate.
Qed.

(** A reference id ends where the first underscore stands. *)
Lemma hex_prefix_unique k1 k2 s1 s2 :
  all_hex k1 = true -> all_hex k2 = true ->
  k1 +:+ String "_" s1 = k2 +:+ String "_" s2 -> k1 = k2 /\ s1 = s2.
Proof.
  revert k2. induction k1 as [|c k1 IH]; intros [|c' k2] H1 H2 Heq; simpl in *.
  - injection Heq as ->. auto.
  - injection Heq as <- _. discriminate.
  - injection Heq as -> _. discriminate.
  - injection Heq as -> Heq.
    apply andb_prop in H1 as [_ H1]. apply andb_prop in H2 as [_ H2].
    destruct (IH k2 H1 H2 Heq) as [-> ->]. auto.
Qed.

Lemma order_id_inj k1 k2 t1 t2 :
  all_hex k1 = true -> all_hex k2 = true ->
  order_id k1 t1 = order_id k2 t2 -> k1 = k2 /\ t1 = t2.
Proof.
  unfold order_id. intros H1 H2 Heq. simpl in Heq.
  injection Heq as Heq.
  apply hex_prefix_unique in Heq as [-> Ht]; auto.
  split; [reflexivity|]. apply (inj pretty), Ht.
Qed.

Lemma append_cancel_l (k s1 s2 : string) : k +:+ s1 = k +:+ s2 -> s1 = s2.
Proof.
  induction k as [|c k IH]; simpl; intros Heq; [exact Heq|].
  injection Heq as Heq. auto.
Qed.

(** Two order ids of one registration differ as soon as the clock
    readings do. *)
Lemma order_id_clock k t1 t2 : t1 <> t2 -> order_id k t1 <> order_id k t2.
Proof.
  unfold order_id. intros Hne Heq. apply Hne.
  simpl in Heq. injection Heq as Heq.
  apply (append_cancel_l k) in Heq. simpl in Heq. injection Heq as Heq.
  apply (inj pretty), Heq.
Qed.

End Identifiers.

(** ** The Cashfree server: effects of the handlers *)

Section CashfreeFacts.
Import Cashfree.
Context `{JSNumber}.
Variable env : Env.

Lemma assoc_Map_set k v m k' :
  assoc k' (Map_set k v m) = if String.eqb k' k then Some v else assoc k' m.
Proof.
  induction m as [|[k0 v0] m IH]; simpl.
  - destruct (String.eqb_spec k' k); reflexivity.
  - destruct (String.eqb_spec k k0) as [->|Hne]; simpl.
    + destruct (String.eqb_spec k' k0); reflexivity.
    + rewrite IH. destruct (String.eqb_spec k' k0) as [->|Hne'].
      * destruct (String.eqb_spec k0 k); congruence.
      * reflexivity.
Qed.

Lemma assoc_Map_set_eq k v m : assoc k (Map_set k v m) = Some v.
Proof. rewrite assoc_Map_set, String.eqb_refl. reflexivity. Qed.

Lemma assoc_Map_set_ne k v m k' :
  k' <> k -> assoc k' (Map_set k v m) = assoc k' m.
Proof.
  intros Hne. rewrite assoc_Map_set.
  destruct (String.eqb_spec k' k); congruence.
Qed.

Lemma Map_get_string k m : Map_get (JStr k) m = assoc k m.
Proof. reflexivity. Qed.

Lemma Map_get_Some key m v :
  Map_get key m = Some v -> exists k, key = JStr k /\ assoc k m = Some v.
Proof. destruct key; simpl; intros; try discriminate. eauto. Qed.

Lemma is_string_eq v s : is_string v s = true <-> v = JStr s.
Proof.
  destruct v; simpl; split; try discriminate.
  - intros ->%String.eqb_eq. reflexivity.
  - intros [= ->]. apply String.eqb_refl.
Qed.

(** *** The state after each handler *)

Lemma try_catch_world m h w : (try_catch m h w).2 = (m w).2.
Proof. unfold try_catch. destruct (m w) as [[r|e] w']; reflexivity. Qed.

Lemma sendMail_outbox transport options w :
  exists b mails,
    sendMail transport options w =
      (Ok b, {| registrations := registrations w;
                confirmedPayments := confirmedPayments w;
                outbox := outbox w ++ mails |}).
Proof.
  unfold sendMail. destruct (transport options).
  - exists true, [options]. reflexivity.
  - exists false, []. rewrite app_nil_r. destruct w; reflexivity.
Qed.

Lemma sendConfirmationEmails_outbox transport userData referenceId transaction w :
  exists r mails,
    sendConfirmationEmails env transport userData referenceId transaction w =
      (r, {| registrations := registrations w;
             confirmedPayments := confirmedPayments w;
             outbox := outbox w ++ mails |}).
Proof.
  assert (Hid : forall (r : Result bool),
    exists r' mails, (r, w) =
      (r', {| registrations := registrations w;
              confirmedPayments := confirmedPayments w;
              outbox := outbox w ++ mails |})).
  { intros r. exists r, []. rewrite app_nil_r. destruct w; reflexivity. }
  unfold sendConfirmationEmails, bind, lift.
  destruct (to_string (fullName userData)) as [name|e]; [|apply Hid].
  destruct (to_string (email userData)) as [mail|e]; [|apply Hid].
  destruct (to_string (phone userData)) as [tel|e]; [|apply Hid].
  destruct (to_string transaction) as [tx|e]; [|apply Hid].
  destruct (sendMail_outbox transport (userMailOptions env userData name) w)
    as (b & mails & ->).
  destruct b.
  - match goal with |- context [sendMail ?t ?o ?w'] =>
      destruct (sendMail_outbox t o w') as (b' & mails' & ->) end.
    simpl. exists (Ok b'), (mails ++ mails'). rewrite app_assoc. reflexivity.
  - exists (Ok false), mails. reflexivity.
Qed.

Lemma confirm_world transport referenceId userData transaction w :
  exists r mails,
    confirm env transport referenceId userData transaction w =
      (r, {| registrations :=
               Map_set referenceId (paid userData transaction) (registrations w);
             confirmedPayments := confirmedPayments w ∪ {[referenceId]};
             outbox := outbox w ++ mails |}).
Proof.
  unfold confirm, bind, get_world, put_world.
  match goal with |- context [sendConfirmationEmails _ ?t ?u ?k ?x ?w'] =>
    destruct (sendConfirmationEmails_outbox t u k x w') as (r & mails & ->) end.
  simpl. eauto.
Qed.

Lemma register_effect body random now w :
  effect w (drawn_by (PostRegister body random now) (register body random now w).1)
    (register body random now w).2.
Proof.
  unfold register, try_catch, bind, lift, get_world, put_world, ret, drawn_by.
  destruct (prop body "fullName") as [n|e]; [|constructor].
  destruct (prop body "email") as [m|e]; [|constructor].
  destruct (prop body "phone") as [p|e]; [|constructor].
  destruct (negb (truthy n) || negb (truthy m) || negb (truthy p)); simpl.
  - constructor.
  - constructor; reflexivity.
Qed.

Lemma create_payment_order_effect body now gateway w :
  effect w None (create_payment_order env body now gateway w).2.
Proof.
  unfold create_payment_order. rewrite try_catch_world. unfold bind, lift, get_world, put_world, ret.
  destruct (prop body "referenceId") as [ref|e]; [|constructor].
  destruct (negb (truthy ref)); [constructor|].
  destruct (Map_get ref (registrations w)) as [userData|] eqn:Hget; [|constructor].
  apply Map_get_Some in Hget as (k & -> & Hk). simpl.
  destruct (credentials_missing env); [constructor|].
  destruct gateway as [data|e]; [|constructor].
  destruct (prop data "payment_session_id") as [sid|e];
    [|apply effect_order, Hk].
  destruct (prop data "order_token") as [tok|e]; apply effect_order, Hk.
Qed.

(** The block shared by the status poll and the webhook, from the loop
    over the entries on. *)
Lemma confirm_found_effect transport order (cf_read id_read : Result JVal) w :
  effect w None
    (match find_reference order (registrations w) with
     | None => ret false
     | Some referenceId =>
         if truthy (JStr referenceId)
         then
           match Map_get (JStr referenceId) (registrations w) with
           | None => lift (Throw (TypeError "Cannot set properties of undefined"))
           | Some userData =>
               bind (lift cf_read) (fun cf_order_id =>
               bind (lift id_read) (fun gateway_order_id =>
               confirm env transport referenceId userData
                 (js_or cf_order_id gateway_order_id)))
           end
         else ret false
     end w).2.
Proof.
  destruct (find_reference order (registrations w)) as [k|]; [|constructor].
  destruct (truthy (JStr k)); [|constructor].
  rewrite Map_get_string.
  destruct (assoc k (registrations w)) as [userData|] eqn:Hk; [|constructor].
  unfold bind, lift.
  destruct cf_read as [cf|e]; [|constructor].
  destruct id_read as [oid|e]; [|constructor].
  destruct (confirm_world transport k userData (js_or cf oid) w)
    as (r & mails & ->).
  apply effect_confirm, Hk.
Qed.

Lemma bind_world_ret {A B} (m : Eff A) (b : B) w :
  (bind m (fun _ => ret b) w).2 = (m w).2.
Proof. unfold bind, ret. destruct (m w) as [[a|e] w']; reflexivity. Qed.

Lemma check_payment_status_effect order gateway transport w :
  effect w None (check_payment_status env order gateway transport w).2.
Proof.
  unfold check_payment_status. rewrite try_catch_world.
  destruct (negb (truthy order)); [constructor|].
  destruct (credentials_missing env); [constructor|].
  unfold bind at 1, lift at 1.
  destruct (to_string order) as [url|e]; [|constructor].
  unfold bind at 1, lift at 1.
  destruct gateway as [data|e]; [|constructor].
  unfold bind at 1, lift at 1.
  destruct (prop data "order_status") as [st|e]; [|constructor].
  rewrite bind_world_ret.
  destruct (is_string st "PAID"); [|constructor].
  unfold bind at 1, get_world.
  apply confirm_found_effect.
Qed.

Lemma confirm_payment_effect body transport w :
  effect w None (confirm_payment env body transport w).2.
Proof.
  unfold confirm_payment. rewrite try_catch_world. unfold bind at 1, lift at 1.
  destruct (prop body "referenceId") as [ref|e]; [|constructor].
  unfold bind at 1, lift at 1.
  destruct (prop body "transactionId") as [tx|e]; [|constructor].
  destruct (negb (truthy ref) || negb (truthy tx)); [constructor|].
  unfold bind at 1, get_world.
  destruct ref; try constructor.
  rewrite Map_get_string.
  destruct (assoc s (registrations w)) as [userData|] eqn:Hk; [|constructor].
  rewrite bind_world_ret.
  destruct (confirm_world transport s userData tx w) as (r & mails & ->).
  apply effect_confirm, Hk.
Qed.

Lemma cashfree_webhook_effect body transport w :
  effect w None (cashfree_webhook env body transport w).2.
Proof.
  unfold cashfree_webhook. rewrite try_catch_world. cbv zeta. unfold bind at 1, lift at 1.
  destruct (prop body "data") as [data|e]; [|constructor].
  rewrite bind_world_ret.
  destruct (truthy data); [|constructor].
  unfold bind at 1, lift at 1.
  destruct (prop data "order") as [order|e]; [|constructor].
  destruct (truthy order); [|constructor].
  unfold bind at 1, lift at 1.
  destruct (prop order "order_id") as [oid|e]; [|constructor].
  unfold bind at 1, lift at 1.
  destruct (prop order "order_status") as [st|e]; [|constructor].
  destruct (is_string st "PAID"); [|constructor].
  unfold bind at 1, get_world.
  apply confirm_found_effect.
Qed.

(** Serving any request has one of the four effects. *)
Lemma handle_effect req w :
  effect w (drawn_by req (handle env req w).1) (handle env req w).2.
Proof.
  destruct req; simpl.
  - apply register_effect.
  - apply create_payment_order_effect.
  - apply check_payment_status_effect.
  - apply confirm_payment_effect.
  - constructor.
  - apply cashfree_webhook_effect.
Qed.

End CashfreeFacts.

(** ** The Cashfree server: what holds of every reachable state *)

Section CashfreeInvariants.
Import Cashfree.
Context `{JSNumber}.
Variable env : Env.

Lemma assoc_In k v m : assoc k m = Some v -> (k, v) ∈ m.
Proof.
  induction m as [|[k0 v0] m IH]; simpl; [discriminate|].
  destruct (String.eqb_spec k k0) as [->|Hne].
  - intros [= ->]. left.
  - intros Hm. right. auto.
Qed.

Lemma well_keyed_assoc m k v :
  well_keyed m -> assoc k m = Some v -> entry_ok (k, v).
Proof.
  intros Hm Hk. apply assoc_In in Hk.
  unfold well_keyed in Hm. rewrite Forall_forall in Hm. auto.
Qed.

Lemma Map_set_well_keyed k v m :
  entry_ok (k, v) -> well_keyed m -> well_keyed (Map_set k v m).
Proof.
  unfold well_keyed. intros Hkv. induction 1 as [|[k0 v0] m H0 Hm IH]; simpl.
  - constructor; [assumption | constructor].
  - destruct (String.eqb k k0); constructor; auto.
Qed.

Lemma effect_well_keyed w d w' :
  effect w d w' -> well_keyed (registrations w) -> well_keyed (registrations w').
Proof.
  intros [|random u Hpaid Horder|k u now Hk|k u t mails Hk] Hw; simpl.
  - assumption.
  - apply Map_set_well_keyed; [|assumption].
    split; simpl; [eauto | rewrite Horder; discriminate].
  - apply Map_set_well_keyed; [|assumption].
    destruct (well_keyed_assoc _ _ _ Hw Hk) as [Hkey _].
    split; simpl; [assumption | intros o [= <-]; eauto].
  - apply Map_set_well_keyed; [|assumption].
    destruct (well_keyed_assoc _ _ _ Hw Hk) as [Hkey Hord].
    split; simpl; assumption.
Qed.

Lemma run_well_keyed reqs w :
  well_keyed (registrations w) -> well_keyed (registrations (run env reqs w)).
Proof.
  revert w. induction reqs as [|req reqs IH]; intros w Hw; simpl; [assumption|].
  apply IH. eapply effect_well_keyed; [apply handle_effect | assumption].
Qed.

Lemma reachable_well_keyed w :
  reachable env w -> well_keyed (registrations w).
Proof. intros [reqs <-]. apply run_well_keyed. constructor. Qed.

Lemma entry_ok_key_hex k v : entry_ok (k, v) -> all_hex k = true /\ k <> "".
Proof.
  intros [[random Hk] _]. simpl in Hk. subst k.
  split; [apply reference_id_all_hex | apply reference_id_nonempty].
Qed.

(** Among well-keyed entries an order id names one key only, so the
    loop over the entries stops at the record the order was made for. *)
Lemma find_reference_order m k v o :
  well_keyed m -> assoc k m = Some v -> orderId v = Some o ->
  find_reference (JStr o) m = Some k.
Proof.
  intros Hm Hk Ho.
  destruct (well_keyed_assoc _ _ _ Hm Hk) as [Hkey Hord].
  destruct (Hord o Ho) as [now ->]. simpl in *.
  assert (Hhex : all_hex k = true) by (destruct Hkey as [r ->]; apply reference_id_all_hex).
  clear Hkey Hord.
  induction Hm as [|[k0 v0] m H0 Hm IH]; simpl in *; [discriminate|].
  unfold orderId_matches.
  destruct (orderId v0) as [o0|] eqn:Ho0.
  - destruct (String.eqb_spec o0 (order_id k now)) as [->|Hne].
    + destruct H0 as [Hkey0 Hord0]. simpl in *.
      destruct (Hord0 _ Ho0) as [now0 Heq].
      apply order_id_inj in Heq as [-> _]; auto.
      destruct Hkey0 as [r ->]. apply reference_id_all_hex.
    + destruct (String.eqb_spec k k0) as [->|Hk0]; [|auto].
      congruence.
  - destruct (String.eqb_spec k k0) as [->|Hk0]; [|auto].
    congruence.
Qed.

(** *** The handlers on a paid order *)

Lemma opt_prop_string_object v k s :
  opt_prop v k = JStr s -> truthy v = true.
Proof. destruct v; simpl; intros; try discriminate; reflexivity. Qed.

Lemma cashfree_webhook_paid body transport w k userData o :
  well_keyed (registrations w) ->
  assoc k (registrations w) = Some userData ->
  orderId userData = Some o ->
  opt_prop (webhook_order body) "order_id" = JStr o ->
  opt_prop (webhook_order body) "order_status" = JStr "PAID" ->
  cashfree_webhook env body transport w =
    try_catch
      (bind (confirm env transport k userData
               (js_or (opt_prop (webhook_order body) "cf_order_id") (JStr o)))
            (fun _ => ret webhook_ok))
      (fun _ => webhook_failed) w.
Proof.
  intros Hw Hk Ho Hid Hst.
  pose proof (opt_prop_string_object _ _ _ Hid) as Horder.
  pose proof (opt_prop_truthy _ _ Horder) as Hdata.
  pose proof (opt_prop_truthy _ _ Hdata) as Hbody.
  unfold webhook_order in *.
  destruct (entry_ok_key_hex _ _ (well_keyed_assoc _ _ _ Hw Hk)) as [_ Hne].
  apply truthy_string in Hne.
  unfold cashfree_webhook, try_catch, bind, lift, ret, get_world.
  rewrite (prop_truthy _ _ Hbody); cbv beta iota zeta.
  rewrite Hdata, (prop_truthy _ _ Hdata); cbv beta iota zeta.
  rewrite Horder, !(prop_truthy _ _ Horder); cbv beta iota zeta.
  rewrite Hid, Hst; cbv beta iota zeta.
  change (is_string (JStr "PAID") "PAID") with true; cbv beta iota zeta.
  rewrite (find_reference_order _ _ _ _ Hw Hk Ho), Hne, Map_get_string, Hk.
  reflexivity.
Qed.

End CashfreeInvariants.

(** ** The Cashfree server: the three confirmation paths *)

Section CashfreeConfirmation.
Import Cashfree.
Context `{JSNumber}.
Variable env : Env.

Lemma well_keyed_order_nonempty m k userData o :
  well_keyed m -> assoc k m = Some userData -> orderId userData = Some o ->
  truthy (JStr o) = true.
Proof.
  intros Hm Hk Ho.
  destruct (well_keyed_assoc _ _ _ Hm Hk) as [_ Hord].
  destruct (Hord o Ho) as [now ->]. reflexivity.
Qed.

Lemma check_payment_status_paid data transport w k userData o :
  well_keyed (registrations w) ->
  assoc k (registrations w) = Some userData ->
  orderId userData = Some o ->
  credentials_missing env = false ->
  opt_prop data "order_status" = JStr "PAID" ->
  check_payment_status env (JStr o) (Ok data) transport w =
    try_catch
      (bind (confirm env transport k userData
               (js_or (opt_prop data "cf_order_id") (opt_prop data "order_id")))
            (fun _ => ret (poll_ok (JStr "PAID") data)))
      poll_failed w.
Proof.
  intros Hw Hk Ho Hcred Hst.
  pose proof (opt_prop_string_object _ _ _ Hst) as Hdata.
  destruct (entry_ok_key_hex _ _ (well_keyed_assoc _ _ _ Hw Hk)) as [_ Hne].
  apply truthy_string in Hne.
  unfold check_payment_status, try_catch, bind, lift, ret, get_world.
  rewrite (well_keyed_order_nonempty _ _ _ _ Hw Hk Ho), Hcred.
  cbv beta iota zeta. change (to_string (JStr o)) with (Ok (A:=string) o).
  cbv beta iota zeta.
  rewrite !(prop_truthy _ _ Hdata), Hst; cbv beta iota zeta.
  change (is_string (JStr "PAID") "PAID") with true.
  change (negb true) with false; cbv beta iota zeta.
  rewrite (find_reference_order _ _ _ _ Hw Hk Ho), Hne, Map_get_string, Hk.
  reflexivity.
Qed.

Lemma confirm_payment_known body transport w k userData :
  well_keyed (registrations w) ->
  assoc k (registrations w) = Some userData ->
  opt_prop body "referenceId" = JStr k ->
  truthy (opt_prop body "transactionId") = true ->
  confirm_payment env body transport w =
    try_catch
      (bind (confirm env transport k userData (opt_prop body "transactionId"))
            (fun _ => ret (legacy_ok (JStr k))))
      (fun _ => something_went_wrong) w.
Proof.
  intros Hw Hk Href Htx.
  pose proof (opt_prop_string_object _ _ _ Href) as Hbody.
  destruct (entry_ok_key_hex _ _ (well_keyed_assoc _ _ _ Hw Hk)) as [_ Hne].
  apply truthy_string in Hne.
  unfold confirm_payment, try_catch, bind, lift, ret, get_world.
  rewrite !(prop_truthy _ _ Hbody), Href, Htx, Hne; cbv beta iota zeta.
  cbn [negb orb]. cbv beta iota zeta.
  unfold Map_get. rewrite Hk. reflexivity.
Qed.

(** With a willing transport and printable fields the confirmation block
    stores the paid record, adds the key and gets both mails out. *)
Lemma confirm_delivers transport k userData transaction w name mail tel tx :
  (forall m, transport m = true) ->
  to_string (fullName userData) = Ok name ->
  to_string (email userData) = Ok mail ->
  to_string (phone userData) = Ok tel ->
  to_string transaction = Ok tx ->
  confirm env transport k userData transaction w =
    (Ok true,
     {| registrations := Map_set k (paid userData transaction) (registrations w);
        confirmedPayments := confirmedPayments w ∪ {[k]};
        outbox := outbox w ++
          [userMailOptions env (paid userData transaction) name;
           adminMailOptions env name mail tel k tx] |}).
Proof.
  intros Htr Hn Hm Ht Hx.
  unfold confirm, sendConfirmationEmails, sendMail, bind, lift, ret,
    get_world, put_world.
  cbv beta iota zeta. simpl fullName. simpl email. simpl phone.
  rewrite Hn, Hm, Ht, Hx; cbv beta iota zeta.
  rewrite !Htr; cbv beta iota zeta. simpl.
  rewrite <- app_assoc. reflexivity.
Qed.

(** What a confirmation leaves in the state, whatever happens to the
    mails. *)
Lemma confirm_marks transport k userData transaction w :
  let w' := (confirm env transport k userData transaction w).2 in
  assoc k (registrations w') = Some (paid userData transaction)
  /\ k ∈ confirmedPayments w'.
Proof.
  destruct (confirm_world env transport k userData transaction w)
    as (r & mails & ->).
  simpl. split; [apply assoc_Map_set_eq | set_solver].
Qed.

Lemma try_catch_bind_ret_world {A} (m : Eff A) res h w :
  (try_catch (bind m (fun _ => ret res)) h w).2 = (m w).2.
Proof. rewrite try_catch_world. apply bind_world_ret. Qed.

End CashfreeConfirmation.

(** ** Confirmation of a paid order *)

Section CashfreeClaims.
Import Cashfree.
Context `{JSNumber}.

(** C4. For a registration R1 of a reachable state whose record carries
    the order id O, a status poll for O that the gateway answers with
    status PAID (and an order id of its own), and a webhook that reports
    PAID for O, each leave record(R1) with paymentConfirmed = true and a
    truthy transactionId, and R1 in the confirmed set. *)
Theorem paid_order_confirms_registration (env : Env) (w : World)
    (R1 : string) (userData : Registration) (O : string) :
  reachable env w ->
  assoc R1 (registrations w) = Some userData ->
  orderId userData = Some O ->
  (forall data transport,
     credentials_missing env = false ->
     opt_prop data "order_status" = JStr "PAID" ->
     truthy (js_or (opt_prop data "cf_order_id") (opt_prop data "order_id")) = true ->
     confirmed_in R1 (check_payment_status env (JStr O) (Ok data) transport w).2)
  /\ (forall body transport,
     opt_prop (webhook_order body) "order_id" = JStr O ->
     opt_prop (webhook_order body) "order_status" = JStr "PAID" ->
     confirmed_in R1 (cashfree_webhook env body transport w).2).
Proof.
  intros Hreach Hk Ho. apply reachable_well_keyed in Hreach. split.
  - intros data transport Hcred Hst Htx.
    rewrite (check_payment_status_paid env data transport w R1 userData O) by assumption.
    rewrite try_catch_bind_ret_world.
    destruct (confirm_marks env transport R1 userData
      (js_or (opt_prop data "cf_order_id") (opt_prop data "order_id")) w)
      as [Hrec Hin].
    eexists. split; [exact Hrec|]. auto.
  - intros body transport Hid Hst.
    rewrite (cashfree_webhook_paid env body transport w R1 userData O) by assumption.
    rewrite try_catch_bind_ret_world.
    destruct (confirm_marks env transport R1 userData
      (js_or (opt_prop (webhook_order body) "cf_order_id") (JStr O)) w)
      as [Hrec Hin].
    eexists. split; [exact Hrec|]. repeat split; [|exact Hin].
    apply js_or_truthy_r.
    eapply well_keyed_order_nonempty; eassumption.
Qed.

(** C1, as the code has it. For a registration R1 of a reachable state
    whose paymentConfirmed is already true, a further status poll
    reporting PAID, a further webhook delivery and a further legacy
    confirm-payment call each keep R1 paid and in the confirmed set, and
    each sends the pair of confirmation mails once more when the fields
    print and the transport accepts: no handler looks at
    paymentConfirmed before it sends. *)
Theorem repeated_confirmation_sends_again (env : Env) (w : World)
    (R1 : string) (userData : Registration) (name mail tel : string)
    (transport : Mail -> bool) :
  reachable env w ->
  assoc R1 (registrations w) = Some userData ->
  paymentConfirmed userData = true ->
  to_string (fullName userData) = Ok name ->
  to_string (email userData) = Ok mail ->
  to_string (phone userData) = Ok tel ->
  (forall m, transport m = true) ->
  (forall O data tx,
     orderId userData = Some O ->
     credentials_missing env = false ->
     opt_prop data "order_status" = JStr "PAID" ->
     to_string (js_or (opt_prop data "cf_order_id") (opt_prop data "order_id"))
       = Ok tx ->
     confirmed_again env R1 userData
       (js_or (opt_prop data "cf_order_id") (opt_prop data "order_id"))
       name mail tel tx w
       (check_payment_status env (JStr O) (Ok data) transport w).2)
  /\ (forall O body tx,
     orderId userData = Some O ->
     opt_prop (webhook_order body) "order_id" = JStr O ->
     opt_prop (webhook_order body) "order_status" = JStr "PAID" ->
     to_string (js_or (opt_prop (webhook_order body) "cf_order_id") (JStr O))
       = Ok tx ->
     confirmed_again env R1 userData
       (js_or (opt_prop (webhook_order body) "cf_order_id") (JStr O))
       name mail tel tx w
       (cashfree_webhook env body transport w).2)
  /\ (forall body tx,
     opt_prop body "referenceId" = JStr R1 ->
     truthy (opt_prop body "transactionId") = true ->
     to_string (opt_prop body "transactionId") = Ok tx ->
     confirmed_again env R1 userData (opt_prop body "transactionId")
       name mail tel tx w
       (confirm_payment env body transport w).2).
Proof.
  intros Hreach Hk _ Hn Hm Ht Htr. apply reachable_well_keyed in Hreach.
  assert (Hagain : forall transaction tx res h,
    to_string transaction = Ok tx ->
    confirmed_again env R1 userData transaction name mail tel tx w
      (try_catch (bind (confirm env transport R1 userData transaction)
                       (fun _ => ret res)) h w).2).
  { intros transaction tx res h Hx. rewrite try_catch_bind_ret_world.
    rewrite (confirm_delivers env transport R1 userData transaction w
               name mail tel tx) by assumption.
    simpl. split; [apply assoc_Map_set_eq|]. split; [set_solver|reflexivity]. }
  split; [|split].
  - intros O data tx Ho Hcred Hst Hx.
    rewrite (check_payment_status_paid env data transport w R1 userData O) by assumption.
    apply Hagain, Hx.
  - intros O body tx Ho Hid Hst Hx.
    rewrite (cashfree_webhook_paid env body transport w R1 userData O) by assumption.
    apply Hagain, Hx.
  - intros body tx Href Htx Hx.
    rewrite (confirm_payment_known env body transport w R1 userData) by assumption.
    apply Hagain, Hx.
Qed.

End CashfreeClaims.

Section CashfreeExamples.
Import Cashfree.
#[local] Existing Instance integer_numbers.

Lemma paid_order_confirms_registration_witness :
  let w := run env0 (take 2 until_paid) init in
  confirmed_in "abc123007fe9"
    (check_payment_status env0 (JStr "ORDER_abc123007fe9_1710000000500")
       (Ok paid_status) (fun _ => true) w).2
  /\ confirmed_in "abc123007fe9"
       (cashfree_webhook env0 paid_webhook (fun _ => true) w).2.
Proof.
  intros w.
  destruct (paid_order_confirms_registration env0 w "abc123007fe9"
      (with_order (registered (JStr "A") (JStr "a@x.com") (JStr "1") 1710000000000)
         "ORDER_abc123007fe9_1710000000500")
      "ORDER_abc123007fe9_1710000000500") as [Hpoll Hpush].
  - exists (take 2 until_paid). reflexivity.
  - vm_compute. reflexivity.
  - reflexivity.
  - split.
    + apply Hpoll; reflexivity.
    + apply Hpush; reflexivity.
Defined.

(** The scenario of the specification: after registration, order and a
    PAID webhook, check-payment answers success and one mail has gone to
    the registrant and one to the administrator. *)
Lemma scenario_of_the_specification :
  let w := run env0 until_paid init in
  (check_payment (JStr "abc123007fe9") w).1
    = {| status := 200; json := JObj [("success", JBool true)] |}
  /\ mail_to <$> outbox w = [JStr "a@x.com"; JStr "shereen@example.com"].
Proof. split; vm_compute; reflexivity. Qed.

End CashfreeExamples.

(** ** The webhook *)

Section WebhookClaims.
Import Cashfree.
Context `{JSNumber}.

Lemma prop_Ok v k x : prop v k = Ok x -> x = opt_prop v k.
Proof. destruct v; simpl; intros [= <-]; reflexivity. Qed.

Lemma try_catch_webhook_response {A} (m : Eff A) w :
  let res := (try_catch (bind m (fun _ => ret webhook_ok))
                (fun _ => webhook_failed) w).1 in
  res = webhook_ok \/ res = webhook_failed.
Proof.
  unfold try_catch, bind, ret. destruct (m w) as [[a|e] w']; simpl; auto.
Qed.

(** The webhook has two answers: the one that ends the [try] block and
    the one of the [catch] block. *)
Lemma cashfree_webhook_response (env : Env) (body : JVal)
    (transport : Mail -> bool) (w : World) :
  (cashfree_webhook env body transport w).1 = webhook_ok
  \/ (cashfree_webhook env body transport w).1 = webhook_failed.
Proof.
  unfold cashfree_webhook. cbv zeta.
  unfold try_catch at 1 2, bind at 1 3, lift at 1 3.
  destruct (prop body "data") as [data|e]; [|right; reflexivity].
  match goal with
  | |- context [bind ?m (fun _ => ret ?r) w] =>
      exact (try_catch_webhook_response m w)
  end.
Qed.

(** C3. Whatever the payload, the state and the behaviour of the mail
    transport, and whether or not the processing throws, the webhook
    endpoint answers with HTTP status 200; its body is one of two fixed
    objects, neither of which carries anything of the error. *)
Theorem cashfree_webhook_always_200 (env : Env) (body : JVal)
    (transport : Mail -> bool) (w : World) :
  let res := (cashfree_webhook env body transport w).1 in
  status res = 200%Z
  /\ (json res = JObj [("success", JBool true)]
      \/ json res = JObj [("success", JBool false);
                          ("error", JStr "Error processing webhook")]).
Proof.
  intros res. subst res.
  destruct (cashfree_webhook_response env body transport w) as [-> | ->];
    (split; [reflexivity|]); [left | right]; reflexivity.
Qed.

(** C10. A webhook whose payload has no data.order, or whose order
    status is not PAID, or whose order id is found on no stored
    registration leaves registrations, confirmed set and outbox as they
    were, and is answered with status 200. *)
Theorem cashfree_webhook_ignores_unmatched (env : Env) (body : JVal)
    (transport : Mail -> bool) (w : World) :
  truthy (webhook_order body) = false
  \/ opt_prop (webhook_order body) "order_status" <> JStr "PAID"
  \/ find_reference (opt_prop (webhook_order body) "order_id") (registrations w)
       = None ->
  (cashfree_webhook env body transport w).2 = w
  /\ status (cashfree_webhook env body transport w).1 = 200%Z.
Proof.
  intros Hcase. split;
    [|destruct (cashfree_webhook_response env body transport w) as [-> | ->];
      reflexivity].
  unfold cashfree_webhook. rewrite try_catch_world. cbv zeta.
  unfold bind at 1, lift at 1.
  destruct (prop body "data") as [data|e] eqn:Hdata; [|reflexivity].
  apply prop_Ok in Hdata.
  rewrite bind_world_ret.
  destruct (truthy data) eqn:Htd; [|reflexivity].
  unfold bind at 1, lift at 1.
  destruct (prop data "order") as [order|e] eqn:Horder; [|reflexivity].
  apply prop_Ok in Horder.
  assert (Hwo : webhook_order body = order) by (unfold webhook_order; congruence).
  rewrite Hwo in Hcase.
  destruct (truthy order) eqn:Hto; [|reflexivity].
  unfold bind at 1, lift at 1.
  destruct (prop order "order_id") as [oid|e] eqn:Hoid; [|reflexivity].
  apply prop_Ok in Hoid.
  unfold bind at 1, lift at 1.
  destruct (prop order "order_status") as [st|e] eqn:Hst; [|reflexivity].
  apply prop_Ok in Hst.
  destruct (is_string st "PAID") eqn:Hpaid; [|reflexivity].
  apply is_string_eq in Hpaid.
  destruct Hcase as [Hc|[Hc|Hc]]; [congruence | congruence |].
  unfold bind at 1, get_world. rewrite Hoid, Hc. reflexivity.
Qed.

End WebhookClaims.

Section WebhookExamples.
Import Cashfree.
#[local] Existing Instance integer_numbers.

Lemma cashfree_webhook_ignores_unmatched_witness :
  (cashfree_webhook env0
     (JObj [("data", JObj [("order",
        JObj [("order_id", JStr "ORDER_abc123007fe9_1710000000500");
              ("order_status", JStr "ACTIVE")])])])
     (fun _ => true) (run env0 (take 2 until_paid) init)).2
  = run env0 (take 2 until_paid) init
  /\ status (cashfree_webhook env0
     (JObj [("data", JObj [("order",
        JObj [("order_id", JStr "ORDER_abc123007fe9_1710000000500");
              ("order_status", JStr "ACTIVE")])])])
     (fun _ => true) (run env0 (take 2 until_paid) init)).1 = 200%Z.
Proof.
  apply cashfree_webhook_ignores_unmatched.
  right. left. simpl. discriminate.
Defined.

End WebhookExamples.

(** ** The Cashfree server: registrations along a run *)

Section RegistrationFacts.
Import Cashfree.
Context `{JSNumber}.
Variable env : Env.

Lemma register_accepts members random now w :
  let body := JObj members in
  truthy (opt_prop body "fullName") = true ->
  truthy (opt_prop body "email") = true ->
  truthy (opt_prop body "phone") = true ->
  register body random now w =
    (register_ok (reference_id random),
     {| registrations :=
          Map_set (reference_id random)
            (registered (opt_prop body "fullName") (opt_prop body "email")
               (opt_prop body "phone") now)
            (registrations w);
        confirmedPayments := confirmedPayments w;
        outbox := outbox w |}).
Proof.
  intros body Hn Hm Hp. subst body.
  unfold register, try_catch, bind, lift, ret, get_world, put_world.
  rewrite !prop_object. cbv beta iota zeta.
  rewrite Hn, Hm, Hp. reflexivity.
Qed.

Lemma register_rejects members random now w :
  let body := JObj members in
  truthy (opt_prop body "fullName") = false
  \/ truthy (opt_prop body "email") = false
  \/ truthy (opt_prop body "phone") = false ->
  register body random now w = (all_fields_required, w).
Proof.
  intros body Hblank. subst body.
  unfold register, try_catch, bind, lift, ret, get_world, put_world.
  rewrite !prop_object. cbv beta iota zeta.
  destruct Hblank as [Hb|[Hb|Hb]]; rewrite Hb; simpl;
    rewrite ?orb_true_r; reflexivity.
Qed.

(** An accepted registration answers with the hex of its draw. *)
Lemma register_issued body random now w :
  issued_by (PostRegister body random now) (register body random now w).1
  = reference_id <$> drawn_by (PostRegister body random now)
                       (register body random now w).1.
Proof.
  unfold register, try_catch, bind, lift, get_world, put_world, ret.
  destruct (prop body "fullName") as [n|e]; [|reflexivity].
  destruct (prop body "email") as [m|e]; [|reflexivity].
  destruct (prop body "phone") as [p|e]; [|reflexivity].
  destruct (negb (truthy n) || negb (truthy m) || negb (truthy p)); reflexivity.
Qed.

Lemma handle_issued req w :
  issued_by req (handle env req w).1
  = reference_id <$> drawn_by req (handle env req w).1.
Proof.
  destruct req; try apply register_issued; reflexivity.
Qed.

Lemma issued_draws reqs w :
  issued env reqs w = reference_id <$> draws env reqs w.
Proof.
  revert w. induction reqs as [|req reqs IH]; intros w; simpl; [reflexivity|].
  pose proof (handle_issued req w) as Hreq.
  destruct (handle env req w) as [res w']. simpl in Hreq.
  rewrite fmap_app, IH, Hreq.
  destruct (drawn_by req res); reflexivity.
Qed.

Lemma run_app reqs1 reqs2 w :
  run env (reqs1 ++ reqs2) w = run env reqs2 (run env reqs1 w).
Proof.
  revert w. induction reqs1 as [|req reqs1 IH]; intros w; simpl; auto.
Qed.

Lemma draws_app reqs1 reqs2 w :
  draws env (reqs1 ++ reqs2) w
  = draws env reqs1 w ++ draws env reqs2 (run env reqs1 w).
Proof.
  revert w. induction reqs1 as [|req reqs1 IH]; intros w; simpl; [reflexivity|].
  destruct (handle env req w) as [res w'] eqn:Hh. simpl.
  rewrite IH, app_assoc. reflexivity.
Qed.

(** *** Keys, draws and flags along a run *)

Lemma effect_keys_drawn w d w' ds :
  effect w d w' -> keys_drawn ds w -> keys_drawn (ds ++ option_list d) w'.
Proof.
  intros Heff Hk.
  assert (Hmono : forall k v, assoc k (registrations w) = Some v ->
    exists random, random ∈ ds ++ option_list d /\ k = reference_id random).
  { intros k v Hkv. destruct (Hk k v Hkv) as (r & Hr & ->).
    exists r. split; [set_solver|reflexivity]. }
  destruct Heff as [|random u Hpaid Horder|k0 u now Hk0|k0 u t mails Hk0];
    intros k v; simpl.
  - apply Hmono.
  - rewrite assoc_Map_set. destruct (String.eqb_spec k (reference_id random)) as [->|Hne].
    + intros _. exists random. split; [set_solver|reflexivity].
    + apply Hmono.
  - rewrite assoc_Map_set. destruct (String.eqb_spec k k0) as [->|Hne].
    + intros _. eapply Hmono, Hk0.
    + apply Hmono.
  - rewrite assoc_Map_set. destruct (String.eqb_spec k k0) as [->|Hne].
    + intros _. eapply Hmono, Hk0.
    + apply Hmono.
Qed.

Lemma effect_flags_agree w d w' :
  effect w d w' ->
  (forall random, d = Some random ->
     assoc (reference_id random) (registrations w) = None) ->
  flags_agree w -> flags_agree w'.
Proof.
  intros Heff Hfresh Hw.
  destruct Heff as [|random u Hpaid Horder|k0 u now Hk0|k0 u t mails Hk0];
    intros k; simpl.
  - apply Hw.
  - rewrite assoc_Map_set, (Hw k).
    destruct (String.eqb_spec k (reference_id random)) as [->|Hne]; [|reflexivity].
    rewrite (Hfresh random eq_refl).
    split; intros (v & Hv & Hp); congruence.
  - rewrite assoc_Map_set, (Hw k).
    destruct (String.eqb_spec k k0) as [->|Hne]; [|reflexivity].
    rewrite Hk0. split; intros (v & [= <-] & Hp); eauto.
  - rewrite assoc_Map_set, elem_of_union, elem_of_singleton, (Hw k).
    destruct (String.eqb_spec k k0) as [->|Hne].
    + split; [eauto | auto].
    + split; [intros [Hl|Hr]; [exact Hl|congruence] | auto].
Qed.

Lemma init_flags_agree : flags_agree init.
Proof.
  intros k. simpl. split; [set_solver | intros (v & Hv & _); discriminate].
Qed.

Lemma run_keys_drawn reqs :
  keys_drawn (draws env reqs init) (run env reqs init).
Proof.
  induction reqs as [|req reqs IH] using rev_ind.
  - intros k v. discriminate.
  - rewrite run_app, draws_app. simpl.
    pose proof (handle_effect env req (run env reqs init)) as Heff.
    destruct (handle env req (run env reqs init)) as [res w'].
    simpl in *. rewrite app_nil_r.
    eapply effect_keys_drawn; eassumption.
Qed.

(** A draw that is new to the run names no stored record. *)
Lemma fresh_draw_unused reqs random :
  random ∉ draws env reqs init ->
  assoc (reference_id random) (registrations (run env reqs init)) = None.
Proof.
  intros Hfresh.
  destruct (assoc (reference_id random) (registrations (run env reqs init)))
    as [v|] eqn:Hv; [|reflexivity].
  destruct (run_keys_drawn reqs _ _ Hv) as (r & Hr & Heq).
  apply reference_id_inj in Heq. subst r. contradiction.
Qed.

End RegistrationFacts.

(** ** The Razorpay server *)

Section RazorpayFacts.
Import Razorpay.
Context `{JSNumber} `{Crypto}.
Variable env : Env.

Lemma razorpay_is_string_eq v s : is_string v s = true <-> v = JStr s.
Proof.
  destruct v; simpl; split; try discriminate.
  - intros ->%String.eqb_eq. reflexivity.
  - intros [= ->]. apply String.eqb_refl.
Qed.

Lemma razorpay_is_string_ne v s : v <> JStr s -> is_string v s = false.
Proof.
  intros Hne. destruct (is_string v s) eqn:Hs; [|reflexivity].
  apply razorpay_is_string_eq in Hs. contradiction.
Qed.

Lemma razorpay_register_rejects members gateway w :
  let body := JObj members in
  truthy (opt_prop body "fullName") = false
  \/ truthy (opt_prop body "email") = false
  \/ truthy (opt_prop body "phone") = false ->
  register env body gateway w = (all_fields_required, w).
Proof.
  intros body Hblank. subst body.
  unfold register, try_catch, bind, lift, ret, get_world, put_world.
  rewrite !prop_object. cbv beta iota zeta.
  destruct Hblank as [Hb|[Hb|Hb]]; rewrite Hb; simpl;
    rewrite ?orb_true_r; reflexivity.
Qed.

Lemma verify_payment_mismatch members transport w key text :
  let body := JObj members in
  RAZORPAY_SECRET env = Some key ->
  signature_text (opt_prop body "razorpay_order_id")
    (opt_prop body "razorpay_payment_id") = Ok text ->
  opt_prop body "razorpay_signature" <> JStr (hmac_sha256_hex key text) ->
  verify_payment env body transport w = (invalid_signature, w).
Proof.
  intros body Hkey Htext Hsig. subst body.
  unfold verify_payment, try_catch, bind, lift, ret, get_world, put_world.
  rewrite !prop_object. cbv beta iota zeta.
  rewrite Htext. cbv beta iota zeta.
  unfold generate_signature. rewrite Hkey. cbv beta iota zeta.
  rewrite (razorpay_is_string_ne _ _ Hsig). reflexivity.
Qed.

(** The handler answers 200, or touches the state, only past the
    comparison of the signatures. *)
Lemma verify_payment_accepted body transport w :
  status (verify_payment env body transport w).1 = 200%Z
  \/ (verify_payment env body transport w).2 <> w ->
  exists key text,
    RAZORPAY_SECRET env = Some key
    /\ signature_text (opt_prop body "razorpay_order_id")
         (opt_prop body "razorpay_payment_id") = Ok text
    /\ opt_prop body "razorpay_signature" = JStr (hmac_sha256_hex key text).
Proof.
  intros Hacc.
  assert (Hrejected : forall res,
    verify_payment env body transport w = (res, w) ->
    status res <> 200%Z -> False).
  { intros res Hv Hst. rewrite Hv in Hacc. simpl in Hacc.
    destruct Hacc; contradiction. }
  unfold verify_payment, try_catch, bind, lift, ret, get_world, put_world
    in Hrejected.
  destruct (prop body "razorpay_payment_id") as [pid|e] eqn:Hpid;
    [|exfalso; eapply Hrejected; [reflexivity|discriminate]].
  destruct (prop body "razorpay_order_id") as [oid|e] eqn:Hoid;
    [|exfalso; eapply Hrejected; [reflexivity|discriminate]].
  destruct (prop body "razorpay_signature") as [sig|e] eqn:Hsig;
    [|exfalso; eapply Hrejected; [reflexivity|discriminate]].
  apply prop_Ok in Hpid, Hoid, Hsig. subst pid oid sig.
  destruct (signature_text _ _) as [text|e];
    [|exfalso; eapply Hrejected; [reflexivity|discriminate]].
  unfold generate_signature in Hrejected.
  destruct (RAZORPAY_SECRET env) as [key|];
    [|exfalso; eapply Hrejected; [reflexivity|discriminate]].
  destruct (is_string (opt_prop body "razorpay_signature")
              (hmac_sha256_hex key text)) eqn:Heq.
  - apply razorpay_is_string_eq in Heq. eauto.
  - exfalso; eapply Hrejected; [reflexivity|discriminate].
Qed.

Lemma Set_has_add v s :
  same_value_zero v v = true -> Set_has v (Set_add v s) = true.
Proof.
  intros Hv. unfold Set_add. destruct (Set_has v s) eqn:Hs; [exact Hs|].
  unfold Set_has. rewrite existsb_app. simpl. rewrite Hv.
  rewrite orb_true_r. reflexivity.
Qed.

Lemma verify_payment_unknown_order members transport w key text :
  let body := JObj members in
  RAZORPAY_SECRET env = Some key ->
  signature_text (opt_prop body "razorpay_order_id")
    (opt_prop body "razorpay_payment_id") = Ok text ->
  opt_prop body "razorpay_signature" = JStr (hmac_sha256_hex key text) ->
  Map_get (opt_prop body "razorpay_order_id") (userDataStore w) = None ->
  verify_payment env body transport w =
    (verified,
     {| successfulPayments :=
          Set_add (opt_prop body "razorpay_payment_id") (successfulPayments w);
        userDataStore := userDataStore w;
        outbox := outbox w |}).
Proof.
  intros body Hkey Htext Hsig Hget. subst body.
  unfold verify_payment, try_catch, bind, lift, ret, get_world, put_world.
  rewrite !prop_object. cbv beta iota zeta.
  rewrite Htext. cbv beta iota zeta.
  unfold generate_signature. rewrite Hkey. cbv beta iota zeta.
  rewrite (proj2 (razorpay_is_string_eq _ _) Hsig). cbn [negb].
  cbv beta iota zeta. rewrite Hget. reflexivity.
Qed.

End RazorpayFacts.

Section RazorpayClaims.
Import Razorpay.
Context `{JSNumber} `{Crypto}.

(** C2. A verify-payment request is answered 200, and changes the state,
    only if the submitted signature is the hex HMAC-SHA256 of
    orderId|paymentId under the configured secret.  With a secret
    configured, any other signature is answered 400 Invalid signature
    and leaves the successful-payments set, the user data and the outbox
    as they were. *)
Theorem verify_payment_checks_signature (env : Env) (members : list (string * JVal))
    (transport : Mail -> bool) (w : World) :
  let body := JObj members in
  (status (verify_payment env body transport w).1 = 200%Z
   \/ (verify_payment env body transport w).2 <> w ->
   exists key text,
     RAZORPAY_SECRET env = Some key
     /\ signature_text (opt_prop body "razorpay_order_id")
          (opt_prop body "razorpay_payment_id") = Ok text
     /\ opt_prop body "razorpay_signature" = JStr (hmac_sha256_hex key text))
  /\ (forall key text,
     RAZORPAY_SECRET env = Some key ->
     signature_text (opt_prop body "razorpay_order_id")
       (opt_prop body "razorpay_payment_id") = Ok text ->
     opt_prop body "razorpay_signature" <> JStr (hmac_sha256_hex key text) ->
     verify_payment env body transport w = (invalid_signature, w)).
Proof.
  intros body. split.
  - apply verify_payment_accepted.
  - intros key text. apply verify_payment_mismatch.
Qed.

(** C9. A verify-payment request with a valid signature whose order id
    has no stored user data still puts the payment id in the
    successful-payments set and is answered {success: true}; no mail is
    sent and the user data is untouched; check-payment for that payment
    id then answers {success: true}. *)
Theorem verify_payment_without_user_data (env : Env)
    (members : list (string * JVal)) (transport : Mail -> bool) (w : World)
    (key text payment_id : string) :
  let body := JObj members in
  RAZORPAY_SECRET env = Some key ->
  opt_prop body "razorpay_payment_id" = JStr payment_id ->
  signature_text (opt_prop body "razorpay_order_id") (JStr payment_id) = Ok text ->
  opt_prop body "razorpay_signature" = JStr (hmac_sha256_hex key text) ->
  Map_get (opt_prop body "razorpay_order_id") (userDataStore w) = None ->
  let w' := (verify_payment env body transport w).2 in
  (verify_payment env body transport w).1 = verified
  /\ successfulPayments w' = Set_add (JStr payment_id) (successfulPayments w)
  /\ outbox w' = outbox w
  /\ userDataStore w' = userDataStore w
  /\ (check_payment (JStr payment_id) w').1 = verified.
Proof.
  intros body Hkey Hpid Htext Hsig Hget w'. subst w'.
  rewrite <- Hpid in Htext.
  rewrite (verify_payment_unknown_order env members transport w key text)
    by assumption.
  fold body. rewrite Hpid. simpl. repeat split.
  unfold check_payment, verified. simpl.
  rewrite Set_has_add; [reflexivity|]. simpl. apply String.eqb_refl.
Qed.

End RazorpayClaims.

Section RazorpayExamples.
Import Razorpay.
#[local] Existing Instance integer_numbers.
#[local] Existing Instance tagging_hmac.

Lemma verify_payment_checks_signature_witness :
  verify_payment razorpay_env0 (JObj forged_payment) (fun _ => true) init
  = (invalid_signature, init).
Proof.
  apply (proj2 (verify_payment_checks_signature razorpay_env0 forged_payment
                  (fun _ => true) init) "secret" "order_1|pay_1").
  - reflexivity.
  - reflexivity.
  - simpl. discriminate.
Defined.

Lemma verify_payment_without_user_data_witness :
  (verify_payment razorpay_env0 (JObj stray_payment) (fun _ => true) init).1
    = verified
  /\ (check_payment (JStr "pay_1")
        (verify_payment razorpay_env0 (JObj stray_payment) (fun _ => true) init).2).1
    = verified.
Proof.
  destruct (verify_payment_without_user_data razorpay_env0 stray_payment
              (fun _ => true) init "secret" "order_1|pay_1" "pay_1")
    as (Hres & _ & _ & _ & Hcheck); try reflexivity.
  split; assumption.
Defined.

(** C8 fails on the Razorpay server: after one verified payment of an
    order without stored user data the successful-payments set has a
    member although no registration exists at all, and no record
    carries a paymentConfirmed flag. *)
Lemma razorpay_confirmed_without_registration :
  let w := run razorpay_env0 [PostVerifyPayment (JObj stray_payment) (fun _ => true)]
             init in
  reachable razorpay_env0 w
  /\ Set_has (JStr "pay_1") (successfulPayments w) = true
  /\ userDataStore w = [].
Proof.
  split; [eexists; reflexivity|]. split; reflexivity.
Qed.

End RazorpayExamples.

(** ** Registration, orders and the confirmed set *)

Section RegistrationClaims.
Import Cashfree.
Context `{JSNumber}.

(** C5, as the code has it. A register request whose fullName, email
    and phone are all truthy is answered with the hex of the six random
    bytes drawn for it as referenceId, and afterwards the store holds
    under that identifier a record with paymentConfirmed = false.  The
    identifier was never issued before provided the bytes differ from
    those of every earlier accepted registration: the handler does not
    look whether the identifier is taken. *)
Theorem register_issues_reference_id (env : Env) (reqs : list Request)
    (members : list (string * JVal)) (random : vec byte 6) (now : Z) :
  let body := JObj members in
  let w := run env reqs init in
  truthy (opt_prop body "fullName") = true ->
  truthy (opt_prop body "email") = true ->
  truthy (opt_prop body "phone") = true ->
  (register body random now w).1 = register_ok (reference_id random)
  /\ assoc (reference_id random) (registrations (register body random now w).2)
     = Some (registered (opt_prop body "fullName") (opt_prop body "email")
               (opt_prop body "phone") now)
  /\ (random ∉ draws env reqs init ->
      reference_id random ∉ issued env reqs init).
Proof.
  intros body w Hn Hm Hp. subst body.
  rewrite (register_accepts members random now w Hn Hm Hp). simpl.
  split; [reflexivity|]. split; [apply assoc_Map_set_eq|].
  intros Hfresh Hin. apply Hfresh.
  rewrite issued_draws in Hin.
  apply list_elem_of_fmap in Hin as (r & Heq & Hr).
  apply reference_id_inj in Heq. subst r. exact Hr.
Qed.

(** C7, as the code has it. For a registration R1 of a reachable state,
    a create-payment-order request that reaches the gateway and gets a
    response body is answered with the order id ORDER_R1_now, stores it
    as record(R1).orderId and keeps every other field and every other
    record; looking that order id up right afterwards gives R1.  Where
    R1 already had an order id, the new one differs from it as soon as
    the clock reading differs from the earlier one. *)
Theorem create_order_links_registration (env : Env) (w : World) (R1 : string)
    (userData : Registration) (body : JVal) (now : Z)
    (payload : list (string * JVal)) :
  reachable env w ->
  assoc R1 (registrations w) = Some userData ->
  opt_prop body "referenceId" = JStr R1 ->
  credentials_missing env = false ->
  let res := (create_payment_order env body now (Ok (JObj payload)) w).1 in
  let w' := (create_payment_order env body now (Ok (JObj payload)) w).2 in
  res = order_ok env (order_id R1 now)
          (opt_prop (JObj payload) "payment_session_id")
          (opt_prop (JObj payload) "order_token")
  /\ assoc R1 (registrations w') = Some (with_order userData (order_id R1 now))
  /\ find_reference (JStr (order_id R1 now)) (registrations w') = Some R1
  /\ (forall k v, k <> R1 ->
        assoc k (registrations w) = Some v -> assoc k (registrations w') = Some v)
  /\ (forall O, orderId userData = Some O ->
        exists earlier, O = order_id R1 earlier
          /\ (earlier <> now -> order_id R1 now <> O)).
Proof.
  intros Hreach Hk Href Hcred res w'. subst res w'.
  apply reachable_well_keyed in Hreach.
  pose proof (opt_prop_string_object _ _ _ Href) as Hbody.
  destruct (entry_ok_key_hex _ _ (well_keyed_assoc _ _ _ Hreach Hk)) as [_ Hne].
  apply truthy_string in Hne.
  assert (Hrun : create_payment_order env body now (Ok (JObj payload)) w =
    (order_ok env (order_id R1 now)
       (opt_prop (JObj payload) "payment_session_id")
       (opt_prop (JObj payload) "order_token"),
     {| registrations :=
          Map_set R1 (with_order userData (order_id R1 now)) (registrations w);
        confirmedPayments := confirmedPayments w;
        outbox := outbox w |})).
  { unfold create_payment_order, try_catch, bind, lift, ret, get_world, put_world.
    rewrite (prop_truthy _ _ Hbody), Href, Hne. cbn [negb].
    cbv beta iota zeta. unfold Map_get. rewrite Hk.
    cbv beta iota zeta. change (to_string (JStr R1)) with (Ok (A:=string) R1).
    cbv beta iota zeta. rewrite Hcred. reflexivity. }
  rewrite Hrun. simpl.
  split; [reflexivity|]. split; [apply assoc_Map_set_eq|].
  destruct (well_keyed_assoc _ _ _ Hreach Hk) as [Hkey Hord]. simpl in Hkey, Hord.
  split; [|split].
  - apply find_reference_order with (v := with_order userData (order_id R1 now)).
    + apply Map_set_well_keyed; [|assumption].
      split; simpl; [assumption | intros o [= <-]; eauto].
    + apply assoc_Map_set_eq.
    + reflexivity.
  - intros k v Hkne Hkv. rewrite assoc_Map_set_ne; assumption.
  - intros O HO. destruct (Hord O HO) as [earlier ->].
    exists earlier. split; [reflexivity|].
    intros Hclock. apply order_id_clock. congruence.
Qed.

(** C8, as the code has it.  On the Cashfree server, in every state
    reached by a run in which no two accepted registrations drew the
    same six bytes, the confirmed set holds exactly the identifiers of
    the stored registrations whose paymentConfirmed is true. *)
Theorem confirmed_set_matches_flags (env : Env) (reqs : list Request) :
  NoDup (draws env reqs init) -> flags_agree (run env reqs init).
Proof.
  induction reqs as [|req reqs IH] using rev_ind; intros Hnd.
  - apply init_flags_agree.
  - rewrite draws_app in Hnd. apply NoDup_app in Hnd as (Hnd & Hdisj & _).
    rewrite run_app. simpl. simpl in Hdisj.
    pose proof (handle_effect env req (run env reqs init)) as Heff.
    destruct (handle env req (run env reqs init)) as [res w'].
    simpl in *. rewrite app_nil_r in Hdisj.
    eapply effect_flags_agree; [exact Heff | | apply IH, Hnd].
    intros random Hd. rewrite Hd in Hdisj.
    apply fresh_draw_unused.
    intros Hin. apply (Hdisj random Hin). set_solver.
Qed.

End RegistrationClaims.

Section BothServers.
Context `{JSNumber}.

(** C6. A register request whose body lacks fullName, email or phone, or
    has an empty (falsy) one, is answered 400 All fields are required by
    either server, and leaves the whole state as it was. *)
Theorem register_rejects_blank_fields (members : list (string * JVal)) :
  let body := JObj members in
  truthy (opt_prop body "fullName") = false
  \/ truthy (opt_prop body "email") = false
  \/ truthy (opt_prop body "phone") = false ->
  (forall random now w,
     Cashfree.register body random now w = (Cashfree.all_fields_required, w))
  /\ (forall env gateway w,
     Razorpay.register env body gateway w = (Razorpay.all_fields_required, w)).
Proof.
  intros body Hblank. split.
  - intros random now w. apply register_rejects, Hblank.
  - intros env gateway w. apply razorpay_register_rejects, Hblank.
Qed.

End BothServers.

Section MoreExamples.
Import Cashfree.
#[local] Existing Instance integer_numbers.

Lemma register_rejects_blank_fields_witness :
  Cashfree.register (JObj incomplete_registrant) drawn 1710000000000 init
    = (Cashfree.all_fields_required, init)
  /\ Razorpay.register razorpay_env0 (JObj incomplete_registrant)
       (Ok (JObj [("id", JStr "order_1")])) Razorpay.init
    = (Razorpay.all_fields_required, Razorpay.init).
Proof.
  destruct (register_rejects_blank_fields incomplete_registrant) as [Hc Hr].
  - right. right. reflexivity.
  - split; [apply Hc | apply Hr].
Defined.

(** C5 fails when the generator repeats itself: the second registrant is
    handed the identifier the first one got. *)
Lemma register_reissues_on_repeated_draw :
  let reqs := [PostRegister registrant drawn 1710000000000] in
  let res := (register second_registrant drawn 1710000009999
                (run env0 reqs init)).1 in
  status res = 200%Z
  /\ opt_prop (json res) "referenceId" = JStr "abc123007fe9"
  /\ "abc123007fe9" ∈ issued env0 reqs init.
Proof.
  split; [reflexivity|]. split; [reflexivity|].
  vm_compute. left.
Qed.

Lemma register_issues_reference_id_witness :
  (register second_registrant [# x01; x02; x03; x04; x05; x06] 1710000009999
     (run env0 until_paid init)).1 = register_ok "010203040506"
  /\ "010203040506" ∉ issued env0 until_paid init.
Proof.
  destruct (register_issues_reference_id env0 until_paid
      [("fullName", JStr "B"); ("email", JStr "b@x.com"); ("phone", JStr "2")]
      [# x01; x02; x03; x04; x05; x06] 1710000009999)
    as (Hres & _ & Hfresh); try reflexivity.
  split; [exact Hres|]. apply Hfresh.
  vm_compute. intros Hin. apply list_elem_of_In in Hin.
  destruct Hin as [Heq|[]]. discriminate Heq.
Defined.

(** C7 fails when the clock has not moved: a second order for the
    registration gets the order id of the first if the gateway takes it,
    and no order id at all if the gateway rejects the repeated id. *)
Lemma create_order_repeats_id_on_same_clock :
  let w1 := run env0 [PostRegister registrant drawn 1710000000000; create_order]
              init in
  let accepted := (handle env0 create_order w1).1 in
  let rejected :=
    (handle env0
       (PostCreatePaymentOrder (JObj [("referenceId", JStr "abc123007fe9")])
          1710000000500
          (Throw {| response_data := JObj [("message", JStr "order already exists")];
                    message := "Request failed with status code 409" |}))
       w1).1 in
  (exists userData,
     assoc "abc123007fe9" (registrations w1) = Some userData
     /\ orderId userData = Some "ORDER_abc123007fe9_1710000000500")
  /\ status accepted = 200%Z
  /\ opt_prop (json accepted) "orderId" = JStr "ORDER_abc123007fe9_1710000000500"
  /\ status rejected = 500%Z
  /\ opt_prop (json rejected) "orderId" = JUndef.
Proof.
  split; [|repeat split; reflexivity].
  eexists. split; [vm_compute; reflexivity | reflexivity].
Qed.

(** The record keeps one order id: once a later order has replaced it,
    the earlier order id is found on no registration. *)
Lemma replaced_order_id_is_forgotten :
  let later :=
    PostCreatePaymentOrder (JObj [("referenceId", JStr "abc123007fe9")])
      1710000000900 (Ok (JObj [("payment_session_id", JStr "session_2")])) in
  let w := run env0 [PostRegister registrant drawn 1710000000000;
                     create_order; later] init in
  find_reference (JStr "ORDER_abc123007fe9_1710000000500") (registrations w)
    = None
  /\ find_reference (JStr "ORDER_abc123007fe9_1710000000900") (registrations w)
    = Some "abc123007fe9".
Proof. split; vm_compute; reflexivity. Qed.

Lemma create_order_links_registration_witness :
  let w := run env0 (take 1 until_paid) init in
  find_reference (JStr "ORDER_abc123007fe9_1710000000500")
    (registrations (handle env0 create_order w).2) = Some "abc123007fe9".
Proof.
  intros w.
  destruct (create_order_links_registration env0 w "abc123007fe9"
      (registered (JStr "A") (JStr "a@x.com") (JStr "1") 1710000000000)
      (JObj [("referenceId", JStr "abc123007fe9")]) 1710000000500
      [("payment_session_id", JStr "session_1")])
    as (_ & _ & Hfind & _).
  - exists (take 1 until_paid). reflexivity.
  - vm_compute. reflexivity.
  - reflexivity.
  - reflexivity.
  - exact Hfind.
Defined.

Lemma confirmed_set_matches_flags_witness :
  flags_agree (run env0 until_paid init).
Proof.
  apply confirmed_set_matches_flags.
  change (NoDup [drawn]). apply NoDup_singleton.
Defined.

(** On the Cashfree server the agreement is lost when a registration
    draws the identifier of a paid one: the new, unpaid record replaces
    the paid one and the identifier stays in the confirmed set. *)
Lemma repeated_draw_unsets_flag :
  let w := run env0 (until_paid ++ [PostRegister second_registrant drawn 1710000009999])
             init in
  "abc123007fe9" ∈ confirmedPayments w
  /\ (exists userData, assoc "abc123007fe9" (registrations w) = Some userData
        /\ paymentConfirmed userData = false).
Proof.
  split.
  - vm_compute confirmedPayments. set_solver.
  - eexists. split; [vm_compute; reflexivity | reflexivity].
Qed.

(** C1 fails: with the registration already paid, a second webhook
    delivery, a second status poll and a second legacy confirmation each
    put two more mails in the outbox. *)
Lemma second_confirmation_sends_second_pair :
  let w := run env0 until_paid init in
  assoc "abc123007fe9" (registrations w) = Some paid_registrant
  /\ paymentConfirmed paid_registrant = true
  /\ length (outbox w) = 2
  /\ outbox (cashfree_webhook env0 paid_webhook (fun _ => true) w).2
     = outbox w ++ outbox w
  /\ length (outbox (check_payment_status env0
       (JStr "ORDER_abc123007fe9_1710000000500") (Ok paid_status)
       (fun _ => true) w).2) = 4
  /\ length (outbox (confirm_payment env0 legacy_confirmation
       (fun _ => true) w).2) = 4.
Proof. repeat split; vm_compute; reflexivity. Qed.

Lemma repeated_confirmation_sends_again_witness :
  let w := run env0 until_paid init in
  confirmed_again env0 "abc123007fe9" paid_registrant (JStr "UPI-42")
    "A" "a@x.com" "1" "UPI-42" w
    (confirm_payment env0 legacy_confirmation (fun _ => true) w).2.
Proof.
  intros w.
  destruct (repeated_confirmation_sends_again env0 w "abc123007fe9"
      paid_registrant "A" "a@x.com" "1" (fun _ => true))
    as (_ & _ & Hlegacy).
  - exists until_paid. reflexivity.
  - vm_compute. reflexivity.
  - reflexivity.
  - reflexivity.
  - reflexivity.
  - reflexivity.
  - reflexivity.
  - apply (Hlegacy legacy_confirmation "UPI-42"); reflexivity.
Defined.

End MoreExamples.

(** * Further facts *)

(** ** Identifiers *)

Section IdentifierFormat.
Import Cashfree.

Lemma hex_length bs : String.length (hex bs) = 2 * length bs.
Proof.
  induction bs as [|b bs IH]; [reflexivity|].
  destruct (hex_cons b bs) as (hi & lo & Hb & _).
  rewrite Hb. simpl. rewrite IH. lia.
Qed.

(** X1. A reference id is twelve characters, each a digit or a letter from a
    to f, and two different draws never give the same reference id. *)
Theorem reference_id_format (r1 r2 : vec byte 6) :
  String.length (reference_id r1) = 12
  /\ all_hex (reference_id r1) = true
  /\ (r1 <> r2 -> reference_id r1 <> reference_id r2).
Proof.
  split; [|split].
  - unfold reference_id. rewrite hex_length, length_vec_to_list. reflexivity.
  - apply reference_id_all_hex.
  - intros Hne Heq. apply Hne, reference_id_inj, Heq.
Qed.

(** X2. Order ids made for different registrations, or at different clock
    readings, are different: an order id names one registration and one
    instant. *)
Theorem order_id_names_one_registration (r1 r2 : vec byte 6) (t1 t2 : Z) :
  r1 <> r2 \/ t1 <> t2 ->
  order_id (reference_id r1) t1 <> order_id (reference_id r2) t2.
Proof.
  intros Hne Heq.
  apply order_id_inj in Heq as [Hr Ht]; try apply reference_id_all_hex.
  apply reference_id_inj in Hr. destruct Hne; contradiction.
Qed.

End IdentifierFormat.

Section IdentifierExamples.
Import Cashfree.

Lemma reference_id_format_witness :
  reference_id drawn <> reference_id [# x01; x02; x03; x04; x05; x06].
Proof.
  apply (reference_id_format drawn [# x01; x02; x03; x04; x05; x06]).
  discriminate.
Defined.

Lemma order_id_names_one_registration_witness :
  order_id (reference_id drawn) 1710000000500
  <> order_id (reference_id drawn) 1710000000900.
Proof.
  apply order_id_names_one_registration. right. discriminate.
Defined.

End IdentifierExamples.

(** ** The Cashfree server: what every request leaves *)

Section CashfreeOutcomeFacts.
Import Cashfree.
Context `{JSNumber}.
Variable env : Env.

Lemma register_outcome body random now w :
  outcome env w (register body random now w).2.
Proof.
  unfold register, try_catch, bind, lift, get_world, put_world, ret.
  destruct (prop body "fullName") as [n|e]; [|constructor].
  destruct (prop body "email") as [m|e]; [|constructor].
  destruct (prop body "phone") as [p|e]; [|constructor].
  destruct (negb (truthy n) || negb (truthy m) || negb (truthy p)); simpl;
    constructor.
Qed.

Lemma create_payment_order_outcome body now gateway w :
  outcome env w (create_payment_order env body now gateway w).2.
Proof.
  unfold create_payment_order. rewrite try_catch_world.
  unfold bind, lift, get_world, put_world, ret.
  destruct (prop body "referenceId") as [ref|e]; [|constructor].
  destruct (negb (truthy ref)); [constructor|].
  destruct (Map_get ref (registrations w)) as [userData|] eqn:Hget; [|constructor].
  apply Map_get_Some in Hget as (k & -> & Hk). simpl.
  destruct (credentials_missing env); [constructor|].
  destruct gateway as [data|e]; [|constructor].
  destruct (prop data "payment_session_id") as [sid|e];
    [|apply outcome_order, Hk].
  destruct (prop data "order_token") as [tok|e]; apply outcome_order, Hk.
Qed.

Lemma confirm_found_outcome transport order (cf_read id_read : Result JVal) w :
  outcome env w
    (match find_reference order (registrations w) with
     | None => ret false
     | Some referenceId =>
         if truthy (JStr referenceId)
         then
           match Map_get (JStr referenceId) (registrations w) with
           | None => lift (Throw (TypeError "Cannot set properties of undefined"))
           | Some userData =>
               bind (lift cf_read) (fun cf_order_id =>
               bind (lift id_read) (fun gateway_order_id =>
               confirm env transport referenceId userData
                 (js_or cf_order_id gateway_order_id)))
           end
         else ret false
     end w).2.
Proof.
  destruct (find_reference order (registrations w)) as [k|]; [|constructor].
  destruct (truthy (JStr k)); [|constructor].
  rewrite Map_get_string.
  destruct (assoc k (registrations w)) as [userData|] eqn:Hk; [|constructor].
  unfold bind, lift.
  destruct cf_read as [cf|e]; [|constructor].
  destruct id_read as [oid|e]; [|constructor].
  apply outcome_confirm, Hk.
Qed.

Lemma check_payment_status_outcome order gateway transport w :
  outcome env w (check_payment_status env order gateway transport w).2.
Proof.
  unfold check_payment_status. rewrite try_catch_world.
  destruct (negb (truthy order)); [constructor|].
  destruct (credentials_missing env); [constructor|].
  unfold bind at 1, lift at 1.
  destruct (to_string order) as [url|e]; [|constructor].
  unfold bind at 1, lift at 1.
  destruct gateway as [data|e]; [|constructor].
  unfold bind at 1, lift at 1.
  destruct (prop data "order_status") as [st|e]; [|constructor].
  rewrite bind_world_ret.
  destruct (is_string st "PAID"); [|constructor].
  unfold bind at 1, get_world.
  apply confirm_found_outcome.
Qed.

Lemma confirm_payment_outcome body transport w :
  outcome env w (confirm_payment env body transport w).2.
Proof.
  unfold confirm_payment. rewrite try_catch_world. unfold bind at 1, lift at 1.
  destruct (prop body "referenceId") as [ref|e]; [|constructor].
  unfold bind at 1, lift at 1.
  destruct (prop body "transactionId") as [tx|e]; [|constructor].
  destruct (negb (truthy ref) || negb (truthy tx)); [constructor|].
  unfold bind at 1, get_world.
  destruct ref; try constructor.
  rewrite Map_get_string.
  destruct (assoc s (registrations w)) as [userData|] eqn:Hk; [|constructor].
  rewrite bind_world_ret.
  apply outcome_confirm, Hk.
Qed.

Lemma cashfree_webhook_outcome body transport w :
  outcome env w (cashfree_webhook env body transport w).2.
Proof.
  unfold cashfree_webhook. rewrite try_catch_world. cbv zeta.
  unfold bind at 1, lift at 1.
  destruct (prop body "data") as [data|e]; [|constructor].
  rewrite bind_world_ret.
  destruct (truthy data); [|constructor].
  unfold bind at 1, lift at 1.
  destruct (prop data "order") as [order|e]; [|constructor].
  destruct (truthy order); [|constructor].
  unfold bind at 1, lift at 1.
  destruct (prop order "order_id") as [oid|e]; [|constructor].
  unfold bind at 1, lift at 1.
  destruct (prop order "order_status") as [st|e]; [|constructor].
  destruct (is_string st "PAID"); [|constructor].
  unfold bind at 1, get_world.
  apply confirm_found_outcome.
Qed.

Lemma handle_outcome req w : outcome env w (handle env req w).2.
Proof.
  destruct req; simpl.
  - apply register_outcome.
  - apply create_payment_order_outcome.
  - apply check_payment_status_outcome.
  - apply confirm_payment_outcome.
  - constructor.
  - apply cashfree_webhook_outcome.
Qed.

(** What [confirm] leaves: the paid record, the key in the confirmed
    set, and at most the two mails, in their order. *)
Lemma confirm_leaves transport k userData transaction w :
  exists mails,
    (confirm env transport k userData transaction w).2 =
      {| registrations := Map_set k (paid userData transaction) (registrations w);
         confirmedPayments := confirmedPayments w ∪ {[k]};
         outbox := outbox w ++ mails |}
    /\ confirmation_mails env k userData transaction mails.
Proof.
  assert (Hnone : exists mails,
    {| registrations := Map_set k (paid userData transaction) (registrations w);
       confirmedPayments := confirmedPayments w ∪ {[k]};
       outbox := outbox w |} =
    {| registrations := Map_set k (paid userData transaction) (registrations w);
       confirmedPayments := confirmedPayments w ∪ {[k]};
       outbox := outbox w ++ mails |}
    /\ confirmation_mails env k userData transaction mails).
  { exists []. rewrite app_nil_r. split; [reflexivity | left; reflexivity]. }
  unfold confirm, sendConfirmationEmails, sendMail, bind, lift, ret,
    get_world, put_world.
  cbv beta iota zeta. simpl fullName. simpl email. simpl phone.
  destruct (to_string (fullName userData)) as [name|e] eqn:Hn; [|exact Hnone].
  destruct (to_string (email userData)) as [mail|e] eqn:Hm; [|exact Hnone].
  destruct (to_string (phone userData)) as [tel|e] eqn:Ht; [|exact Hnone].
  destruct (to_string transaction) as [tx|e] eqn:Hx; [|exact Hnone].
  destruct (transport (userMailOptions env (paid userData transaction) name));
    [|exact Hnone].
  cbv beta iota zeta.
  destruct (transport (adminMailOptions env name mail tel k tx)); simpl.
  - exists [userMailOptions env (paid userData transaction) name;
            adminMailOptions env name mail tel k tx].
    rewrite <- app_assoc. split; [reflexivity|].
    right. exists name, mail, tel, tx. repeat split; auto.
  - exists [userMailOptions env (paid userData transaction) name].
    split; [reflexivity|].
    right. exists name, mail, tel, tx. repeat split; auto.
    exists [adminMailOptions env name mail tel k tx]. reflexivity.
Qed.

(** Every kind of outcome is an [effect] whose draw is not known. *)
Lemma outcome_keeps_records w w' k userData :
  outcome env w w' ->
  assoc k (registrations w) = Some userData ->
  exists userData', assoc k (registrations w') = Some userData'.
Proof.
  intros [|random f e p now|k0 u now Hk0|tr k0 u t Hk0] Hk.
  - eauto.
  - simpl. rewrite assoc_Map_set. destruct (String.eqb k _); eauto.
  - simpl. rewrite assoc_Map_set. destruct (String.eqb k _); eauto.
  - destruct (confirm_leaves tr k0 u t w) as (mails & -> & _).
    simpl. rewrite assoc_Map_set. destruct (String.eqb k _); eauto.
Qed.

End CashfreeOutcomeFacts.

(** ** The Cashfree server: invariants of the store *)

Section CashfreeStore.
Import Cashfree.
Context `{JSNumber}.
Variable env : Env.

Lemma effect_keeps_records w d w' k :
  effect w d w' ->
  is_Some (assoc k (registrations w)) -> is_Some (assoc k (registrations w')).
Proof.
  intros [|random u Hpaid Horder|k0 u now Hk0|k0 u t mails Hk0] Hk; simpl;
    try assumption;
    rewrite assoc_Map_set; destruct (String.eqb k _); eauto.
Qed.

Lemma effect_stores_draw w random w' :
  effect w (Some random) w' ->
  is_Some (assoc (reference_id random) (registrations w')).
Proof.
  inversion 1; subst. simpl. rewrite assoc_Map_set_eq. eauto.
Qed.

Lemma drawn_stored reqs random :
  random ∈ draws env reqs init ->
  is_Some (assoc (reference_id random) (registrations (run env reqs init))).
Proof.
  induction reqs as [|req reqs IH] using rev_ind; [inversion 1|].
  rewrite run_app, draws_app. simpl.
  pose proof (handle_effect env req (run env reqs init)) as Heff.
  destruct (handle env req (run env reqs init)) as [res w'].
  simpl in *. rewrite app_nil_r.
  intros [Hold|Hnew]%elem_of_app.
  - eapply effect_keeps_records; eauto.
  - destruct (drawn_by req res) as [r|]; [|inversion Hnew].
    apply list_elem_of_singleton in Hnew. subst r.
    eapply effect_stores_draw, Heff.
Qed.

(** X3. After any run from the empty state the store holds a record under
    exactly the reference ids issued so far: none is ever deleted, none
    appears that was not issued. *)
Theorem store_holds_issued_ids (reqs : list Request) (k : string) :
  k ∈ issued env reqs init
  <-> is_Some (assoc k (registrations (run env reqs init))).
Proof.
  rewrite issued_draws, list_elem_of_fmap. split.
  - intros (random & -> & Hr). apply drawn_stored, Hr.
  - intros [v Hv]. destruct (run_keys_drawn env reqs _ _ Hv) as (r & Hr & ->).
    eauto.
Qed.

(** X4. Serving a request keeps every stored record and its contact data,
    and a paid record stays paid, unless the request is a registration
    that draws the very identifier of the record. *)
Theorem stored_record_survives (req : Request) (w : World) (k : string)
    (userData : Registration) :
  assoc k (registrations w) = Some userData ->
  (forall random,
     drawn_by req (handle env req w).1 = Some random -> reference_id random <> k) ->
  exists userData',
    assoc k (registrations (handle env req w).2) = Some userData'
    /\ fullName userData' = fullName userData
    /\ email userData' = email userData
    /\ phone userData' = phone userData
    /\ timestamp userData' = timestamp userData
    /\ (paymentConfirmed userData = true -> paymentConfirmed userData' = true).
Proof.
  intros Hk Hfresh.
  destruct (handle_effect env req w)
    as [|random u Hpaid Horder|k0 u now Hk0|k0 u t mails Hk0]; simpl.
  - exists userData. auto 10.
  - rewrite assoc_Map_set_ne; [exists userData; auto 10|].
    intros ->. eapply Hfresh; reflexivity.
  - rewrite assoc_Map_set. destruct (String.eqb_spec k k0) as [->|Hne].
    + rewrite Hk in Hk0. injection Hk0 as <-.
      eexists. split; [reflexivity|]. simpl. auto 10.
    + exists userData. auto 10.
  - rewrite assoc_Map_set. destruct (String.eqb_spec k k0) as [->|Hne].
    + rewrite Hk in Hk0. injection Hk0 as <-.
      eexists. split; [reflexivity|]. simpl. auto 10.
    + exists userData. auto 10.
Qed.

Lemma effect_confirmed_grows w d w' :
  effect w d w' -> confirmedPayments w ⊆ confirmedPayments w'.
Proof. intros []; simpl; set_solver. Qed.

Lemma Set_has_run reqs w q :
  Set_has q (confirmedPayments w) = true ->
  Set_has q (confirmedPayments (run env reqs w)) = true.
Proof.
  revert w. induction reqs as [|req reqs IH]; intros w Hq; simpl; [exact Hq|].
  apply IH. destruct q as [| | | |k| |]; simpl in *; try discriminate.
  pose proof (effect_confirmed_grows _ _ _ (handle_effect env req w)) as Hsub.
  apply bool_decide_eq_true in Hq. apply bool_decide_eq_true. set_solver.
Qed.

(** X5. Once check-payment answers success for an identifier it does so
    after every later request: no handler removes from the confirmed
    set. *)
Theorem confirmation_is_never_revoked (reqs : list Request) (w : World)
    (reference_id : JVal) :
  (check_payment reference_id w).1
    = {| status := 200; json := JObj [("success", JBool true)] |} ->
  (check_payment reference_id (run env reqs w)).1
    = {| status := 200; json := JObj [("success", JBool true)] |}.
Proof.
  unfold check_payment. simpl. intros [= Hhas].
  rewrite (Set_has_run reqs w reference_id Hhas). reflexivity.
Qed.

End CashfreeStore.

Section CashfreeReachable.
Import Cashfree.
Context `{JSNumber}.
Variable env : Env.

Lemma run_confirmed_stored reqs w :
  (forall k, k ∈ confirmedPayments w -> is_Some (assoc k (registrations w))) ->
  forall k, k ∈ confirmedPayments (run env reqs w) ->
    is_Some (assoc k (registrations (run env reqs w))).
Proof.
  revert w. induction reqs as [|req reqs IH]; intros w Hw; simpl; [exact Hw|].
  apply IH. intros k.
  pose proof (handle_effect env req w) as Heff.
  pose proof (effect_keeps_records _ _ _ k Heff) as Hkeep.
  destruct Heff as [|random u Hpaid Horder|k0 u now Hk0|k0 u t mails Hk0];
    simpl in *; try (intros Hk; apply Hkeep, Hw, Hk).
  rewrite elem_of_union, elem_of_singleton. intros [Hk | ->].
  - apply Hkeep, Hw, Hk.
  - rewrite assoc_Map_set_eq. eauto.
Qed.

(** X6. check-payment never changes the state, and in a reachable state it
    answers success only for a string that is the key of a stored
    registration; an absent, repeated or nested query parameter gets
    success false. *)
Theorem check_payment_success_means_stored (w : World) (reference_id : JVal) :
  reachable env w ->
  (check_payment reference_id w).2 = w
  /\ status (check_payment reference_id w).1 = 200%Z
  /\ (opt_prop (json (check_payment reference_id w).1) "success" = JBool true ->
      exists k userData,
        reference_id = JStr k /\ assoc k (registrations w) = Some userData).
Proof.
  intros [reqs <-]. split; [reflexivity|]. split; [reflexivity|].
  unfold check_payment. simpl. intros [= Hhas].
  destruct reference_id as [| | | |k| |]; simpl in Hhas; try discriminate.
  apply bool_decide_eq_true in Hhas.
  destruct (run_confirmed_stored reqs init) with (k := k) as [u Hu];
    [set_solver | exact Hhas |].
  eauto.
Qed.

Lemma Map_set_Forall (P : string * Registration -> Prop) k v m :
  P (k, v) -> Forall P m -> Forall P (Map_set k v m).
Proof.
  intros Hkv. induction 1 as [|[k0 v0] m H0 Hm IH]; simpl.
  - constructor; [assumption | constructor].
  - destruct (String.eqb k k0); constructor; auto.
Qed.

Lemma assoc_Forall (P : string * Registration -> Prop) k v m :
  Forall P m -> assoc k m = Some v -> P (k, v).
Proof.
  intros Hm Hk. apply assoc_In in Hk. rewrite Forall_forall in Hm. auto.
Qed.

Lemma outcome_transaction_paid w w' :
  outcome env w w' ->
  Forall (fun entry => transactionId entry.2 <> JUndef ->
                       paymentConfirmed entry.2 = true) (registrations w) ->
  Forall (fun entry => transactionId entry.2 <> JUndef ->
                       paymentConfirmed entry.2 = true) (registrations w').
Proof.
  intros [|random f e p now|k0 u now Hk0|tr k0 u t Hk0] Hw.
  - exact Hw.
  - simpl. apply Map_set_Forall; [simpl; congruence | exact Hw].
  - simpl. apply Map_set_Forall; [|exact Hw].
    exact (assoc_Forall _ _ _ _ Hw Hk0).
  - destruct (confirm_leaves env tr k0 u t w) as (mails & -> & _). simpl.
    apply Map_set_Forall; [simpl; auto | exact Hw].
Qed.

Lemma run_transaction_paid reqs w :
  Forall (fun entry => transactionId entry.2 <> JUndef ->
                       paymentConfirmed entry.2 = true) (registrations w) ->
  Forall (fun entry => transactionId entry.2 <> JUndef ->
                       paymentConfirmed entry.2 = true)
    (registrations (run env reqs w)).
Proof.
  revert w. induction reqs as [|req reqs IH]; intros w Hw; simpl; [exact Hw|].
  apply IH. eapply outcome_transaction_paid; [apply handle_outcome | exact Hw].
Qed.

(** X7. In a reachable state a record that carries a transaction id is
    marked paid. *)
Theorem transaction_id_means_paid (w : World) (k : string)
    (userData : Registration) :
  reachable env w ->
  assoc k (registrations w) = Some userData ->
  transactionId userData <> JUndef ->
  paymentConfirmed userData = true.
Proof.
  intros [reqs <-] Hk.
  apply (assoc_Forall (fun entry => transactionId entry.2 <> JUndef ->
                                    paymentConfirmed entry.2 = true) k userData
           (registrations (run env reqs init))); [|exact Hk].
  apply run_transaction_paid. constructor.
Qed.

End CashfreeReachable.

(** ** The Cashfree server: mails *)

Section CashfreeMails.
Import Cashfree.
Context `{JSNumber}.
Variable env : Env.

(** X8. Serving a request only appends to the outbox, and what it appends
    is nothing, or the mail to the registrant of one stored record, or
    that mail followed by the mail to the administrator: never the
    administrator's mail without the registrant's before it. *)
Theorem mails_come_in_order (req : Request) (w : World) :
  exists mails,
    outbox (handle env req w).2 = outbox w ++ mails
    /\ (mails = []
        \/ exists k userData transaction,
             assoc k (registrations w) = Some userData
             /\ confirmation_mails env k userData transaction mails).
Proof.
  destruct (handle_outcome env req w)
    as [|random f e p now|k0 u now Hk0|tr k0 u t Hk0].
  - exists []. rewrite app_nil_r. auto.
  - exists []. simpl. rewrite app_nil_r. auto.
  - exists []. simpl. rewrite app_nil_r. auto.
  - destruct (confirm_leaves env tr k0 u t w) as (mails & -> & Hmails).
    exists mails. simpl. split; [reflexivity|]. right. eauto.
Qed.

Lemma confirm_rejected transport k userData transaction w name mail tel tx :
  (forall m, transport m = false) ->
  to_string (fullName userData) = Ok name ->
  to_string (email userData) = Ok mail ->
  to_string (phone userData) = Ok tel ->
  to_string transaction = Ok tx ->
  confirm env transport k userData transaction w
    = (Ok false, marked_paid k userData transaction w).
Proof.
  intros Htr Hn Hm Ht Hx.
  unfold confirm, sendConfirmationEmails, sendMail, bind, lift, ret,
    get_world, put_world.
  cbv beta iota zeta. simpl fullName. simpl email. simpl phone.
  rewrite Hn, Hm, Ht, Hx; cbv beta iota zeta.
  rewrite !Htr; cbv beta iota zeta. reflexivity.
Qed.

Lemma confirm_unprintable transport k userData transaction w e :
  to_string (fullName userData) = Throw e ->
  confirm env transport k userData transaction w
    = (Throw e, marked_paid k userData transaction w).
Proof.
  intros Hn.
  unfold confirm, sendConfirmationEmails, sendMail, bind, lift, ret,
    get_world, put_world.
  cbv beta iota zeta. simpl fullName. rewrite Hn. reflexivity.
Qed.

(** X9. A mail transport that rejects every mail does not undo a
    confirmation: on a PAID status poll, a PAID webhook and a legacy
    confirmation alike the record is marked paid, its key joins the
    confirmed set, the outbox stays as it was and the answer is the
    success answer. *)
Theorem confirmation_survives_mail_failure (w : World) (R1 : string)
    (userData : Registration) (name mail tel : string)
    (transport : Mail -> bool) :
  reachable env w ->
  assoc R1 (registrations w) = Some userData ->
  to_string (fullName userData) = Ok name ->
  to_string (email userData) = Ok mail ->
  to_string (phone userData) = Ok tel ->
  (forall m, transport m = false) ->
  (forall O data tx,
     orderId userData = Some O ->
     credentials_missing env = false ->
     opt_prop data "order_status" = JStr "PAID" ->
     to_string (js_or (opt_prop data "cf_order_id") (opt_prop data "order_id"))
       = Ok tx ->
     check_payment_status env (JStr O) (Ok data) transport w
       = (poll_ok (JStr "PAID") data,
          marked_paid R1 userData
            (js_or (opt_prop data "cf_order_id") (opt_prop data "order_id")) w))
  /\ (forall O body tx,
     orderId userData = Some O ->
     opt_prop (webhook_order body) "order_id" = JStr O ->
     opt_prop (webhook_order body) "order_status" = JStr "PAID" ->
     to_string (js_or (opt_prop (webhook_order body) "cf_order_id") (JStr O))
       = Ok tx ->
     cashfree_webhook env body transport w
       = (webhook_ok,
          marked_paid R1 userData
            (js_or (opt_prop (webhook_order body) "cf_order_id") (JStr O)) w))
  /\ (forall body tx,
     opt_prop body "referenceId" = JStr R1 ->
     truthy (opt_prop body "transactionId") = true ->
     to_string (opt_prop body "transactionId") = Ok tx ->
     confirm_payment env body transport w
       = (legacy_ok (JStr R1),
          marked_paid R1 userData (opt_prop body "transactionId") w)).
Proof.
  intros Hreach Hk Hn Hm Ht Htr. apply reachable_well_keyed in Hreach.
  split; [|split].
  - intros O data tx Ho Hcred Hst Hx.
    rewrite (check_payment_status_paid env data transport w R1 userData O)
      by assumption.
    unfold try_catch, bind.
    rewrite (confirm_rejected transport R1 userData _ w name mail tel tx)
      by assumption.
    reflexivity.
  - intros O body tx Ho Hid Hst Hx.
    rewrite (cashfree_webhook_paid env body transport w R1 userData O)
      by assumption.
    unfold try_catch, bind.
    rewrite (confirm_rejected transport R1 userData _ w name mail tel tx)
      by assumption.
    reflexivity.
  - intros body tx Href Htx Hx.
    rewrite (confirm_payment_known env body transport w R1 userData)
      by assumption.
    unfold try_catch, bind.
    rewrite (confirm_rejected transport R1 userData _ w name mail tel tx)
      by assumption.
    reflexivity.
Qed.

(** X10. A stored fullName that a template literal cannot print (an object
    with a member of its own called toString) makes every confirmation
    of the record fail after the record has been marked paid: the poll
    and the legacy call answer 500, the webhook answers success false,
    no mail is sent, and the record stays paid and in the confirmed
    set. *)
Theorem unprintable_name_fails_after_marking (w : World) (R1 : string)
    (userData : Registration) (e : Exn) (transport : Mail -> bool) :
  reachable env w ->
  assoc R1 (registrations w) = Some userData ->
  to_string (fullName userData) = Throw e ->
  (forall O data,
     orderId userData = Some O ->
     credentials_missing env = false ->
     opt_prop data "order_status" = JStr "PAID" ->
     check_payment_status env (JStr O) (Ok data) transport w
       = (poll_failed e,
          marked_paid R1 userData
            (js_or (opt_prop data "cf_order_id") (opt_prop data "order_id")) w))
  /\ (forall O body,
     orderId userData = Some O ->
     opt_prop (webhook_order body) "order_id" = JStr O ->
     opt_prop (webhook_order body) "order_status" = JStr "PAID" ->
     cashfree_webhook env body transport w
       = (webhook_failed,
          marked_paid R1 userData
            (js_or (opt_prop (webhook_order body) "cf_order_id") (JStr O)) w))
  /\ (forall body,
     opt_prop body "referenceId" = JStr R1 ->
     truthy (opt_prop body "transactionId") = true ->
     confirm_payment env body transport w
       = (something_went_wrong,
          marked_paid R1 userData (opt_prop body "transactionId") w)).
Proof.
  intros Hreach Hk Hn. apply reachable_well_keyed in Hreach.
  split; [|split].
  - intros O data Ho Hcred Hst.
    rewrite (check_payment_status_paid env data transport w R1 userData O)
      by assumption.
    unfold try_catch, bind.
    rewrite (confirm_unprintable transport R1 userData _ w e Hn). reflexivity.
  - intros O body Ho Hid Hst.
    rewrite (cashfree_webhook_paid env body transport w R1 userData O)
      by assumption.
    unfold try_catch, bind.
    rewrite (confirm_unprintable transport R1 userData _ w e Hn). reflexivity.
  - intros body Href Htx.
    rewrite (confirm_payment_known env body transport w R1 userData)
      by assumption.
    unfold try_catch, bind.
    rewrite (confirm_unprintable transport R1 userData _ w e Hn). reflexivity.
Qed.

(** X11. The legacy confirmation asks no gateway: for any stored
    registration and any truthy transaction id the caller names, the
    record is marked paid with that transaction id and its key joins
    the confirmed set. *)
Theorem confirm_payment_marks_paid (w : World) (R1 : string)
    (userData : Registration) (body : JVal) (transport : Mail -> bool) :
  reachable env w ->
  assoc R1 (registrations w) = Some userData ->
  opt_prop body "referenceId" = JStr R1 ->
  truthy (opt_prop body "transactionId") = true ->
  let w' := (confirm_payment env body transport w).2 in
  assoc R1 (registrations w')
    = Some (paid userData (opt_prop body "transactionId"))
  /\ R1 ∈ confirmedPayments w'.
Proof.
  intros Hreach Hk Href Htx w'. subst w'.
  apply reachable_well_keyed in Hreach.
  rewrite (confirm_payment_known env body transport w R1 userData) by assumption.
  rewrite try_catch_bind_ret_world. apply confirm_marks.
Qed.

End CashfreeMails.

(** ** The Cashfree server: refusals and requests without effect *)

Section CashfreeRefusals.
Import Cashfree.
Context `{JSNumber}.
Variable env : Env.

(** X12. A status poll that the gateway answers with a status other than
    PAID, or for an order id found on no stored registration, changes
    nothing and sends nothing; it hands the gateway's status and data
    on with status 200. *)
Theorem check_payment_status_ignores_unmatched (orderId : JVal) (url : string)
    (data order_status : JVal) (transport : Mail -> bool) (w : World) :
  truthy orderId = true ->
  credentials_missing env = false ->
  to_string orderId = Ok url ->
  prop data "order_status" = Ok order_status ->
  order_status <> JStr "PAID"
  \/ find_reference orderId (registrations w) = None ->
  check_payment_status env orderId (Ok data) transport w
    = (poll_ok order_status data, w).
Proof.
  intros Hid Hcred Hurl Hst Hcase.
  unfold check_payment_status, try_catch, bind, lift, ret, get_world.
  rewrite Hid, Hcred. cbn [negb]. cbv beta iota zeta.
  rewrite Hurl, Hst. cbv beta iota zeta.
  destruct (is_string order_status "PAID") eqn:Hpaid; [|reflexivity].
  apply is_string_eq in Hpaid.
  destruct Hcase as [Hc|Hc]; [contradiction|].
  rewrite Hc. reflexivity.
Qed.

(** X13. The refusals of the status poll leave the state alone: 400 without
    an order id, 500 without gateway credentials (the gateway is then
    not asked), and 500 with the failure's details when the gateway
    call fails. *)
Theorem check_payment_status_refusals (orderId : JVal) (gateway : Result JVal)
    (transport : Mail -> bool) (w : World) :
  (truthy orderId = false ->
   check_payment_status env orderId gateway transport w
     = ({| status := 400; json := JObj [("error", JStr "Order ID is required")] |},
        w))
  /\ (truthy orderId = true -> credentials_missing env = true ->
      check_payment_status env orderId gateway transport w
        = (configuration_error, w))
  /\ (forall url error,
      truthy orderId = true -> credentials_missing env = false ->
      to_string orderId = Ok url -> gateway = Throw error ->
      check_payment_status env orderId gateway transport w
        = (poll_failed error, w)).
Proof.
  unfold check_payment_status, try_catch, bind, lift, ret, get_world.
  split; [|split].
  - intros ->. reflexivity.
  - intros -> ->. reflexivity.
  - intros url error -> -> Hurl ->. cbn [negb]. cbv beta iota zeta.
    rewrite Hurl. reflexivity.
Qed.

(** X14. The refusals of order creation leave the state alone: 400 without a
    reference id, 404 for a reference id that is not stored, 500
    without gateway credentials, and 500 with the failure's details
    when the gateway call fails. *)
Theorem create_payment_order_refusals (members : list (string * JVal))
    (now : Z) (gateway : Result JVal) (w : World) :
  let body := JObj members in
  let referenceId := opt_prop body "referenceId" in
  (truthy referenceId = false ->
   create_payment_order env body now gateway w
     = ({| status := 400;
           json := JObj [("error", JStr "Reference ID is required")] |}, w))
  /\ (truthy referenceId = true ->
      Map_get referenceId (registrations w) = None ->
      create_payment_order env body now gateway w = (invalid_reference, w))
  /\ (forall userData,
      truthy referenceId = true ->
      Map_get referenceId (registrations w) = Some userData ->
      (credentials_missing env = true ->
       create_payment_order env body now gateway w = (configuration_error, w))
      /\ (forall error,
          credentials_missing env = false -> gateway = Throw error ->
          create_payment_order env body now gateway w = (order_failed error, w))).
Proof.
  intros body referenceId. subst body referenceId.
  unfold create_payment_order, try_catch, bind, lift, ret, get_world, put_world.
  rewrite prop_object. cbv beta iota zeta.
  split; [|split].
  - intros ->. reflexivity.
  - intros Href Hget. rewrite Href. cbn [negb]. cbv beta iota zeta.
    rewrite Hget. reflexivity.
  - intros userData Href Hget. rewrite Href. cbn [negb]. cbv beta iota zeta.
    rewrite Hget. cbv beta iota zeta.
    apply Map_get_Some in Hget as (k & -> & _).
    change (to_string (JStr k)) with (Ok (A:=string) k). cbv beta iota zeta.
    split.
    + intros ->. reflexivity.
    + intros error -> ->. reflexivity.
Qed.

(** X15. The refusals of the legacy confirmation leave the state alone: 400
    when the reference id or the transaction id is missing or empty,
    404 for a reference id that is not stored. *)
Theorem confirm_payment_refusals (members : list (string * JVal))
    (transport : Mail -> bool) (w : World) :
  let body := JObj members in
  (truthy (opt_prop body "referenceId") = false
   \/ truthy (opt_prop body "transactionId") = false ->
   confirm_payment env body transport w
     = ({| status := 400;
           json := JObj [("error",
             JStr "Reference ID and Transaction ID are required")] |}, w))
  /\ (truthy (opt_prop body "referenceId") = true ->
      truthy (opt_prop body "transactionId") = true ->
      Map_get (opt_prop body "referenceId") (registrations w) = None ->
      confirm_payment env body transport w = (invalid_reference, w)).
Proof.
  intros body. subst body.
  unfold confirm_payment, try_catch, bind, lift, ret, get_world.
  rewrite !prop_object. cbv beta iota zeta.
  split.
  - intros [Hb|Hb]; rewrite Hb; cbn [negb orb]; rewrite ?orb_true_r; reflexivity.
  - intros Href Htx Hget. rewrite Href, Htx. cbn [negb orb].
    cbv beta iota zeta.
    set (r := opt_prop (JObj members) "referenceId") in *.
    destruct r; try reflexivity. rewrite Hget. reflexivity.
Qed.

End CashfreeRefusals.

(** ** The Cashfree server: a webhook that names no order *)

Section CashfreeOrderless.
Import Cashfree.
Context `{JSNumber}.
Variable env : Env.

Lemma Map_set_key_in k v m x :
  x ∈ (Map_set k v m).*1 -> x = k \/ x ∈ m.*1.
Proof.
  induction m as [|[k0 v0] m IH]; simpl.
  - intros ->%list_elem_of_singleton. auto.
  - destruct (String.eqb_spec k k0) as [->|Hne]; simpl.
    + auto.
    + intros [->|Hx]%elem_of_cons; [right; left|].
      destruct (IH Hx); [auto | right; right; assumption].
Qed.

Lemma Map_set_NoDup k v m : NoDup m.*1 -> NoDup (Map_set k v m).*1.
Proof.
  induction m as [|[k0 v0] m IH]; simpl; intros Hnd.
  - apply NoDup_singleton.
  - apply NoDup_cons in Hnd as [Hk0 Hnd].
    destruct (String.eqb_spec k k0) as [->|Hne]; simpl.
    + apply NoDup_cons. auto.
    + apply NoDup_cons. split; [|auto].
      intros [->|Hin]%Map_set_key_in; [congruence | contradiction].
Qed.

Lemma effect_NoDup w d w' :
  effect w d w' -> NoDup (registrations w).*1 -> NoDup (registrations w').*1.
Proof. intros []; simpl; auto using Map_set_NoDup. Qed.

Lemma reachable_NoDup w : reachable env w -> NoDup (registrations w).*1.
Proof.
  intros [reqs <-]. generalize (NoDup_nil_2 (A := string)).
  change (@nil string) with (registrations (init (H := H))).*1.
  generalize (init (H := H)).
  induction reqs as [|req reqs IH]; intros w Hw; simpl; [exact Hw|].
  apply IH. eapply effect_NoDup; [apply handle_effect | exact Hw].
Qed.

Lemma assoc_key_in k v m : assoc k m = Some v -> k ∈ m.*1.
Proof.
  intros Hk%assoc_In. apply list_elem_of_fmap. exists (k, v). auto.
Qed.

(** With [undefined] for order id the loop stops at the first record
    that has no order id. *)
Lemma find_reference_undefined m k :
  NoDup m.*1 -> find_reference JUndef m = Some k ->
  exists userData, assoc k m = Some userData /\ orderId userData = None.
Proof.
  induction m as [|[k0 v0] m IH]; simpl; [discriminate|].
  intros [Hk0 Hnd]%NoDup_cons. unfold orderId_matches.
  destruct (orderId v0) eqn:Ho.
  - intros Hf. destruct (IH Hnd Hf) as (u & Hu & Hnone).
    exists u. split; [|exact Hnone].
    destruct (String.eqb_spec k k0) as [->|Hne]; [|exact Hu].
    apply assoc_key_in in Hu. contradiction.
  - intros [= ->]. rewrite String.eqb_refl. eauto.
Qed.

Lemma find_reference_undefined_some m k userData :
  assoc k m = Some userData -> orderId userData = None ->
  exists k', find_reference JUndef m = Some k'.
Proof.
  induction m as [|[k0 v0] m IH]; simpl; [discriminate|].
  unfold orderId_matches.
  destruct (orderId v0) eqn:Ho; [|eauto].
  destruct (String.eqb_spec k k0) as [->|Hne]; [|auto].
  intros [= ->] Hnone. congruence.
Qed.

Lemma cashfree_webhook_found body transport w k userData :
  opt_prop (webhook_order body) "order_status" = JStr "PAID" ->
  find_reference (opt_prop (webhook_order body) "order_id") (registrations w)
    = Some k ->
  k <> "" ->
  assoc k (registrations w) = Some userData ->
  cashfree_webhook env body transport w =
    try_catch
      (bind (confirm env transport k userData
               (js_or (opt_prop (webhook_order body) "cf_order_id")
                      (opt_prop (webhook_order body) "order_id")))
            (fun _ => ret webhook_ok))
      (fun _ => webhook_failed) w.
Proof.
  intros Hst Hfind Hne Hk.
  pose proof (opt_prop_string_object _ _ _ Hst) as Horder.
  pose proof (opt_prop_truthy _ _ Horder) as Hdata.
  pose proof (opt_prop_truthy _ _ Hdata) as Hbody.
  apply truthy_string in Hne.
  unfold webhook_order in *.
  unfold cashfree_webhook, try_catch, bind, lift, ret, get_world.
  rewrite (prop_truthy _ _ Hbody); cbv beta iota zeta.
  rewrite Hdata, (prop_truthy _ _ Hdata); cbv beta iota zeta.
  rewrite Horder, !(prop_truthy _ _ Horder); cbv beta iota zeta.
  rewrite Hst; cbv beta iota zeta.
  change (is_string (JStr "PAID") "PAID") with true; cbv beta iota zeta.
  rewrite Hfind, Hne, Map_get_string, Hk.
  reflexivity.
Qed.

(** X16. The webhook checks no signature and compares the order id it is
    given with the stored ones by [===]: a PAID notification that
    carries no order id matches the records that have no order yet,
    and marks the first of them paid.  So as long as some registration
    has not created an order, such a notification confirms a
    registration that was never paid for. *)
Theorem webhook_without_order_id_confirms (w : World) (k0 : string)
    (userData0 : Registration) (body : JVal) (transport : Mail -> bool) :
  reachable env w ->
  assoc k0 (registrations w) = Some userData0 ->
  orderId userData0 = None ->
  opt_prop (webhook_order body) "order_id" = JUndef ->
  opt_prop (webhook_order body) "order_status" = JStr "PAID" ->
  exists k userData,
    assoc k (registrations w) = Some userData
    /\ orderId userData = None
    /\ assoc k (registrations (cashfree_webhook env body transport w).2)
       = Some (paid userData
                 (js_or (opt_prop (webhook_order body) "cf_order_id") JUndef))
    /\ k ∈ confirmedPayments (cashfree_webhook env body transport w).2.
Proof.
  intros Hreach Hk0 Ho0 Hid Hst.
  destruct (find_reference_undefined_some _ _ _ Hk0 Ho0) as [k Hfind].
  destruct (find_reference_undefined _ _ (reachable_NoDup _ Hreach) Hfind)
    as (userData & Hk & Ho).
  exists k, userData. split; [exact Hk|]. split; [exact Ho|].
  apply reachable_well_keyed in Hreach.
  destruct (entry_ok_key_hex _ _ (well_keyed_assoc _ _ _ Hreach Hk)) as [_ Hne].
  rewrite (cashfree_webhook_found body transport w k userData); auto;
    [|rewrite Hid; exact Hfind].
  rewrite try_catch_bind_ret_world, Hid. apply confirm_marks.
Qed.

End CashfreeOrderless.

(** ** The Razorpay server: registration and verification *)

Section RazorpayMore.
Import Razorpay.
Context `{JSNumber} `{Crypto}.
Variable env : Env.

Lemma Map_get_Map_set_string s v m :
  Map_get (JStr s) (Map_set (JStr s) v m) = Some v.
Proof.
  induction m as [|[k v0] m IH]; simpl.
  - rewrite String.eqb_refl. reflexivity.
  - destruct (same_value_zero k (JStr s)) eqn:Hk; simpl; rewrite Hk; auto.
Qed.

(** X17. A registration with all three fields stores them under the id of
    the order the gateway made and answers with that id, so that a
    lookup by the order id finds them; when the gateway call fails the
    answer is 500 and nothing is stored. *)
Theorem razorpay_register_stores_user_data (members : list (string * JVal))
    (w : World) :
  let body := JObj members in
  truthy (opt_prop body "fullName") = true ->
  truthy (opt_prop body "email") = true ->
  truthy (opt_prop body "phone") = true ->
  (forall error, register env body (Throw error) w = (something_went_wrong, w))
  /\ (forall order id,
      opt_prop order "id" = JStr id ->
      let userData :=
        {| fullName := opt_prop body "fullName";
           email := opt_prop body "email";
           phone := opt_prop body "phone" |} in
      (register env body (Ok order) w).1
        = razorpay_register_ok env order (opt_prop body "fullName")
            (opt_prop body "email") (opt_prop body "phone")
      /\ Map_get (JStr id) (userDataStore (register env body (Ok order) w).2)
         = Some userData
      /\ successfulPayments (register env body (Ok order) w).2
         = successfulPayments w
      /\ outbox (register env body (Ok order) w).2 = outbox w).
Proof.
  intros body Hn Hm Hp. subst body.
  unfold register, try_catch, bind, lift, ret, get_world, put_world.
  rewrite !prop_object. cbv beta iota zeta. rewrite Hn, Hm, Hp.
  cbn [negb orb]. cbv beta iota zeta. split; [reflexivity|].
  intros order id Hid.
  pose proof (opt_prop_string_object _ _ _ Hid) as Horder.
  rewrite !(prop_truthy _ _ Horder). cbv beta iota zeta.
  cbn [fst snd successfulPayments userDataStore outbox].
  split; [reflexivity|]. split; [|split; reflexivity].
  rewrite Hid. apply Map_get_Map_set_string.
Qed.

(** X18. Without a configured secret no payment is ever verified: every
    verify-payment request is answered 500 and changes nothing. *)
Theorem verify_payment_without_secret (body : JVal) (transport : Mail -> bool)
    (w : World) :
  RAZORPAY_SECRET env = None ->
  verify_payment env body transport w = (verification_failed, w).
Proof.
  intros Hsecret.
  unfold verify_payment, try_catch, bind, lift, ret, get_world, put_world.
  destruct (prop body "razorpay_payment_id") as [pid|e]; [|reflexivity].
  destruct (prop body "razorpay_order_id") as [oid|e]; [|reflexivity].
  destruct (prop body "razorpay_signature") as [sig|e]; [|reflexivity].
  destruct (signature_text oid pid) as [text|e]; [|reflexivity].
  unfold generate_signature. rewrite Hsecret. reflexivity.
Qed.

(** X19. With a valid signature and user data stored for the order, the
    handler adds the payment id, tries the registrant's mail and then
    the administrator's, deletes the user data and answers success,
    whatever the transport did with the mails: a rejected mail is not
    tried again. *)
Theorem verify_payment_with_user_data (members : list (string * JVal))
    (transport : Mail -> bool) (w : World) (userData : UserData)
    (name mail tel payment order : string) :
  let body := JObj members in
  signature_valid env body = true ->
  Map_get (opt_prop body "razorpay_order_id") (userDataStore w) = Some userData ->
  to_string (fullName userData) = Ok name ->
  to_string (email userData) = Ok mail ->
  to_string (phone userData) = Ok tel ->
  to_string (opt_prop body "razorpay_payment_id") = Ok payment ->
  to_string (opt_prop body "razorpay_order_id") = Ok order ->
  exists mails,
    verify_payment env body transport w =
      (verified,
       {| successfulPayments :=
            Set_add (opt_prop body "razorpay_payment_id") (successfulPayments w);
          userDataStore :=
            Map_delete (opt_prop body "razorpay_order_id") (userDataStore w);
          outbox := outbox w ++ mails |})
    /\ mails `prefix_of`
         [razorpay_userMailOptions env userData name;
          razorpay_adminMailOptions env name mail tel payment order]
    /\ ((forall m, transport m = true) ->
        mails = [razorpay_userMailOptions env userData name;
                 razorpay_adminMailOptions env name mail tel payment order]).
Proof.
  intros body Hvalid Hget Hn Hm Ht Hp Ho. subst body.
  unfold signature_valid in Hvalid.
  destruct (RAZORPAY_SECRET env) as [key|] eqn:Hkey; [|discriminate].
  destruct (signature_text _ _) as [text|] eqn:Htext; [|discriminate].
  unfold verify_payment, try_catch, bind, lift, ret, get_world, put_world.
  rewrite !prop_object. cbv beta iota zeta.
  rewrite Htext. cbv beta iota zeta.
  unfold generate_signature. rewrite Hkey. cbv beta iota zeta.
  rewrite Hvalid. cbn [negb]. cbv beta iota zeta.
  rewrite Hget. cbv beta iota zeta.
  rewrite Hn, Hm, Ht, Hp, Ho. cbv beta iota zeta.
  unfold sendMail.
  fold (razorpay_userMailOptions env userData name).
  fold (razorpay_adminMailOptions env name mail tel payment order).
  destruct (transport (razorpay_userMailOptions env userData name)) eqn:Hu;
    cbv beta iota zeta.
  - destruct (transport (razorpay_adminMailOptions env name mail tel payment order))
      eqn:Ha; cbv beta iota zeta; simpl.
    + eexists. rewrite <- app_assoc. split; [reflexivity|]. split; [reflexivity|].
      reflexivity.
    + exists [razorpay_userMailOptions env userData name].
      split; [reflexivity|]. split.
      * eexists [_]. reflexivity.
      * intros Hall. rewrite Hall in Ha. discriminate.
  - simpl. exists []. rewrite app_nil_r. split; [reflexivity|]. split.
    + apply prefix_nil.
    + intros Hall. rewrite Hall in Hu. discriminate.
Qed.

End RazorpayMore.

(** ** The Razorpay server: what every request leaves *)

Section RazorpayRuns.
Import Razorpay.
Context `{JSNumber} `{Crypto}.
Variable env : Env.

Lemma razorpay_register_world body gateway w :
  let w' := (register env body gateway w).2 in
  successfulPayments w' = successfulPayments w
  /\ outbox w' = outbox w
  /\ (userDataStore w' = userDataStore w
      \/ exists id userData,
           userDataStore w' = Map_set id userData (userDataStore w)).
Proof.
  unfold register, try_catch, bind, lift, ret, get_world, put_world.
  destruct (prop body "fullName") as [n|e]; [|simpl; auto].
  destruct (prop body "email") as [m|e]; [|simpl; auto].
  destruct (prop body "phone") as [p|e]; [|simpl; auto].
  destruct (negb (truthy n) || negb (truthy m) || negb (truthy p)); [simpl; auto|].
  destruct gateway as [order|e]; [|simpl; auto].
  destruct (prop order "id") as [id|e]; [|simpl; auto].
  destruct (prop order "amount") as [amount|e]; simpl; eauto 6.
Qed.

Local Ltac silent :=
  simpl; split; [reflexivity|]; split; [left; reflexivity|];
  exists []; rewrite app_nil_r; reflexivity.

(** The state after a verification is the state before it, unless the
    signature was valid; then the payment id has been added, the user
    data of the order may have been deleted and mails may have gone
    out. *)
Lemma verify_payment_world body transport w :
  let w' := (verify_payment env body transport w).2 in
  w' = w
  \/ (signature_valid env body = true
      /\ successfulPayments w'
         = Set_add (opt_prop body "razorpay_payment_id") (successfulPayments w)
      /\ (userDataStore w' = userDataStore w
          \/ userDataStore w'
             = Map_delete (opt_prop body "razorpay_order_id") (userDataStore w))
      /\ exists mails, outbox w' = outbox w ++ mails).
Proof.
  unfold verify_payment, try_catch, signature_valid.
  unfold bind, lift, ret, get_world, put_world.
  destruct (prop body "razorpay_payment_id") as [pid|e] eqn:Hpid; [|left; reflexivity].
  destruct (prop body "razorpay_order_id") as [oid|e] eqn:Hoid; [|left; reflexivity].
  destruct (prop body "razorpay_signature") as [sig|e] eqn:Hsig; [|left; reflexivity].
  apply prop_Ok in Hpid, Hoid, Hsig. subst pid oid sig.
  destruct (signature_text _ _) as [text|e]; [|left; reflexivity].
  unfold generate_signature.
  destruct (RAZORPAY_SECRET env) as [key|]; [|left; reflexivity].
  destruct (is_string _ _) eqn:Heq; [|left; reflexivity].
  right. split; [reflexivity|]. cbn [negb]. cbv beta iota zeta.
  destruct (Map_get _ (userDataStore w)) as [userData|]; [|silent].
  destruct (to_string (fullName userData)) as [name|e]; [|silent].
  destruct (to_string (email userData)) as [mail|e]; [|silent].
  destruct (to_string (phone userData)) as [tel|e]; [|silent].
  destruct (to_string (opt_prop body "razorpay_payment_id")) as [payment|e];
    [|silent].
  destruct (to_string (opt_prop body "razorpay_order_id")) as [order|e];
    [|silent].
  unfold sendMail.
  destruct (transport _); cbv beta iota zeta.
  - destruct (transport _); cbv beta iota zeta; simpl;
      (split; [reflexivity|]); (split; [auto|]).
    + eexists. rewrite <- app_assoc. reflexivity.
    + eexists. reflexivity.
  - simpl. split; [reflexivity|]. split; [auto|].
    exists []. rewrite app_nil_r. reflexivity.
Qed.

Lemma Set_add_elem v s p : p ∈ Set_add v s -> p ∈ s \/ p = v.
Proof.
  unfold Set_add. destruct (Set_has v s); [auto|].
  intros [Hp|Hp]%elem_of_app; [auto|].
  apply list_elem_of_singleton in Hp. auto.
Qed.

Lemma Set_has_Set_add p v s : Set_has p s = true -> Set_has p (Set_add v s) = true.
Proof.
  unfold Set_add. destruct (Set_has v s); [auto|].
  unfold Set_has. rewrite existsb_app. intros ->. reflexivity.
Qed.

Lemma razorpay_handle_payments req w p :
  p ∈ successfulPayments (handle env req w).2 ->
  p ∈ successfulPayments w
  \/ exists body transport,
       req = PostVerifyPayment body transport
       /\ signature_valid env body = true
       /\ p = opt_prop body "razorpay_payment_id".
Proof.
  destruct req as [body gateway|body transport|payment_id]; simpl.
  - destruct (razorpay_register_world body gateway w) as (-> & _). auto.
  - destruct (verify_payment_world body transport w)
      as [->|(Hvalid & -> & _)]; [auto|].
    intros [Hp|Hp]%Set_add_elem; [auto|]. right. eauto.
  - auto.
Qed.

(** X20. The successful-payments set only ever holds payment ids that came
    in a verify-payment request with a valid signature: every member
    after a run from the empty state is the payment id of such a request
    of the run. *)
Theorem only_verified_payments_succeed (reqs : list Request) (p : JVal) :
  p ∈ successfulPayments (run env reqs init) ->
  exists body transport,
    PostVerifyPayment body transport ∈ reqs
    /\ signature_valid env body = true
    /\ p = opt_prop body "razorpay_payment_id".
Proof.
  assert (Hgen : forall w,
    p ∈ successfulPayments (run env reqs w) ->
    p ∈ successfulPayments w
    \/ exists body transport,
         PostVerifyPayment body transport ∈ reqs
         /\ signature_valid env body = true
         /\ p = opt_prop body "razorpay_payment_id").
  { induction reqs as [|req reqs IH]; intros w; simpl; [auto|].
    intros Hp. destruct (IH _ Hp) as [Hw|(body & tr & Hin & Hv & Hp')].
    - destruct (razorpay_handle_payments req w p Hw)
        as [Hold|(body & tr & -> & Hv & Hp')]; [auto|].
      right. exists body, tr. split; [left|auto].
    - right. exists body, tr. split; [right; exact Hin|auto]. }
  intros Hp. destruct (Hgen init Hp) as [Hinit|Hex]; [|exact Hex].
  inversion Hinit.
Qed.

Lemma razorpay_Set_has_run reqs w p :
  Set_has p (successfulPayments w) = true ->
  Set_has p (successfulPayments (run env reqs w)) = true.
Proof.
  revert w. induction reqs as [|req reqs IH]; intros w Hp; simpl; [exact Hp|].
  apply IH. destruct req as [body gateway|body transport|payment_id]; simpl.
  - destruct (razorpay_register_world body gateway w) as (-> & _). exact Hp.
  - destruct (verify_payment_world body transport w)
      as [->|(_ & -> & _)]; [exact Hp|].
    apply Set_has_Set_add, Hp.
  - exact Hp.
Qed.

(** X21. check-payment changes nothing, and once it answers success for a
    payment id it does so after every later request. *)
Theorem verified_payment_stays_verified (reqs : list Request) (w : World)
    (payment_id : JVal) :
  (check_payment payment_id w).2 = w
  /\ ((check_payment payment_id w).1 = verified ->
      (check_payment payment_id (run env reqs w)).1 = verified).
Proof.
  split; [reflexivity|].
  unfold check_payment, verified. simpl. intros [= Hhas].
  rewrite (razorpay_Set_has_run reqs w payment_id Hhas). reflexivity.
Qed.

End RazorpayRuns.

(** ** The Razorpay server: a verification repeated *)

Section RazorpayIdempotence.
Import Razorpay.
Context `{JSNumber} `{Crypto}.
Variable env : Env.

Lemma string_key_found s m :
  s ∈ string_keys m <-> exists v, Map_get (JStr s) m = Some v.
Proof.
  induction m as [|[k v0] m IH]; simpl.
  - split; [inversion 1 | intros [v Hv]; discriminate].
  - unfold string_keys in *. simpl.
    destruct k; simpl; try exact IH.
    destruct (String.eqb_spec s0 s) as [->|Hne].
    + split; [eauto | left].
    + rewrite elem_of_cons, IH. split; [intros [?|?]; [congruence|auto] | auto].
Qed.

Lemma Map_set_string_keys key v m :
  NoDup (string_keys m) -> NoDup (string_keys (Map_set key v m)).
Proof.
  induction m as [|[k v0] m IH]; simpl; intros Hnd.
  - unfold string_keys. simpl. destruct key; simpl;
      try apply NoDup_nil_2; apply NoDup_singleton.
  - destruct (same_value_zero k key) eqn:Hk.
    + exact Hnd.
    + unfold string_keys in *. simpl in *.
      destruct k; simpl in *; auto.
      apply NoDup_cons in Hnd as [Hs Hnd]. apply NoDup_cons. split; [|auto].
      intros Hin. apply Hs. fold (string_keys m).
      fold (string_keys (Map_set key v m)) in Hin.
      apply string_key_found in Hin as [v1 Hv1]. apply string_key_found.
      clear IH Hnd Hs. revert Hv1.
      induction m as [|[k1 v2] m IHm]; simpl.
      * destruct (same_value_zero key (JStr s)) eqn:Hkey; [|discriminate].
        destruct key; simpl in *; try discriminate.
        rewrite String.eqb_sym in Hkey. congruence.
      * destruct (same_value_zero k1 key) eqn:Hk1; simpl;
          destruct (same_value_zero k1 (JStr s)) eqn:Hk1s; eauto.
Qed.

Lemma Map_delete_string_keys key m :
  NoDup (string_keys m) -> NoDup (string_keys (Map_delete key m)).
Proof.
  induction m as [|[k v0] m IH]; simpl; intros Hnd; [exact Hnd|].
  unfold string_keys in *. simpl in *.
  destruct (same_value_zero k key).
  - destruct k; simpl in *; auto. apply NoDup_cons in Hnd as [_ Hnd]. exact Hnd.
  - simpl. destruct k; simpl in *; auto.
    apply NoDup_cons in Hnd as [Hs Hnd]. apply NoDup_cons. split; [|auto].
    intros Hin. apply Hs. clear IH Hnd Hs. revert Hin.
    induction m as [|[k1 v2] m IHm]; simpl; [auto|].
    destruct (same_value_zero k1 key); simpl.
    + destruct k1; simpl; auto. intros Hin. right. exact Hin.
    + destruct k1; simpl; auto.
      intros [->|Hin]%elem_of_cons; [left | right; auto].
Qed.

Lemma razorpay_reachable_keys w : reachable env w -> NoDup (string_keys (userDataStore w)).
Proof.
  intros [reqs <-].
  assert (Hgen : forall w, NoDup (string_keys (userDataStore w)) ->
    NoDup (string_keys (userDataStore (run env reqs w)))).
  { induction reqs as [|req reqs IH]; intros w Hw; simpl; [exact Hw|].
    apply IH. destruct req as [body gateway|body transport|payment_id]; simpl.
    - destruct (razorpay_register_world env body gateway w)
        as (_ & _ & [-> | (id & u & ->)]); auto using Map_set_string_keys.
    - destruct (verify_payment_world env body transport w)
        as [->|(_ & _ & [-> | ->] & _)]; auto using Map_delete_string_keys.
    - exact Hw. }
  apply Hgen. apply NoDup_nil_2.
Qed.

Lemma Map_get_Map_delete_string s m :
  NoDup (string_keys m) -> Map_get (JStr s) (Map_delete (JStr s) m) = None.
Proof.
  induction m as [|[k v0] m IH]; simpl; intros Hnd; [reflexivity|].
  destruct (same_value_zero k (JStr s)) eqn:Hk.
  - destruct k; simpl in Hk; try discriminate.
    apply String.eqb_eq in Hk. subst s0.
    unfold string_keys in Hnd. simpl in Hnd.
    apply NoDup_cons in Hnd as [Hs _].
    destruct (Map_get (JStr s) m) as [v|] eqn:Hv; [|reflexivity].
    exfalso. apply Hs. apply string_key_found. eauto.
  - simpl. rewrite Hk. apply IH.
    unfold string_keys in *. simpl in Hnd.
    destruct k; simpl in Hnd; auto. apply NoDup_cons in Hnd as [_ Hnd]. exact Hnd.
Qed.

Lemma Set_add_twice s l : Set_add (JStr s) (Set_add (JStr s) l) = Set_add (JStr s) l.
Proof.
  unfold Set_add at 1.
  assert (Hin : Set_has (JStr s) (Set_add (JStr s) l) = true).
  { apply Set_has_add. simpl. apply String.eqb_refl. }
  rewrite Hin. reflexivity.
Qed.

(** The state after an accepted verification of order [o]: the payment
    id is in the set and the order has no user data any more. *)
Lemma verify_payment_accepted_world members transport w p o :
  let body := JObj members in
  opt_prop body "razorpay_payment_id" = JStr p ->
  opt_prop body "razorpay_order_id" = JStr o ->
  NoDup (string_keys (userDataStore w)) ->
  status (verify_payment env body transport w).1 = 200%Z ->
  signature_valid env body = true
  /\ successfulPayments (verify_payment env body transport w).2
     = Set_add (JStr p) (successfulPayments w)
  /\ Map_get (JStr o) (userDataStore (verify_payment env body transport w).2)
     = None.
Proof.
  intros body Hp Ho Hnd. subst body.
  unfold verify_payment, try_catch, signature_valid.
  unfold bind, lift, ret, get_world, put_world.
  rewrite !prop_object. cbv beta iota zeta. rewrite Hp, Ho.
  destruct (signature_text _ _) as [text|e]; [|discriminate].
  unfold generate_signature.
  destruct (RAZORPAY_SECRET env) as [key|]; [|discriminate].
  destruct (is_string _ _) eqn:Heq; [|discriminate].
  cbn [negb]. cbv beta iota zeta.
  destruct (Map_get _ (userDataStore w)) as [userData|] eqn:Hget;
    [|simpl; auto].
  destruct (to_string (fullName userData)) as [name|e]; [|discriminate].
  destruct (to_string (email userData)) as [mail|e]; [|discriminate].
  destruct (to_string (phone userData)) as [tel|e]; [|discriminate].
  change (to_string (JStr p)) with (Ok (A := string) p).
  change (to_string (JStr o)) with (Ok (A := string) o).
  cbv beta iota zeta. unfold sendMail.
  destruct (transport _); cbv beta iota zeta;
    [destruct (transport _); cbv beta iota zeta|];
    simpl; intros _; (split; [reflexivity|]); (split; [reflexivity|]);
    apply Map_get_Map_delete_string, Hnd.
Qed.

(** X22. An accepted verification repeated changes nothing and sends
    nothing: the first one has deleted the user data of the order, so
    the second finds none to write to, and the payment id is already in
    the set. *)
Theorem verify_payment_is_idempotent (members : list (string * JVal))
    (first second : Mail -> bool) (w : World) (p o : string) :
  let body := JObj members in
  reachable env w ->
  opt_prop body "razorpay_payment_id" = JStr p ->
  opt_prop body "razorpay_order_id" = JStr o ->
  status (verify_payment env body first w).1 = 200%Z ->
  verify_payment env body second (verify_payment env body first w).2
    = (verified, (verify_payment env body first w).2).
Proof.
  intros body Hreach Hp Ho Hst.
  apply razorpay_reachable_keys in Hreach.
  destruct (verify_payment_accepted_world members first w p o Hp Ho Hreach Hst)
    as (Hvalid & Hset & Hget).
  fold body in Hvalid, Hset, Hget.
  destruct (verify_payment env body first w) as [res w1]. cbn [fst snd] in *.
  unfold signature_valid in Hvalid.
  destruct (RAZORPAY_SECRET env) as [key|] eqn:Hkey; [|discriminate].
  destruct (signature_text _ _) as [text|] eqn:Htext; [|discriminate].
  apply razorpay_is_string_eq in Hvalid.
  subst body.
  rewrite (verify_payment_unknown_order env members second w1 key text)
    by (try assumption; rewrite Ho; exact Hget).
  rewrite Hp, Hset, Set_add_twice, <- Hset.
  destruct w1; reflexivity.
Qed.

End RazorpayIdempotence.

(** ** The Cashfree server: calls to the gateway *)

Section GatewayFacts.
Import Cashfree.
Context `{JSNumber}.
Variable env : Env.
Variable settings : Gateway.Settings.

Lemma credentials_present :
  credentials_missing env = false ->
  truthy (env_value (CASHFREE_APP_ID env)) = true
  /\ truthy (env_value (CASHFREE_SECRET_KEY env)) = true.
Proof.
  unfold credentials_missing.
  destruct (truthy (env_value (CASHFREE_APP_ID env)));
    destruct (truthy (env_value (CASHFREE_SECRET_KEY env)));
    simpl; intros; try discriminate; auto.
Qed.

Lemma api_version_present :
  truthy (Gateway.x_api_version (Gateway.getCashfreeHeaders env settings)) = true.
Proof.
  simpl. unfold js_or.
  destruct (truthy (env_value (Gateway.CASHFREE_API_VERSION settings))) eqn:Hv;
    [exact Hv | reflexivity].
Qed.

(** X23. Whenever order creation calls the gateway, the call is for a stored
    registration and carries its contact data, the order id made from
    its reference id and the clock, 99 INR, an application id and a
    secret that are both non-empty, and an API version that is never
    empty. *)
Theorem order_call_is_for_a_stored_registration (body : JVal) (now : Z)
    (w : World) (url : string) (data : Gateway.OrderData)
    (headers : Gateway.Headers) :
  Gateway.create_payment_order_call env settings body now w
    = Some (Gateway.Post url data headers) ->
  let reference := Gateway.customer_id (Gateway.customer_details data) in
  opt_prop body "referenceId" = JStr reference
  /\ (exists userData,
        assoc reference (registrations w) = Some userData
        /\ Gateway.customer_name (Gateway.customer_details data) = fullName userData
        /\ Gateway.customer_email (Gateway.customer_details data) = email userData
        /\ Gateway.customer_phone (Gateway.customer_details data) = phone userData)
  /\ Gateway.order_id data = order_id reference now
  /\ Gateway.order_amount data = 99%Z
  /\ Gateway.order_currency data = "INR"
  /\ truthy (Gateway.x_client_id headers) = true
  /\ truthy (Gateway.x_client_secret headers) = true
  /\ truthy (Gateway.x_api_version headers) = true.
Proof.
  unfold Gateway.create_payment_order_call.
  destruct (prop body "referenceId") as [ref|e] eqn:Href; [|discriminate].
  apply prop_Ok in Href. subst ref.
  destruct (negb (truthy _)); [discriminate|].
  destruct (Map_get _ (registrations w)) as [userData|] eqn:Hget; [|discriminate].
  apply Map_get_Some in Hget as (k & Hk & Hassoc). rewrite Hk.
  change (to_string (JStr k)) with (Ok (A := string) k). cbv beta iota zeta.
  destruct (credentials_missing env) eqn:Hcred; [discriminate|].
  intros [= <- <- <-]. simpl.
  destruct (credentials_present Hcred) as [Hid Hsecret].
  split; [reflexivity|]. split; [eauto 6|].
  repeat split; try assumption. apply api_version_present.
Qed.

(** X24. Where a handler does not get as far as its gateway call (a field is
    missing, the reference id is not stored, the order id cannot be
    printed or the credentials are not configured), its answer does
    not depend on what the gateway would have said, and the state is
    left as it was. *)
Theorem no_call_no_dependence (w : World) :
  (forall body now g1 g2,
     Gateway.create_payment_order_call env settings body now w = None ->
     create_payment_order env body now g1 w = create_payment_order env body now g2 w
     /\ (create_payment_order env body now g1 w).2 = w)
  /\ (forall orderId transport g1 g2,
     Gateway.check_payment_status_call env settings orderId = None ->
     check_payment_status env orderId g1 transport w
       = check_payment_status env orderId g2 transport w
     /\ (check_payment_status env orderId g1 transport w).2 = w).
Proof.
  split.
  - intros body now g1 g2.
    unfold Gateway.create_payment_order_call, create_payment_order, try_catch,
      bind, lift, ret, get_world, put_world.
    destruct (prop body "referenceId") as [ref|e]; [|auto].
    destruct (negb (truthy ref)); [auto|].
    destruct (Map_get ref (registrations w)) as [userData|] eqn:Hget; [|auto].
    apply Map_get_Some in Hget as (k & -> & _).
    change (to_string (JStr k)) with (Ok (A := string) k). cbv beta iota zeta.
    destruct (credentials_missing env); [auto | discriminate].
  - intros orderId transport g1 g2.
    unfold Gateway.check_payment_status_call, check_payment_status, try_catch,
      bind, lift, ret, get_world.
    destruct (negb (truthy orderId)); [auto|].
    destruct (credentials_missing env); [auto|].
    destruct (to_string orderId); [discriminate | auto].
Qed.

End GatewayFacts.

(** ** The further facts at work *)

Section CashfreeFurtherExamples.
Import Cashfree.
#[local] Existing Instance integer_numbers.

Lemma stored_record_survives_witness :
  exists userData',
    assoc "abc123007fe9"
      (registrations (handle env0 create_order (run env0 (take 1 until_paid) init)).2)
      = Some userData'
    /\ fullName userData' = JStr "A"
    /\ paymentConfirmed userData' = false.
Proof.
  destruct (stored_record_survives env0 create_order
              (run env0 (take 1 until_paid) init) "abc123007fe9"
              (registered (JStr "A") (JStr "a@x.com") (JStr "1") 1710000000000))
    as (u & Hu & Hname & _).
  - vm_compute. reflexivity.
  - intros random. discriminate.
  - exists u. split; [exact Hu|]. split; [exact Hname|].
    vm_compute in Hu. injection Hu as <-. reflexivity.
Defined.

Lemma check_payment_success_means_stored_witness :
  exists k userData,
    JStr "abc123007fe9" = JStr k
    /\ assoc k (registrations (run env0 until_paid init)) = Some userData.
Proof.
  apply (check_payment_success_means_stored env0 (run env0 until_paid init)
           (JStr "abc123007fe9")).
  - exists until_paid. reflexivity.
  - vm_compute. reflexivity.
Defined.

Lemma confirmation_is_never_revoked_witness :
  (check_payment (JStr "abc123007fe9")
     (run env0 [PostRegister second_registrant drawn 1710000009999; create_order]
        (run env0 until_paid init))).1
  = {| status := 200; json := JObj [("success", JBool true)] |}.
Proof.
  apply confirmation_is_never_revoked. vm_compute. reflexivity.
Defined.

Lemma transaction_id_means_paid_witness :
  paymentConfirmed paid_registrant = true.
Proof.
  apply (transaction_id_means_paid env0 (run env0 until_paid init)
           "abc123007fe9" paid_registrant).
  - exists until_paid. reflexivity.
  - vm_compute. reflexivity.
  - discriminate.
Defined.

Lemma confirmation_survives_mail_failure_witness :
  confirm_payment env0 legacy_confirmation (fun _ => false)
    (run env0 (take 2 until_paid) init)
  = (legacy_ok (JStr "abc123007fe9"),
     marked_paid "abc123007fe9" ordered_registrant (JStr "UPI-42")
       (run env0 (take 2 until_paid) init)).
Proof.
  destruct (confirmation_survives_mail_failure env0
              (run env0 (take 2 until_paid) init) "abc123007fe9"
              ordered_registrant "A" "a@x.com" "1" (fun _ => false))
    as (_ & _ & Hlegacy).
  - exists (take 2 until_paid). reflexivity.
  - vm_compute. reflexivity.
  - reflexivity.
  - reflexivity.
  - reflexivity.
  - reflexivity.
  - apply (Hlegacy legacy_confirmation "UPI-42"); reflexivity.
Defined.

Lemma unprintable_name_fails_after_marking_witness :
  let w := run env0 [PostRegister unprintable_registrant drawn 1710000000000]
             init in
  exists userData,
    confirm_payment env0 legacy_confirmation (fun _ => true) w
    = (something_went_wrong,
       marked_paid "abc123007fe9" userData (JStr "UPI-42") w).
Proof.
  intros w.
  exists (registered (JObj [("toString", JNum (1%Z : @number integer_numbers))])
            (JStr "u@x.com") (JStr "3") 1710000000000).
  destruct (unprintable_name_fails_after_marking env0 w "abc123007fe9"
              (registered (JObj [("toString", JNum (1%Z : @number integer_numbers))])
                 (JStr "u@x.com") (JStr "3") 1710000000000)
              (TypeError "Cannot convert object to primitive value")
              (fun _ => true))
    as (_ & _ & Hlegacy).
  - eexists. reflexivity.
  - vm_compute. reflexivity.
  - reflexivity.
  - apply Hlegacy; reflexivity.
Defined.

Lemma confirm_payment_marks_paid_witness :
  let w := run env0 (take 1 until_paid) init in
  "abc123007fe9"
    ∈ confirmedPayments (confirm_payment env0 legacy_confirmation (fun _ => true) w).2.
Proof.
  intros w.
  apply (confirm_payment_marks_paid env0 w "abc123007fe9"
           (registered (JStr "A") (JStr "a@x.com") (JStr "1") 1710000000000)
           legacy_confirmation (fun _ => true)).
  - exists (take 1 until_paid). reflexivity.
  - vm_compute. reflexivity.
  - reflexivity.
  - reflexivity.
Defined.

Lemma check_payment_status_ignores_unmatched_witness :
  let data : JVal := JObj [("order_status", JStr "ACTIVE")] in
  check_payment_status env0 (JStr "ORDER_abc123007fe9_1710000000500") (Ok data)
    (fun _ => true) (run env0 (take 2 until_paid) init)
  = (poll_ok (JStr "ACTIVE") data, run env0 (take 2 until_paid) init).
Proof.
  intros data.
  apply (check_payment_status_ignores_unmatched env0
           (JStr "ORDER_abc123007fe9_1710000000500")
           "ORDER_abc123007fe9_1710000000500").
  - reflexivity.
  - reflexivity.
  - reflexivity.
  - reflexivity.
  - left. discriminate.
Defined.

Lemma check_payment_status_refusals_witness :
  check_payment_status env_without_credentials (JStr "ORDER_1") (Ok paid_status)
    (fun _ => true) init
  = (configuration_error, init).
Proof.
  apply (check_payment_status_refusals env_without_credentials (JStr "ORDER_1")
           (Ok paid_status) (fun _ => true) init); reflexivity.
Defined.

Lemma create_payment_order_refusals_witness :
  create_payment_order env0 (JObj [("referenceId", JStr "ffffffffffff")])
    1710000000500 (Ok (JObj [])) (run env0 (take 1 until_paid) init)
  = (invalid_reference, run env0 (take 1 until_paid) init).
Proof.
  apply (create_payment_order_refusals env0 [("referenceId", JStr "ffffffffffff")]
           1710000000500 (Ok (JObj [])) (run env0 (take 1 until_paid) init));
    reflexivity.
Defined.

Lemma confirm_payment_refusals_witness :
  confirm_payment env0 (JObj [("referenceId", JStr "abc123007fe9")])
    (fun _ => true) (run env0 (take 1 until_paid) init)
  = ({| status := 400;
        json := JObj [("error",
          JStr "Reference ID and Transaction ID are required")] |},
     run env0 (take 1 until_paid) init).
Proof.
  apply (confirm_payment_refusals env0 [("referenceId", JStr "abc123007fe9")]
           (fun _ => true) (run env0 (take 1 until_paid) init)).
  right. reflexivity.
Defined.

Lemma webhook_without_order_id_confirms_witness :
  let w := run env0 (take 1 until_paid) init in
  exists k userData,
    assoc k (registrations w) = Some userData
    /\ orderId userData = None
    /\ k ∈ confirmedPayments
             (cashfree_webhook env0 orderless_webhook (fun _ => true) w).2.
Proof.
  intros w.
  destruct (webhook_without_order_id_confirms env0 w "abc123007fe9"
              (registered (JStr "A") (JStr "a@x.com") (JStr "1") 1710000000000)
              orderless_webhook (fun _ => true))
    as (k & u & Hk & Ho & _ & Hin).
  - exists (take 1 until_paid). reflexivity.
  - vm_compute. reflexivity.
  - reflexivity.
  - reflexivity.
  - reflexivity.
  - exists k, u. auto.
Defined.

Lemma order_call_is_for_a_stored_registration_witness :
  let data :=
    {| Gateway.order_id := "ORDER_abc123007fe9_1710000000500";
       Gateway.order_amount := 99;
       Gateway.order_currency := "INR";
       Gateway.customer_details :=
         {| Gateway.customer_id := "abc123007fe9";
            Gateway.customer_name := JStr "A";
            Gateway.customer_email := JStr "a@x.com";
            Gateway.customer_phone := JStr "1" |};
       Gateway.return_url :=
         "https://inspiringshereen.vercel.app/payment?order_id={order_id}&reference_id=abc123007fe9" |} in
  Gateway.create_payment_order_call env0 settings0
    (JObj [("referenceId", JStr "abc123007fe9")]) 1710000000500
    (run env0 (take 1 until_paid) init)
  = Some (Gateway.Post "https://api.cashfree.com/pg/orders" data
            (Gateway.getCashfreeHeaders env0 settings0))
  /\ Gateway.x_api_version (Gateway.getCashfreeHeaders env0 settings0)
     = JStr "2022-09-01"
  /\ exists userData,
       assoc "abc123007fe9" (registrations (run env0 (take 1 until_paid) init))
         = Some userData
       /\ JStr "A" = fullName userData.
Proof.
  intros data.
  assert (Hcall : Gateway.create_payment_order_call env0 settings0
    (JObj [("referenceId", JStr "abc123007fe9")]) 1710000000500
    (run env0 (take 1 until_paid) init)
    = Some (Gateway.Post "https://api.cashfree.com/pg/orders" data
              (Gateway.getCashfreeHeaders env0 settings0)))
    by (vm_compute; reflexivity).
  split; [exact Hcall|]. split; [reflexivity|].
  destruct (order_call_is_for_a_stored_registration env0 settings0 _ _ _ _ _ _ Hcall)
    as (_ & (userData & Hk & Hname & _) & _).
  exists userData. split; [exact Hk | exact Hname].
Defined.

Lemma no_call_no_dependence_witness :
  create_payment_order env_without_credentials
    (JObj [("referenceId", JStr "abc123007fe9")]) 1710000000500
    (Ok (JObj [("payment_session_id", JStr "session_1")]))
    (run env_without_credentials (take 1 until_paid) init)
  = create_payment_order env_without_credentials
      (JObj [("referenceId", JStr "abc123007fe9")]) 1710000000500
      (Throw (TypeError "Network Error"))
      (run env_without_credentials (take 1 until_paid) init).
Proof.
  apply (no_call_no_dependence env_without_credentials settings0).
  reflexivity.
Defined.

End CashfreeFurtherExamples.

Section RazorpayFurtherExamples.
Import Razorpay.
#[local] Existing Instance integer_numbers.
#[local] Existing Instance tagging_hmac.

Lemma razorpay_register_stores_user_data_witness :
  Map_get (JStr "order_9")
    (userDataStore (register razorpay_env0 registrant (Ok razorpay_order) init).2)
  = Some {| fullName := JStr "A"; email := JStr "a@x.com"; phone := JStr "1" |}.
Proof.
  destruct (razorpay_register_stores_user_data razorpay_env0
      [("fullName", JStr "A"); ("email", JStr "a@x.com"); ("phone", JStr "1")]
      init) as [_ Hstored].
  - reflexivity.
  - reflexivity.
  - reflexivity.
  - destruct (Hstored razorpay_order "order_9") as (_ & Hget & _);
      [reflexivity | exact Hget].
Defined.

Lemma verify_payment_without_secret_witness :
  verify_payment razorpay_env_without_secret (JObj signed_payment)
    (fun _ => true) (run razorpay_env_without_secret razorpay_registered init)
  = (verification_failed,
     run razorpay_env_without_secret razorpay_registered init).
Proof. apply verify_payment_without_secret. reflexivity. Defined.

Lemma verify_payment_with_user_data_witness :
  exists mails,
    verify_payment razorpay_env0 (JObj signed_payment) (fun _ => false)
      (run razorpay_env0 razorpay_registered init)
    = (verified,
       {| successfulPayments := [JStr "pay_9"];
          userDataStore := [];
          outbox := mails |}).
Proof.
  destruct (verify_payment_with_user_data razorpay_env0 signed_payment
              (fun _ => false) (run razorpay_env0 razorpay_registered init)
              {| fullName := JStr "A"; email := JStr "a@x.com"; phone := JStr "1" |}
              "A" "a@x.com" "1" "pay_9" "order_9")
    as (mails & Hres & _).
  - reflexivity.
  - reflexivity.
  - reflexivity.
  - reflexivity.
  - reflexivity.
  - reflexivity.
  - reflexivity.
  - exists mails. rewrite Hres. vm_compute. reflexivity.
Defined.

Lemma only_verified_payments_succeed_witness :
  exists body transport,
    PostVerifyPayment body transport
      ∈ razorpay_registered ++ [PostVerifyPayment (JObj signed_payment) (fun _ => true)]
    /\ signature_valid razorpay_env0 body = true
    /\ JStr "pay_9" = opt_prop body "razorpay_payment_id".
Proof.
  apply (only_verified_payments_succeed razorpay_env0).
  vm_compute. left.
Defined.

Lemma verified_payment_stays_verified_witness :
  (check_payment (JStr "pay_9")
     (run razorpay_env0 razorpay_registered
        (run razorpay_env0
           (razorpay_registered
              ++ [PostVerifyPayment (JObj signed_payment) (fun _ => true)])
           init))).1
  = verified.
Proof.
  apply verified_payment_stays_verified. reflexivity.
Defined.

Lemma verify_payment_is_idempotent_witness :
  let w := run razorpay_env0 razorpay_registered init in
  let w1 := (verify_payment razorpay_env0 (JObj signed_payment) (fun _ => true) w).2 in
  verify_payment razorpay_env0 (JObj signed_payment) (fun _ => true) w1
  = (verified, w1).
Proof.
  intros w w1.
  apply (verify_payment_is_idempotent razorpay_env0 signed_payment
           (fun _ => true) (fun _ => true) w "pay_9" "order_9").
  - exists razorpay_registered. reflexivity.
  - reflexivity.
  - reflexivity.
  - reflexivity.
Defined.

(** The Razorpay server sends the pair of mails of an order once: the
    outbox after a second accepted verification is the outbox after the
    first. *)
Lemma razorpay_mails_go_out_once :
  let w := run razorpay_env0 razorpay_registered init in
  let w1 := (verify_payment razorpay_env0 (JObj signed_payment) (fun _ => true) w).2 in
  length (outbox w1) = 2
  /\ length (outbox (verify_payment razorpay_env0 (JObj signed_payment)
                       (fun _ => true) w1).2) = 2.
Proof. split; reflexivity. Qed.

End RazorpayFurtherExamples.
